(** * jout ps: the process collectors of antonmedv/jout

  A shallow embedding of the three platform collectors of [cmd/ps]
  (Linux [/proc], Darwin [ps axo], Windows PowerShell CIM) and of the
  helpers they are built from, with the properties of the
  specification stated and proved over it.

  Go strings are byte sequences: they are modelled as [list ascii].
  [int], [int64] and [uint64] are modelled as [Z] with the wrap-around
  written out where the code can reach it.  The Go standard library
  functions the collectors call ([strings], [strconv], [bufio],
  [time.Date]) are modelled from their documented behaviour in the
  modules [Strings], [Strconv], [Bufio] and [Time]. *)

From Stdlib Require Import ZArith Ascii String List Lia Bool.
From stdpp Require Import base option list gmap strings.
Import ListNotations.

#[local] Open Scope Z_scope.

(** A Go [string]: an immutable sequence of bytes. *)
Abbreviation gostring := (list ascii).

(** Literals are written as ordinary string literals. *)
Coercion list_ascii_of_string : string >-> list.

Definition code (c : ascii) : Z := Z.of_N (N_of_ascii c).

Definition isDigit (c : ascii) : bool := (48 <=? code c) && (code c <=? 57).

Definition digitVal (c : ascii) : Z := code c - 48.

(** [len(s)] *)
Definition len (s : gostring) : Z := Z.of_nat (length s).

(** [s[lo:hi]], [s[lo:]] and [s[:hi]] for indices the caller has checked. *)
Definition slice (s : gostring) (lo hi : Z) : gostring :=
take (Z.to_nat (hi - lo)) (drop (Z.to_nat lo) s).
Definition sliceFrom (s : gostring) (lo : Z) : gostring := drop (Z.to_nat lo) s.
Definition sliceTo (s : gostring) (hi : Z) : gostring := take (Z.to_nat hi) s.

Definition streq (a b : gostring) : bool := bool_decide (a = b).

(** 64-bit two's complement wrap-around of a mathematical integer. *)
Definition wrap64 (z : Z) : Z := (z + 2 ^ 63) mod 2 ^ 64 - 2 ^ 63.

Definition maxInt64 : Z := 2 ^ 63 - 1.
Definition minInt64 : Z := - 2 ^ 63.

(** ** Package [strings] *)
Module Strings.

(** The byte length of the white-space rune (as [unicode.IsSpace] has
    it) whose UTF-8 encoding starts the string, [0] when there is
    none.  With [bwd] the string is read backwards, as
    [utf8.DecodeLastRuneInString] does for [TrimRightFunc]. *)
Definition isSpace1 (a : ascii) : bool :=
  ((9 <=? code a) && (code a <=? 13)) || (code a =? 32).

Definition isSpace2 (a b : ascii) : bool :=
  (code a =? 0xC2) && ((code b =? 0x85) || (code b =? 0xA0)).

Definition isSpace3 (a b c : ascii) : bool :=
  ((code a =? 0xE1) && (code b =? 0x9A) && (code c =? 0x80))
  || ((code a =? 0xE2) && (code b =? 0x80)
      && (((0x80 <=? code c) && (code c <=? 0x8A))
          || (code c =? 0xA8) || (code c =? 0xA9) || (code c =? 0xAF)))
  || ((code a =? 0xE2) && (code b =? 0x81) && (code c =? 0x9F))
  || ((code a =? 0xE3) && (code b =? 0x80) && (code c =? 0x80)).

Definition spaceRuneLen (bwd : bool) (s : gostring) : nat :=
  match s with
  | a :: t =>
      if isSpace1 a then 1%nat else
      match t with
      | b :: u =>
          if (if bwd then isSpace2 b a else isSpace2 a b) then 2%nat else
          match u with
          | c :: _ =>
              if (if bwd then isSpace3 c b a else isSpace3 a b c)
              then 3%nat else 0%nat
          | [] => 0%nat
          end
      | [] => 0%nat
      end
  | [] => 0%nat
  end.

(** Drop the white-space runes at the head; [skip] counts the bytes of
    a multi-byte rune still to be dropped. *)
Fixpoint trimHead (bwd : bool) (skip : nat) (s : gostring) : gostring :=
  match s with
  | [] => []
  | _ :: t =>
      match skip with
      | S k => trimHead bwd k t
      | O =>
          match spaceRuneLen bwd s with
          | O => s
          | S k => trimHead bwd k t
          end
      end
  end.

(** [strings.TrimSpace] *)
Definition TrimSpace (s : gostring) : gostring :=
  rev (trimHead true 0 (rev (trimHead false 0 s))).

(** [strings.IndexByte]: the index of the first [c], [-1] if absent. *)
Fixpoint IndexByte (s : gostring) (c : ascii) : Z :=
  match s with
  | [] => -1
  | a :: t =>
      if Ascii.eqb a c then 0
      else let i := IndexByte t c in if i <? 0 then -1 else i + 1
  end.

(** [strings.LastIndexByte] *)
Fixpoint LastIndexByte (s : gostring) (c : ascii) : Z :=
  match s with
  | [] => -1
  | a :: t =>
      let i := LastIndexByte t c in
      if 0 <=? i then i + 1 else if Ascii.eqb a c then 0 else -1
  end.

(** [strings.IndexAny] for a set of ASCII bytes. *)
Fixpoint IndexAny (s : gostring) (chars : gostring) : Z :=
  match s with
  | [] => -1
  | a :: t =>
      if existsb (Ascii.eqb a) chars then 0
      else let i := IndexAny t chars in if i <? 0 then -1 else i + 1
  end.

(** [strings.HasPrefix] *)
Fixpoint HasPrefix (s prefix : gostring) : bool :=
  match prefix, s with
  | [], _ => true
  | p :: ps, a :: t => Ascii.eqb a p && HasPrefix t ps
  | _ :: _, [] => false
  end.

(** [strings.TrimPrefix] *)
Definition TrimPrefix (s prefix : gostring) : gostring :=
  if HasPrefix s prefix then drop (length prefix) s else s.

(** [strings.Split] for a one-byte separator: the pieces between the
    separators, always at least one piece. *)
Fixpoint splitGo (sep : ascii) (cur : gostring) (s : gostring) : list gostring :=
  match s with
  | [] => [rev cur]
  | a :: t =>
      if Ascii.eqb a sep then rev cur :: splitGo sep [] t
      else splitGo sep (a :: cur) t
  end.

Definition Split (s : gostring) (sep : ascii) : list gostring := splitGo sep [] s.

(** [strings.SplitN] for a one-byte separator and [n > 0]: at most
    [n] pieces, the last one the unsplit remainder. *)
Fixpoint splitNGo (sep : ascii) (n : nat) (cur : gostring) (s : gostring)
  : list gostring :=
  match n with
  | O => []
  | S O => [rev cur ++ s]
  | S m =>
      match s with
      | [] => [rev cur]
      | a :: t =>
          if Ascii.eqb a sep then rev cur :: splitNGo sep m [] t
          else splitNGo sep n (a :: cur) t
      end
  end.

Definition SplitN (s : gostring) (sep : ascii) (n : nat) : list gostring :=
  splitNGo sep n [] s.

(** [strings.Fields]: the maximal runs of non-white-space bytes. *)
Definition flush (cur : gostring) : list gostring :=
  match cur with [] => [] | _ => [rev cur] end.

Fixpoint fieldsGo (skip : nat) (cur : gostring) (s : gostring) : list gostring :=
  match s with
  | [] => flush cur
  | a :: t =>
      match skip with
      | S k => fieldsGo k cur t
      | O =>
          match spaceRuneLen false s with
          | O => fieldsGo 0 (a :: cur) t
          | S k => flush cur ++ fieldsGo k [] t
          end
      end
  end.

Definition Fields (s : gostring) : list gostring := fieldsGo 0 [] s.

(** [strings.Join] *)
Fixpoint Join (parts : list gostring) (sep : gostring) : gostring :=
  match parts with
  | [] => []
  | [p] => p
  | p :: rest => p ++ sep ++ Join rest sep
  end.

(** [strings.ReplaceAll(s, old, "")] for a one-byte [old]. *)
Definition RemoveByte (s : gostring) (old : ascii) : gostring :=
  filter (fun a => a <> old) s.

(** [strings.TrimRight(s, cutset)] for a one-byte cutset. *)
Fixpoint dropLeading (c : ascii) (s : gostring) : gostring :=
  match s with
  | a :: t => if Ascii.eqb a c then dropLeading c t else s
  | [] => []
  end.

Definition TrimRightByte (s : gostring) (c : ascii) : gostring :=
  rev (dropLeading c (rev s)).

End Strings.

(** ** Package [strconv] *)
Module Strconv.

(** [*strconv.NumError]: the two ways a conversion fails. *)
Inductive NumError := ErrSyntax | ErrRange.

(** The digit loop of [strconv.ParseUint(s, 10, bitSize)]: on
    overflow it stops at once with the largest value of the size. *)
Fixpoint parseUintLoop (maxVal : Z) (n : Z) (s : gostring) : Z * option NumError :=
  match s with
  | [] => (n, None)
  | c :: t =>
      if isDigit c then
        if (2 ^ 64 - 1) / 10 + 1 <=? n then (maxVal, Some ErrRange)
        else
          let n1 := n * 10 + digitVal c in
          if maxVal <? n1 then (maxVal, Some ErrRange)
          else parseUintLoop maxVal n1 t
      else (0, Some ErrSyntax)
  end.

(** [strconv.ParseUint(s, 10, bitSize)] *)
Definition ParseUint (s : gostring) (bitSize : Z) : Z * option NumError :=
  match s with
  | [] => (0, Some ErrSyntax)
  | _ => parseUintLoop (2 ^ bitSize - 1) 0 s
  end.

(** [strconv.ParseInt(s, 10, 64)] *)
Definition ParseInt (s : gostring) : Z * option NumError :=
  match s with
  | [] => (0, Some ErrSyntax)
  | c :: t =>
      let neg := Ascii.eqb c "-" in
      let s' := if Ascii.eqb c "+" || neg then t else s in
      match ParseUint s' 64 with
      | (_, Some ErrSyntax) => (0, Some ErrSyntax)
      | (un, _) =>
          if negb neg && (2 ^ 63 <=? un) then (2 ^ 63 - 1, Some ErrRange)
          else if neg && (2 ^ 63 <? un) then (- 2 ^ 63, Some ErrRange)
          else (if neg then - un else un, None)
      end
  end.

(** [strconv.Atoi]: on a 64-bit target, [ParseInt(s, 10, 0)]. *)
Definition Atoi (s : gostring) : Z * option NumError := ParseInt s.

(** [strconv.Itoa]: the decimal digits, most significant first, with
    a leading [-] for a negative number.  Twenty digits are enough
    for a 64-bit number. *)
Definition digitChar (d : Z) : ascii := ascii_of_N (Z.to_N (48 + d)).

Fixpoint digitsGo (fuel : nat) (n : Z) (acc : gostring) : gostring :=
match fuel with
| O => acc
| S f =>
    let acc := digitChar (n mod 10) :: acc in
    if n <? 10 then acc else digitsGo f (n / 10) acc
end.

Definition Itoa (i : Z) : gostring :=
if i <? 0 then "-"%char :: digitsGo 20 (- i) [] else digitsGo 20 i [].

End Strconv.


(** ** Package [bufio] *)
Module Bufio.

(** [bufio.MaxScanTokenSize], the token limit of a scanner whose buffer
    was not set. *)
Definition MaxScanTokenSize : Z := 64 * 1024.

(** [dropCR], applied to the reversed line. *)
Definition dropCR (cur : gostring) : gostring :=
match cur with
| c :: r => if Ascii.eqb c "013" then rev r else rev cur
| [] => []
end.

(** What a [bufio.Scanner] with the split function [ScanLines] and the
    token limit [maxTok] delivers on the input [s]: the lines in
    order, each without its line end, and whether the scan stopped
    with [ErrTooLong].  A line only fits when its bytes (the newline
    not counted) number less than [maxTok]; the scan stops at the
    first one that does not, and the lines behind it are never
    delivered.  [cur] is the current line, reversed, and [n] its
    length. *)
Fixpoint scanGo (maxTok : Z) (cur : gostring) (n : Z) (s : gostring)
  : list gostring * bool :=
match s with
| [] =>
    if n =? 0 then ([], false)
    else if n <? maxTok then ([dropCR cur], false)
    else ([], true)
| a :: t =>
    if Ascii.eqb a "010" then
      if n <? maxTok then
        let (ls, e) := scanGo maxTok [] 0 t in (dropCR cur :: ls, e)
      else ([], true)
    else scanGo maxTok (a :: cur) (n + 1) t
end.

Definition scanLines (maxTok : Z) (s : gostring) : list gostring * bool :=
scanGo maxTok [] 0 s.

(** The text of a list of lines, each ended by a newline. *)
Definition unlines (ls : list gostring) : gostring :=
concat (map (fun l => l ++ ["010"%char]) ls).

End Bufio.

(** ** Package [time] *)
Module Time.

(** An instant: the seconds since the Unix epoch and the nanoseconds
    within the second. *)
Record Time := mkTime { unixSec : Z; nsec : Z }.

(** The zero [time.Time]: January 1, year 1, 00:00:00 UTC. *)
Definition zero : Time := mkTime (-62135596800) 0.

(** [t.IsZero()] *)
Definition IsZero (t : Time) : bool :=
(unixSec t =? -62135596800) && (nsec t =? 0).

(** [time.Unix(sec, 0)] *)
Definition Unix (sec : Z) : Time := mkTime sec 0.

(** [t.UnixNano()], an [int64]. *)
Definition UnixNano (t : Time) : Z := wrap64 (unixSec t * 1000000000 + nsec t).

Definition isLeap (y : Z) : bool :=
(y mod 4 =? 0) && (negb (y mod 100 =? 0) || (y mod 400 =? 0)).

(** The days of a year before the first of month [m] (1 to 12), leap
    day not counted. *)
Definition daysBefore (m : Z) : Z :=
nth (Z.to_nat (m - 1)) [0; 31; 59; 90; 120; 151; 181; 212; 243; 273; 304; 334] 0.

(** The days from January 1 of year 1 to January 1 of year [y] in the
    proleptic Gregorian calendar. *)
Definition daysSinceYear1 (y : Z) : Z :=
let p := y - 1 in 365 * p + p / 4 - p / 100 + p / 400.

(** [time.Date(year, month, day, hour, min, sec, nsec, loc)] for a
    location [time.FixedZone("", east)], [east] seconds east of UTC.
    Month, hour, minute, second and nanosecond outside their usual
    ranges are normalized, overflowing into the next larger unit; the
    day is counted from the first of the normalized month. *)
Definition Date (year month day hour min sec nsec east : Z) : Time :=
let m0 := month - 1 in
let year := year + m0 / 12 in
let month := m0 mod 12 + 1 in
let sec := sec + nsec / 1000000000 in
let nsec := nsec mod 1000000000 in
let min := min + sec / 60 in
let sec := sec mod 60 in
let hour := hour + min / 60 in
let min := min mod 60 in
let day := day + hour / 24 in
let hour := hour mod 24 in
let d := daysSinceYear1 year + daysBefore month
         + (if isLeap year && (3 <=? month) then 1 else 0) + (day - 1) in
mkTime (d * 86400 + hour * 3600 + min * 60 + sec - 62135596800 - east) nsec.

(** The functions of package [time] that are taken as given: the
    RFC 3339 rendering [t.UTC().Format(time.RFC3339)] and the whole
    seconds [int64(now.Sub(start).Seconds())], which goes through
    [float64]. *)
Record Lib := mkLib {
  formatRFC3339 : Time -> gostring;
  sinceSeconds : Time -> Time -> Z
}.

End Time.

(** ** The record type of package [ps] *)

(** A Go [error], by its message. *)
Abbreviation error := (list ascii).

Inductive result (A : Type) : Type :=
| Ok (a : A)
| Err (e : error).
Arguments Ok {A} a.
Arguments Err {A} e.

(** A [float64] value by the expression that computes it; no rounding
    is modelled. *)
Inductive float64 : Type :=
| F64ofInt (z : Z)
| F64div (a b : float64).

Record ProcIO := mkProcIO { ReadBytes : Z; WriteBytes : Z }.

Record ProcNamespaces := mkProcNamespaces {
  NsMnt : gostring; NsPID : gostring; NsNet : gostring; NsUTS : gostring;
  NsIPC : gostring; NsUser : gostring; NsCgroup : gostring
}.

(** [type Process struct]; a pointer field is an [option]. *)
Record Process := mkProcess {
  PID : Z;
  PPID : Z;
  UID : Z;
  GID : Z;
  User : gostring;
  Group : gostring;
  State : gostring;
  TTY : gostring;
  Comm : gostring;
  Command : gostring;
  Exe : gostring;
  Cwd : gostring;
  CPUUserSeconds : float64;
  CPUSystemSeconds : float64;
  MemRSSBytes : Z;
  MemVMSBytes : Z;
  MemSwapBytes : Z;
  Threads : option Z;
  Nice : option Z;
  Priority : option Z;
  StartTime : gostring;
  StartTimeUnixNs : Z;
  ElapsedSeconds : option Z;
  Cgroup : option gostring;
  Cgroups : option (list gostring);
  NS : option ProcNamespaces;
  ContainerID : option gostring;
  IO : option ProcIO;
  SELinuxLabel : option gostring
}.

(** [int64] arithmetic. *)
Definition add64 (a b : Z) : Z := wrap64 (a + b).
Definition mul64 (a b : Z) : Z := wrap64 (a * b).
Definition neg64 (a : Z) : Z := wrap64 (- a).

(** [e == nil] for an error returned next to a value. *)
Definition isNil {A : Type} (e : option A) : bool :=
match e with None => true | Some _ => false end.

(** [fields[i]] for an index the caller has checked. *)
Definition at_ (l : list gostring) (i : nat) : gostring := nth i l [].

(** * The Darwin collector ([ps axo ...]) *)
Module Darwin.

(** [firstStateRune] *)
Definition firstStateRune (state : gostring) : gostring :=
let state := Strings.TrimSpace state in
match state with
| [] => []
| _ => sliceTo state 1
end.

(** [parseElapsedToSeconds]: the [ps(1)] formats [MM:SS], [HH:MM:SS]
    and [DD-HH:MM:SS]. *)
Definition parseElapsedToSeconds (s : gostring) : Z :=
let s := Strings.TrimSpace s in
match s with
| [] => 0
| _ =>
    let i := Strings.IndexByte s "-" in
    let '(days, s) :=
      if 0 <=? i then
        let '(d, err) := Strconv.ParseInt (sliceTo s i) in
        (if isNil err then d else 0, sliceFrom s (i + 1))
      else (0, s) in
    let parts := Strings.Split s ":" in
    if (length parts <? 2)%nat || (3 <? length parts)%nat then 0
    else
      let '(h, m, sec) :=
        if (length parts =? 3)%nat then
          let '(h, err) := Strconv.ParseInt (at_ parts 0) in
          let h := if isNil err then h else 0 in
          let m := fst (Strconv.ParseInt (at_ parts 1)) in
          let sec := fst (Strconv.ParseInt (at_ parts 2)) in
          (h, m, sec)
        else
          let m := fst (Strconv.ParseInt (at_ parts 0)) in
          let sec := fst (Strconv.ParseInt (at_ parts 1)) in
          (0, m, sec) in
      add64 (add64 (add64 (mul64 days 86400) (mul64 h 3600)) (mul64 m 60)) sec
end.

(** [now.Add(-time.Duration(elapsed) * time.Second)] *)
Definition startOf (now : Time.Time) (elapsed : Z) : Time.Time :=
let d := mul64 (neg64 elapsed) 1000000000 in
let total := Time.nsec now + d in
Time.mkTime (Time.unixSec now + total / 1000000000) (total mod 1000000000).

(** The body of the scanner loop of [collectProcesses] for one line:
    [None] where the loop continues without a record. *)
Definition parseLine (tl : Time.Lib) (now : Time.Time) (text : gostring)
  : option Process :=
let line := Strings.TrimSpace text in
match line with
| [] => None
| _ =>
    let fields := Strings.Fields line in
    if (length fields <? 15)%nat then None
    else
      let pid := fst (Strconv.Atoi (at_ fields 0)) in
      let ppid := fst (Strconv.Atoi (at_ fields 1)) in
      let uid64 := fst (Strconv.ParseUint (at_ fields 2) 32) in
      let rgid64 := fst (Strconv.ParseUint (at_ fields 3) 32) in
      let user := at_ fields 4 in
      let group := at_ fields 5 in
      let state := at_ fields 6 in
      let tty := at_ fields 7 in
      let tty := if streq tty "??" || streq tty "-" then [] else tty in
      let comm := at_ fields 8 in
      let cputimeSec := parseElapsedToSeconds (at_ fields 9) in
      let rssKB := fst (Strconv.ParseInt (at_ fields 10)) in
      let vszKB := fst (Strconv.ParseInt (at_ fields 11)) in
      let nice := fst (Strconv.Atoi (at_ fields 12)) in
      let priority := fst (Strconv.Atoi (at_ fields 13)) in
      let elapsed := parseElapsedToSeconds (at_ fields 14) in
      let start := startOf now elapsed in
      let command := Strings.Join (drop 15 fields) " " in
      Some {|
        PID := pid; PPID := ppid; UID := uid64; GID := rgid64;
        User := user; Group := group;
        State := firstStateRune state; TTY := tty; Comm := comm;
        Command := command;
        Exe := []; Cwd := [];
        CPUUserSeconds := F64ofInt cputimeSec;
        CPUSystemSeconds := F64ofInt 0;
        MemRSSBytes := mul64 rssKB 1024;
        MemVMSBytes := mul64 vszKB 1024;
        MemSwapBytes := 0;
        Threads := None; Nice := Some nice; Priority := Some priority;
        StartTime := Time.formatRFC3339 tl start;
        StartTimeUnixNs := Time.UnixNano start;
        ElapsedSeconds := Some elapsed;
        Cgroup := None; Cgroups := None; NS := None; ContainerID := None;
        IO := None; SELinuxLabel := None
      |}
end.

(** [collectProcesses]; [psOut] is what
    [exec.Command("ps", "axo", spec).Output()] returned.  The scanner
    has a buffer of 1 MiB. *)
Definition collectProcesses (tl : Time.Lib) (now : Time.Time)
  (psOut : result gostring) : result (list Process) :=
match psOut with
| Err e => Err e
| Ok out =>
    let (lines, tooLong) := Bufio.scanLines (1024 * 1024) out in
    let procs := omap (parseLine tl now) lines in
    if tooLong then Err "bufio.Scanner: token too long" else Ok procs
end.

End Darwin.

(** * [naiveShellSplit]

    The function ranges over the runes of its argument and writes
    runes to the token under construction; here a string is the
    sequence of its runes. *)
Module Shell.

(** A rune, by its code point. *)
Abbreviation rune := Z.

(** The closure [flush]: the token under construction is appended to
    the result unless it is empty. *)
Definition flush (res : list (list rune)) (buf : list rune) : list (list rune) :=
match buf with
| [] => res
| _ => res ++ [buf]
end.

(** The loop, with the variables [res], [buf] and [quote], and the
    final [flush]. *)
Fixpoint splitLoop (s : list rune) (res : list (list rune)) (buf : list rune)
  (quote : rune) : list (list rune) :=
match s with
| [] => flush res buf
| r :: t =>
    if (quote =? 0) && ((r =? 9) || (r =? 32)) then splitLoop t (flush res buf) [] quote
    else if (quote =? 0) && ((r =? 39) || (r =? 34)) then splitLoop t res buf r
    else if negb (quote =? 0) && (r =? quote) then splitLoop t res buf 0
    else splitLoop t res (buf ++ [r]) quote
end.

(** [naiveShellSplit] *)
Definition naiveShellSplit (s : list rune) : list (list rune) :=
splitLoop s [] [] 0.

End Shell.

(** * The Linux collector ([/proc]) *)
Module Linux.

(** An [os.DirEntry], by what the collector asks of it. *)
Record DirEntry := mkDirEntry { EntryName : gostring; EntryIsDir : bool }.

(** The operating system as the collector sees it: the directory
    listing, whole-file reads ([os.ReadFile], or [os.Open] and a read
    to the end), symbolic links, the identity database of [os/user]
    (a found entry by its name), [sysconf(_SC_CLK_TCK)], and
    [fmt.Sscanf] of one unsigned number ([None]: nothing stored). *)
Record Env := mkEnv {
  ReadDir : gostring -> result (list DirEntry);
  ReadFile : gostring -> result gostring;
  Readlink : gostring -> result gostring;
  LookupId : gostring -> result gostring;
  LookupGroupId : gostring -> result gostring;
  SysconfClkTck : result Z;
  SscanfUint : gostring -> gostring -> option Z
}.

(** [filepath.Join] on components that are already clean. *)
Definition pathJoin (base name : gostring) : gostring := base ++ "/" ++ name.

(** [type procStat struct] *)
Record procStat := mkProcStat {
  ppid : Z;
  state : gostring;
  comm : gostring;
  utime : Z;
  stime : Z;
  starttime : Z;
  priority : Z;
  nice : Z;
  numThreads : Z;
  ttyNr : Z
}.

(** [readProcStat], on what reading [base/stat] returned. *)
Definition parseProcStat (file : result gostring) : result procStat :=
match file with
| Err e => Err e
| Ok s =>
    let l := Strings.IndexByte s "(" in
    let r := Strings.LastIndexByte s ")" in
    if (l <? 0) || (r <? 0) || (r <=? l) then Err "malformed /proc/[pid]/stat"
    else
      let comm := slice s (l + 1) r in
      let rest := Strings.TrimSpace (sliceFrom s (r + 1)) in
      let fields := Strings.Fields rest in
      if (length fields <? 20)%nat then Err "short /proc/[pid]/stat"
      else
        let state := at_ fields 0 in
        let ppid := fst (Strconv.Atoi (at_ fields 1)) in
        let ttyNr := fst (Strconv.ParseInt (at_ fields 5)) in
        let utime := fst (Strconv.ParseUint (at_ fields (13 - 1)) 64) in
        let stime := fst (Strconv.ParseUint (at_ fields (14 - 1)) 64) in
        let priority := fst (Strconv.ParseInt (at_ fields (17 - 1))) in
        let nice := fst (Strconv.ParseInt (at_ fields (18 - 1))) in
        let numThreads := fst (Strconv.ParseInt (at_ fields (19 - 1))) in
        let starttime := fst (Strconv.ParseUint (at_ fields (21 - 1)) 64) in
        Ok {| ppid := ppid; state := state; comm := comm; utime := utime;
              stime := stime; starttime := starttime; priority := priority;
              nice := nice; numThreads := numThreads; ttyNr := ttyNr |}
end.

Definition readProcStat (env : Env) (base : gostring) : result procStat :=
parseProcStat (ReadFile env (pathJoin base "stat")).

(** The loop of [readStatusMap] over the scanned lines. *)
Fixpoint statusLoop (lines : list gostring) (m : gmap gostring gostring)
  : gmap gostring gostring :=
match lines with
| [] => m
| line :: rest =>
    let i := Strings.IndexByte line ":" in
    if 0 <=? i then
      let k := Strings.TrimSpace (sliceTo line i) in
      let v := Strings.TrimSpace (sliceFrom line (i + 1)) in
      statusLoop rest (<[k := v]> m)
    else statusLoop rest m
end.

(** [readStatusMap]: the map, and whether an error came with it.  A
    nil map reads as the empty one. *)
Definition readStatusMap (env : Env) (path : gostring)
  : gmap gostring gostring * bool :=
match ReadFile env path with
| Err _ => (∅, true)
| Ok s =>
    let (lines, tooLong) := Bufio.scanLines Bufio.MaxScanTokenSize s in
    (statusLoop lines ∅, tooLong)
end.

(** [status[key]]: the empty string for a missing key. *)
Definition mapGet (m : gmap gostring gostring) (k : gostring) : gostring :=
default [] (m !! k).

(** [parseFirstUint] *)
Definition parseFirstUint (v : gostring) : Z :=
let v := Strings.TrimSpace v in
match v with
| [] => 0
| _ =>
    let i := Strings.IndexAny v (["009"; " "]%char) in
    let v := if 0 <=? i then sliceTo v i else v in
    fst (Strconv.ParseUint v 32)
end.

(** [parseKB] *)
Definition parseKB (v : gostring) : Z :=
let v := Strings.TrimSpace v in
match v with
| [] => 0
| _ =>
    let i := Strings.IndexByte v " " in
    let v := if 0 <=? i then Strings.TrimSpace (sliceTo v i) else v in
    fst (Strconv.ParseInt v)
end.

(** [lookupUserName]: a found entry is never nil. *)
Definition lookupUserName (env : Env) (uid : Z) : gostring :=
match LookupId env (Strconv.Itoa uid) with
| Ok username => username
| Err _ => Strconv.Itoa uid
end.

(** [lookupGroupName] *)
Definition lookupGroupName (env : Env) (gid : Z) : gostring :=
match LookupGroupId env (Strconv.Itoa gid) with
| Ok name => name
| Err _ => Strconv.Itoa gid
end.

(** [readCmdline] *)
Definition readCmdline (env : Env) (path : gostring) : gostring :=
match ReadFile env path with
| Err _ => []
| Ok [] => []
| Ok b => Strings.Join (Strings.Split (Strings.TrimRightByte b "000") "000") " "
end.

(** [readLink] *)
Definition readLink (env : Env) (path : gostring) : gostring :=
match Readlink env path with
| Err _ => []
| Ok p => p
end.

(** [normalizeState] *)
Definition normalizeState (s : gostring) : gostring :=
let s := Strings.TrimSpace s in
match s with
| [] => []
| _ => sliceTo s 1
end.

(** [deriveTTY] *)
Definition deriveTTY (env : Env) (base : gostring) (ttyNr : Z) : gostring :=
let link := readLink env (pathJoin (pathJoin base "fd") "0") in
match link with
| [] => []
| _ => if Strings.HasPrefix link "/dev/" then Strings.TrimPrefix link "/dev/" else []
end.

(** The loop of [readIO]: the counters [r] and [w]. *)
Fixpoint ioLoop (env : Env) (lines : list gostring) (r w : Z) : Z * Z :=
match lines with
| [] => (r, w)
| line :: rest =>
    if Strings.HasPrefix line "read_bytes:" then
      ioLoop env rest (default r (SscanfUint env line "read_bytes: %d")) w
    else if Strings.HasPrefix line "write_bytes:" then
      ioLoop env rest r (default w (SscanfUint env line "write_bytes: %d"))
    else ioLoop env rest r w
end.

(** [readIO] *)
Definition readIO (env : Env) (path : gostring) : option ProcIO :=
match ReadFile env path with
| Err _ => None
| Ok s =>
    let (r, w) := ioLoop env (fst (Bufio.scanLines Bufio.MaxScanTokenSize s)) 0 0 in
    Some (mkProcIO r w)
end.

(** [readNamespaces] *)
Definition readNamespaces (env : Env) (nsDir : gostring) : option ProcNamespaces :=
let read := fun name => readLink env (pathJoin nsDir name) in
let mnt := read "mnt" in
let pid := read "pid" in
let net := read "net" in
let uts := read "uts" in
let ipc := read "ipc" in
let usr := read "user" in
let cg := read "cgroup" in
if streq mnt "" && streq pid "" && streq net "" && streq uts "" && streq ipc ""
   && streq usr "" && streq cg ""
then None
else Some (mkProcNamespaces mnt pid net uts ipc usr cg).

(** The character class of [containerIDRe], [(?i)[a-f0-9]]. *)
Definition isHex (c : ascii) : bool :=
isDigit c || ((97 <=? code c) && (code c <=? 102))
|| ((65 <=? code c) && (code c <=? 70)).

(** The number of class bytes at the head of [s], counted up to [cap]. *)
Fixpoint hexRun (cap : nat) (s : gostring) : nat :=
match cap, s with
| S k, c :: t => if isHex c then S (hexRun k t) else O
| _, _ => O
end.

(** [containerIDRe.FindString] for [(?i)[a-f0-9]{12,64}]: the
    leftmost match, as long as the greedy repetition makes it; the
    empty string when nothing matches. *)
Fixpoint FindString (s : gostring) : gostring :=
match s with
| [] => []
| _ :: t =>
    let n := hexRun 64 s in
    if (12 <=? n)%nat then take n s else FindString t
end.

(** The loop of [extractContainerID] over the path segments. *)
Fixpoint bestLoop (segs : list gostring) (best : gostring) : gostring :=
match segs with
| [] => best
| seg :: rest =>
    let m := FindString seg in
    match m with
    | [] => bestLoop rest best
    | _ => if (length best <? length m)%nat then bestLoop rest m
           else bestLoop rest best
    end
end.

(** [extractContainerID] *)
Definition extractContainerID (path : gostring) : gostring :=
bestLoop (Strings.Split path "/") [].

(** The loop of [readCgroups] over the scanned lines, with the
    variables [all], [primary] and [cid]. *)
Fixpoint cgroupLoop (lines : list gostring) (all : list gostring)
  (primary cid : option gostring)
  : list gostring * option gostring * option gostring :=
match lines with
| [] => (all, primary, cid)
| line :: rest =>
    let parts := Strings.SplitN line ":" 3 in
    if (length parts =? 3)%nat then
      let path := at_ parts 2 in
      let all := all ++ [path] in
      let primary :=
        match primary, path with
        | None, _ :: _ => Some path
        | _, _ => primary
        end in
      let cid :=
        match cid with
        | None =>
            match extractContainerID path with
            | [] => None
            | id => Some id
            end
        | Some _ => cid
        end in
      cgroupLoop rest all primary cid
    else cgroupLoop rest all primary cid
end.

(** [readCgroups], on what opening and reading the file returned:
    the primary path, all paths, the container id. *)
Definition parseCgroups (file : result gostring)
  : option gostring * option (list gostring) * option gostring :=
match file with
| Err _ => (None, None, None)
| Ok s =>
    let lines := fst (Bufio.scanLines Bufio.MaxScanTokenSize s) in
    let '(all, primary, cid) := cgroupLoop lines [] None None in
    match all with
    | [] => (None, None, cid)
    | _ => (primary, Some all, cid)
    end
end.

Definition readCgroups (env : Env) (path : gostring)
  : option gostring * option (list gostring) * option gostring :=
parseCgroups (ReadFile env path).

(** [readSELinuxLabel] *)
Definition readSELinuxLabel (env : Env) (path : gostring) : option gostring :=
match ReadFile env path with
| Err _ => None
| Ok b =>
    let v := Strings.TrimSpace b in
    if streq v "" || streq v "kernel" then None else Some v
end.

(** The loop of [bootTime]: the value of the first [btime] line with
    a second field. *)
Fixpoint btimeLoop (lines : list gostring) : option Z :=
match lines with
| [] => None
| line :: rest =>
    if Strings.HasPrefix line "btime " then
      let parts := Strings.Fields line in
      if (2 <=? length parts)%nat then Some (fst (Strconv.ParseInt (at_ parts 1)))
      else btimeLoop rest
    else btimeLoop rest
end.

(** [bootTime]: the value and whether it came without an error. *)
Definition bootTime (env : Env) : Z * bool :=
match ReadFile env "/proc/stat" with
| Err _ => (0, false)
| Ok s =>
    match btimeLoop (fst (Bufio.scanLines Bufio.MaxScanTokenSize s)) with
    | Some v => (v, true)
    | None => (0, false)
    end
end.

(** [clockTicks] *)
Definition clockTicks (env : Env) : Z :=
match SysconfClkTck env with
| Ok v => if 0 <? v then v else 100
| Err _ => 100
end.

(** [readOneProcess] *)
Definition readOneProcess (env : Env) (tl : Time.Lib)
  (pid hz btime : Z) (now : Time.Time) : result Process :=
let base := pathJoin "/proc" (Strconv.Itoa pid) in
match readProcStat env base with
| Err e => Err e
| Ok st =>
    let status := fst (readStatusMap env (pathJoin base "status")) in
    let ppid := ppid st in
    let uid := parseFirstUint (mapGet status "Uid") in
    let gid := parseFirstUint (mapGet status "Gid") in
    let uname := lookupUserName env uid in
    let gname := lookupGroupName env gid in
    let cmd := readCmdline env (pathJoin base "cmdline") in
    let comm := comm st in
    let exe := readLink env (pathJoin base "exe") in
    let cwd := readLink env (pathJoin base "cwd") in
    let cpuUser := F64div (F64ofInt (utime st)) (F64ofInt hz) in
    let cpuSys := F64div (F64ofInt (stime st)) (F64ofInt hz) in
    let memRSS := mul64 (parseKB (mapGet status "VmRSS")) 1024 in
    let memVMS := mul64 (parseKB (mapGet status "VmSize")) 1024 in
    let memSwap := mul64 (parseKB (mapGet status "VmSwap")) 1024 in
    let priority := priority st in
    let nice := nice st in
    let threads := numThreads st in
    let start :=
      if (0 <? btime) && (0 <? hz)
      then Time.Unix (add64 btime (Z.quot (wrap64 (starttime st)) hz))
      else now in
    let elapsedI64 := Time.sinceSeconds tl now start in
    let tty := deriveTTY env base (ttyNr st) in
    let '(cgPrimary, cgAll, containerID) := readCgroups env (pathJoin base "cgroup") in
    let ns := readNamespaces env (pathJoin base "ns") in
    let ioStats := readIO env (pathJoin base "io") in
    let seLinux := readSELinuxLabel env (pathJoin (pathJoin base "attr") "current") in
    Ok {|
      PID := pid; PPID := ppid; UID := uid; GID := gid;
      User := uname; Group := gname;
      State := normalizeState (state st); TTY := tty; Comm := comm;
      Command := cmd;
      Exe := exe; Cwd := cwd;
      CPUUserSeconds := cpuUser; CPUSystemSeconds := cpuSys;
      MemRSSBytes := memRSS; MemVMSBytes := memVMS; MemSwapBytes := memSwap;
      Threads := Some threads; Nice := Some nice; Priority := Some priority;
      StartTime := Time.formatRFC3339 tl start;
      StartTimeUnixNs := Time.UnixNano start;
      ElapsedSeconds := Some elapsedI64;
      Cgroup := cgPrimary; Cgroups := cgAll; NS := ns;
      ContainerID := containerID; IO := ioStats; SELinuxLabel := seLinux
    |}
end.

(** The loop of [collectProcesses] over the directory entries. *)
Fixpoint collectLoop (env : Env) (tl : Time.Lib) (hz btime : Z)
  (now : Time.Time) (entries : list DirEntry) : list Process :=
match entries with
| [] => []
| e :: rest =>
    if negb (EntryIsDir e) then collectLoop env tl hz btime now rest
    else
      let '(pid, err) := Strconv.Atoi (EntryName e) in
      if negb (isNil err) || (pid <=? 0) then collectLoop env tl hz btime now rest
      else
        match readOneProcess env tl pid hz btime now with
        | Err _ => collectLoop env tl hz btime now rest
        | Ok p => p :: collectLoop env tl hz btime now rest
        end
end.

(** [collectProcesses] *)
Definition collectProcesses (env : Env) (tl : Time.Lib) (now : Time.Time)
  : result (list Process) :=
match ReadDir env "/proc" with
| Err err => Err err
| Ok entries =>
    let hz := clockTicks env in
    let btime := fst (bootTime env) in
    Ok (collectLoop env tl hz btime now entries)
end.

End Linux.

(** * [readProcStat] with the index checks of the Go runtime

    The collector indexes the field list of the stat file; an index
    beyond the end of a slice is a run-time panic, which ends the
    program.  Here the indexing is checked as the runtime checks it. *)
Module Checked.

(** What a call does: it returns, or the runtime panics. *)
Inductive outcome (A : Type) : Type :=
| Returns (r : result A)
| Panics (msg : gostring).
Arguments Returns {A} r.
Arguments Panics {A} msg.

(** [fields[i]] *)
Definition index (fields : list gostring) (i : nat) : gostring + gostring :=
match fields !! i with
| Some f => inl f
| None =>
    inr ("runtime error: index out of range [" ++ Strconv.Itoa (Z.of_nat i)
         ++ "] with length " ++ Strconv.Itoa (Z.of_nat (length fields)))
end.

#[local] Notation "'let?' x := e 'in' k" :=
  (match e with inl x => k | inr msg => Panics msg end)
  (at level 10, x name, e at level 100, k at level 200, only parsing).

(** [readProcStat], on what reading [base/stat] returned. *)
Definition parseProcStat (file : result gostring) : outcome Linux.procStat :=
match file with
| Err e => Returns (Err e)
| Ok s =>
    let l := Strings.IndexByte s "(" in
    let r := Strings.LastIndexByte s ")" in
    if (l <? 0) || (r <? 0) || (r <=? l)
    then Returns (Err "malformed /proc/[pid]/stat")
    else
      let comm := slice s (l + 1) r in
      let rest := Strings.TrimSpace (sliceFrom s (r + 1)) in
      let fields := Strings.Fields rest in
      if (length fields <? 20)%nat then Returns (Err "short /proc/[pid]/stat")
      else
        let? state := index fields 0 in
        let? f1 := index fields 1 in
        let ppid := fst (Strconv.Atoi f1) in
        let? f5 := index fields 5 in
        let ttyNr := fst (Strconv.ParseInt f5) in
        let? f12 := index fields (13 - 1) in
        let utime := fst (Strconv.ParseUint f12 64) in
        let? f13 := index fields (14 - 1) in
        let stime := fst (Strconv.ParseUint f13 64) in
        let? f16 := index fields (17 - 1) in
        let priority := fst (Strconv.ParseInt f16) in
        let? f17 := index fields (18 - 1) in
        let nice := fst (Strconv.ParseInt f17) in
        let? f18 := index fields (19 - 1) in
        let numThreads := fst (Strconv.ParseInt f18) in
        let? f20 := index fields (21 - 1) in
        let starttime := fst (Strconv.ParseUint f20 64) in
        Returns (Ok {| Linux.ppid := ppid; Linux.state := state;
                       Linux.comm := comm; Linux.utime := utime;
                       Linux.stime := stime; Linux.starttime := starttime;
                       Linux.priority := priority; Linux.nice := nice;
                       Linux.numThreads := numThreads; Linux.ttyNr := ttyNr |})
end.

Definition readProcStat (env : Linux.Env) (base : gostring)
  : outcome Linux.procStat :=
parseProcStat (Linux.ReadFile env (Linux.pathJoin base "stat")).

End Checked.

(** * The Windows collector (PowerShell CIM) *)
Module Windows.

(** What [encoding/json] decodes into an [any] when the decoder was
    told [UseNumber]: [nil], [bool], [json.Number] (the literal),
    [string], [[]any] and [map[string]any].  No [float64] arises. *)
#[warnings="-register-all"]
Inductive any : Type :=
| ANil
| ABool (b : bool)
| ANumber (n : gostring)
| AString (s : gostring)
| AArray (l : list any)
| AObject (m : gmap gostring any).

(** A row: [map[string]any]. *)
Abbreviation row := (gmap gostring any).

(** [sanitizeJSON] *)
Definition usefulLine (text : gostring) : option gostring :=
let line := Strings.TrimSpace text in
match line with
| [] => None
| _ =>
    if Strings.HasPrefix line "{" || Strings.HasPrefix line "["
    then Some line else None
end.

Definition sanitizeJSON (b : gostring) : gostring :=
let useful := omap usefulLine (fst (Bufio.scanLines Bufio.MaxScanTokenSize b)) in
Strings.Join useful ["010"%char].

(** The decoding step of [collectProcesses].  [decode] stands for a
    fresh [json.Decoder] with [UseNumber] reading one value from the
    bytes it is given.  Next to the outcome, the inputs the decoder
    was run on are returned in order. *)
Definition decodeOutput (decode : gostring -> result any) (out : gostring)
  : result any * list gostring :=
match decode out with
| Ok raw => (Ok raw, [out])
| Err err =>
    let sanitized := sanitizeJSON out in
    match decode sanitized with
    | Ok raw => (Ok raw, [out; sanitized])
    | Err err2 => (Err err, [out; sanitized])
    end
end.

(** [toSliceOfMaps] *)
Definition asRow (e : any) : option row :=
match e with
| AObject m => Some m
| _ => None
end.

Definition toSliceOfMaps (v : any) : list row :=
match v with
| AArray t => omap asRow t
| AObject t => [t]
| _ => []
end.

(** [getString] *)
Definition getString (m : row) (k : gostring) : gostring :=
match m !! k with
| Some (AString t) => t
| Some (ANumber t) => t
| _ => []
end.

(** [getInt64] *)
Definition getInt64 (m : row) (k : gostring) : Z :=
match m !! k with
| Some (ANumber t) =>
    let '(i, err) := Strconv.ParseInt t in
    if isNil err then i else 0
| Some (AString t) =>
    let '(i, err) := Strconv.ParseInt (Strings.TrimSpace t) in
    if isNil err then i else 0
| _ => 0
end.

(** [getUint64] *)
Definition getUint64 (m : row) (k : gostring) : Z :=
let v := getInt64 m k in
if 0 <? v then v else 0.

(** [utcRFC3339] *)
Definition utcRFC3339 (tl : Time.Lib) (t : Time.Time) : gostring :=
if Time.IsZero t then [] else Time.formatRFC3339 tl t.

(** The first loop of [parseCIMDateTime]: at most six digits. *)
Fixpoint usecLoop (n : nat) (rem : gostring) (usec : Z) : Z :=
match n, rem with
| S k, c :: t => if isDigit c then usecLoop k t (usec * 10 + digitVal c) else usec
| _, _ => usec
end.

(** The second loop: [usec *= 10] while counting [l] up to six from
    the number of digits of [usec]. *)
Definition padLoop (usec : Z) : Z :=
Nat.iter (6 - length (Strconv.Itoa usec)) (fun u => u * 10) usec.

(** The third loop: skip the digits. *)
Fixpoint dropDigits (rem : gostring) : gostring :=
match rem with
| c :: t => if isDigit c then dropDigits t else rem
| [] => []
end.

(** [parseCIMDateTime] *)
Definition parseCIMDateTime (s : gostring) : Time.Time * bool :=
let s := Strings.TrimSpace s in
match s with
| [] => (Time.zero, false)
| _ =>
    let s := Strings.RemoveByte s "T" in
    if len s <? 14 then (Time.zero, false)
    else
      let y := fst (Strconv.Atoi (slice s 0 4)) in
      let mo := fst (Strconv.Atoi (slice s 4 6)) in
      let d := fst (Strconv.Atoi (slice s 6 8)) in
      let h := fst (Strconv.Atoi (slice s 8 10)) in
      let mi := fst (Strconv.Atoi (slice s 10 12)) in
      let se := fst (Strconv.Atoi (slice s 12 14)) in
      let rem := sliceFrom s 14 in
      let '(usec, rem) :=
        if Strings.HasPrefix rem "." then
          let rem := sliceFrom rem 1 in
          (padLoop (usecLoop 6 rem 0), dropDigits rem)
        else (0, rem) in
      let offsetMin :=
        if (4 <=? len rem)
           && (Ascii.eqb (nth 0 rem "000"%char) "+" || Ascii.eqb (nth 0 rem "000"%char) "-")
        then
          let sign := if Ascii.eqb (nth 0 rem "000"%char) "-" then -1 else 1 in
          let '(v, err) := Strconv.Atoi (slice rem 1 4) in
          if isNil err then sign * v else 0
        else 0 in
      (Time.Date y mo d h mi se (usec * 1000) (- offsetMin * 60), true)
end.

(** The body of the loop of [collectProcesses] for one row: [None]
    where the loop continues without a record. *)
Definition rowProcess (tl : Time.Lib) (now : Time.Time) (m : row) : option Process :=
let pid := getInt64 m "ProcessId" in
if pid <=? 0 then None
else
  let ppid := getInt64 m "ParentProcessId" in
  let name := getString m "Name" in
  let cmd := getString m "CommandLine" in
  let exe := getString m "ExecutablePath" in
  let ut100 := getUint64 m "UserModeTime" in
  let kt100 := getUint64 m "KernelModeTime" in
  let cpuUser := F64div (F64ofInt ut100) (F64ofInt 10000000) in
  let cpuSys := F64div (F64ofInt kt100) (F64ofInt 10000000) in
  let rss := getInt64 m "WorkingSetSize" in
  let vms := getInt64 m "VirtualSize" in
  let th := getInt64 m "ThreadCount" in
  let prio := getInt64 m "Priority" in
  let start :=
    match getString m "CreationDate" with
    | [] => Time.zero
    | cd => let '(t, ok) := parseCIMDateTime cd in if ok then t else Time.zero
    end in
  let elapsedI64 :=
    if negb (Time.IsZero start) then Time.sinceSeconds tl now start else 0 in
  let owner := getString m "User" in
  let readBytes := getUint64 m "ReadTransferCount" in
  let writeBytes := getUint64 m "WriteTransferCount" in
  let io :=
    if negb (readBytes =? 0) || negb (writeBytes =? 0)
    then Some (mkProcIO readBytes writeBytes) else None in
  Some {|
    PID := pid; PPID := ppid; UID := 0; GID := 0;
    User := owner; Group := [];
    State := []; TTY := []; Comm := name; Command := cmd;
    Exe := exe; Cwd := [];
    CPUUserSeconds := cpuUser; CPUSystemSeconds := cpuSys;
    MemRSSBytes := rss; MemVMSBytes := vms; MemSwapBytes := 0;
    Threads := Some th; Nice := None; Priority := Some prio;
    StartTime := utcRFC3339 tl start;
    StartTimeUnixNs := Time.UnixNano start;
    ElapsedSeconds := Some elapsedI64;
    Cgroup := None; Cgroups := None; NS := None; ContainerID := None;
    IO := io; SELinuxLabel := None
  |}.

(** [collectProcesses]; [psOut] is what running PowerShell returned. *)
Definition collectProcesses (decode : gostring -> result any) (tl : Time.Lib)
  (now : Time.Time) (psOut : result gostring) : result (list Process) :=
match psOut with
| Err _ =>
    Err "failed to query processes via PowerShell CIM; ensure PowerShell is available and ExecutionPolicy allows running inline commands"
| Ok out =>
    match fst (decodeOutput decode out) with
    | Err err => Err err
    | Ok raw => Ok (omap (rowProcess tl now) (toSliceOfMaps raw))
    end
end.

End Windows.

(** * Notions of the specification, from its words *)
Module Spec.

(** The duration grammar [[[DD-]HH:]MM:SS]: an optional day prefix is
    split off at the first [-], the remainder is split on [:] into two
    parts (minutes, seconds) or three (hours, minutes, seconds); a
    component that does not parse counts as zero; any other shape
    gives zero. *)

Definition numberOrZero (s : gostring) : Z :=
match Strconv.ParseInt s with
| (v, None) => v
| (_, Some _) => 0
end.

Definition total (days hours minutes seconds : Z) : Z :=
wrap64 (days * 86400 + hours * 3600 + minutes * 60 + seconds).

Definition dayPrefix (s : gostring) : gostring * gostring :=
let i := Strings.IndexByte s "-" in
if 0 <=? i then (sliceTo s i, sliceFrom s (i + 1)) else ([], s).

Definition elapsedSpec (s : gostring) : Z :=
let '(dd, rest) := dayPrefix (Strings.TrimSpace s) in
match Strings.Split rest ":" with
| [mm; ss] => total (numberOrZero dd) 0 (numberOrZero mm) (numberOrZero ss)
| [hh; mm; ss] =>
    total (numberOrZero dd) (numberOrZero hh) (numberOrZero mm) (numberOrZero ss)
| _ => 0
end.

(** The minute and second components of an input, where it has the
    two-part or three-part shape. *)
Definition minSecParts (s : gostring) : list gostring :=
let '(_, rest) := dayPrefix (Strings.TrimSpace s) in
match Strings.Split rest ":" with
| [mm; ss] => [mm; ss]
| [_; mm; ss] => [mm; ss]
| _ => []
end.



(** The first non-empty string of a list. *)
Fixpoint firstNonEmpty (l : list gostring) : option gostring :=
match l with
| [] => None
| [] :: rest => firstNonEmpty rest
| p :: _ => Some p
end.



(** The pid a CIM row lists: its [ProcessId], where positive. *)
Definition rowPid (m : Windows.row) : option Z :=
let pid := Windows.getInt64 m "ProcessId" in
if 0 <? pid then Some pid else None.


(** The value of a string of decimal digits. *)
Definition decimalFrom (acc : Z) (s : gostring) : Z :=
fold_left (fun n c => n * 10 + digitVal c) s acc.

Definition decimal (s : gostring) : Z := decimalFrom 0 s.

Definition allDigits (s : gostring) : Prop :=
Forall (fun c => isDigit c = true) s.

(** The instant [parseCIMDateTime] takes a compact date-time to
    denote, given its 14 date and time digits, its six fraction
    digits, the sign and the three offset digits: the date and time
    of day read in UTC, moved by the signed offset in minutes, with
    the fraction as microseconds. *)
Definition cimInstant (date frac : gostring) (sgn : ascii) (off : gostring)
  : Time.Time :=
let field := fun lo hi => decimal (slice date lo hi) in
let local := Time.Date (field 0 4) (field 4 6) (field 6 8) (field 8 10)
               (field 10 12) (field 12 14) (decimal frac * 1000) 0 in
let minutes := (if Ascii.eqb sgn "-" then -1 else 1) * decimal off in
Time.mkTime (Time.unixSec local + minutes * 60) (Time.nsec local).

(** The rows of a decoded value: one for an object, one for each
    object among the elements of an array, none otherwise. *)
Definition isObject (e : Windows.any) : bool :=
match e with Windows.AObject _ => true | _ => false end.

Definition rowCount (raw : Windows.any) : nat :=
match raw with
| Windows.AArray l => length (List.filter isObject l)
| Windows.AObject _ => 1%nat
| _ => 0%nat
end.

(** A numeric field of a duration: one to twelve decimal digits. *)
Definition digitField (s : gostring) : Prop :=
allDigits s /\ s <> [] /\ (length s <= 12)%nat.

(** A byte below 128 that is no ASCII white space: it is part of no
    white-space rune. *)
Definition plainByte (c : ascii) : bool :=
(code c <? 128) && negb (Strings.isSpace1 c).

(** A word: one or more plain bytes. *)
Definition word (w : gostring) : Prop :=
w <> [] /\ Forall (fun c => plainByte c = true) w.

(** A run of ASCII white space. *)
Definition blanks (b : gostring) : Prop :=
Forall (fun c => Strings.isSpace1 c = true) b.

(** A gap and the word behind it. *)
Definition gap (p : gostring * gostring) : Prop :=
blanks (fst p) /\ fst p <> [] /\ word (snd p).

(** A line of columns: a first word, further words each behind a gap,
    with white space before and after. *)
Definition columnBody (w : gostring) (rest : list (gostring * gostring))
  : gostring :=
w ++ flat_map (fun p => fst p ++ snd p) rest.

Definition columns (lead w : gostring) (rest : list (gostring * gostring))
  (trail : gostring) : gostring :=
lead ++ columnBody w rest ++ trail.

(** A line a scanner with the token limit [maxTok] delivers as it
    stands: no line end inside, no carriage return, fewer than
    [maxTok] bytes. *)
Definition plainLine (maxTok : Z) (l : gostring) : Prop :=
("010"%char ∉ l) /\ ("013"%char ∉ l) /\ len l < maxTok.

(** A line of the status file sets the key [k]: the text before its
    first colon, trimmed, is [k]. *)
Definition setsKey (line k : gostring) : Prop :=
exists key val, line = key ++ ":" ++ val /\ (":"%char ∉ key)
                /\ Strings.TrimSpace key = k.

(** Runes of a shell word outside quotes: no tab, no space, no
    quote. *)
Definition bareRune (r : Z) : bool :=
negb ((r =? 9) || (r =? 32) || (r =? 39) || (r =? 34)).

Definition bare (w : list Z) : Prop := Forall (fun r => bareRune r = true) w.

(** A run of tabs and spaces. *)
Definition blankRunes (b : list Z) : Prop :=
Forall (fun r => r = 9 \/ r = 32) b.

(** The digits at the head of a string. *)
Fixpoint digitPrefix (s : gostring) : gostring :=
match s with
| c :: t => if isDigit c then c :: digitPrefix t else []
| [] => []
end.

End Spec.

(** A JSON decoder in the manner of [json.Decoder.Decode] with
    [UseNumber], for the examples: it reads one value from the head of
    the input and leaves what follows; strings may hold the two-byte
    escapes but no [\u] escape. *)
Module Json.

Definition isWs (c : ascii) : bool :=
(code c =? 32) || (code c =? 9) || (code c =? 10) || (code c =? 13).

Fixpoint skipWs (s : gostring) : gostring :=
match s with
| c :: t => if isWs c then skipWs t else s
| [] => []
end.

Definition unescape (c : ascii) : option ascii :=
if Ascii.eqb c "034" then Some "034"%char
else if Ascii.eqb c "\" then Some "\"%char
else if Ascii.eqb c "/" then Some "/"%char
else if Ascii.eqb c "b" then Some "008"%char
else if Ascii.eqb c "f" then Some "012"%char
else if Ascii.eqb c "n" then Some "010"%char
else if Ascii.eqb c "r" then Some "013"%char
else if Ascii.eqb c "t" then Some "009"%char
else None.

(** The string behind its opening quote: the content and the rest. *)
Fixpoint scanString (s : gostring) (acc : gostring) : option (gostring * gostring) :=
match s with
| [] => None
| c :: t =>
    if Ascii.eqb c "034" then Some (rev acc, t)
    else if Ascii.eqb c "\" then
      match t with
      | e :: u =>
          match unescape e with
          | Some x => scanString u (x :: acc)
          | None => None
          end
      | [] => None
      end
    else if code c <? 32 then None
    else scanString t (c :: acc)
end.

(** The number grammar, as a machine over the states 0 start,
    1 sign, 2 zero, 3 integer, 4 point, 5 fraction, 6 e, 7 exponent
    sign, 8 exponent. *)
Definition numStep (st : nat) (c : ascii) : option nat :=
let d := isDigit c in
let z := Ascii.eqb c "0" in
match st with
| 0%nat => if Ascii.eqb c "-" then Some 1%nat else if z then Some 2%nat
           else if d then Some 3%nat else None
| 1%nat => if z then Some 2%nat else if d then Some 3%nat else None
| 2%nat => if Ascii.eqb c "." then Some 4%nat
           else if Ascii.eqb c "e" || Ascii.eqb c "E" then Some 6%nat else None
| 3%nat => if d then Some 3%nat else if Ascii.eqb c "." then Some 4%nat
           else if Ascii.eqb c "e" || Ascii.eqb c "E" then Some 6%nat else None
| 4%nat => if d then Some 5%nat else None
| 5%nat => if d then Some 5%nat
           else if Ascii.eqb c "e" || Ascii.eqb c "E" then Some 6%nat else None
| 6%nat => if Ascii.eqb c "+" || Ascii.eqb c "-" then Some 7%nat
           else if d then Some 8%nat else None
| 7%nat => if d then Some 8%nat else None
| 8%nat => if d then Some 8%nat else None
| _ => None
end.

Definition numFinal (st : nat) : bool :=
(st =? 2)%nat || (st =? 3)%nat || (st =? 5)%nat || (st =? 8)%nat.

(** The longest run of the machine: the literal and the rest. *)
Fixpoint scanNumber (st : nat) (s : gostring) (acc : gostring)
  : option (gostring * gostring) :=
match s with
| c :: t =>
    match numStep st c with
    | Some st' => scanNumber st' t (c :: acc)
    | None => if numFinal st then Some (rev acc, s) else None
    end
| [] => if numFinal st then Some (rev acc, []) else None
end.

Definition literal (word : gostring) (v : Windows.any) (s : gostring)
  : option (Windows.any * gostring) :=
if Strings.HasPrefix s word then Some (v, drop (length word) s) else None.

Inductive mode :=
| MValue
| MElems (acc : list Windows.any)
| MMembers (acc : gmap gostring Windows.any).

Fixpoint parse (fuel : nat) (m : mode) (s : gostring)
  : option (Windows.any * gostring) :=
match fuel with
| O => None
| S f =>
    let s := skipWs s in
    match m with
    | MValue =>
        match s with
        | [] => None
        | c :: r =>
            if Ascii.eqb c "{" then
              match skipWs r with
              | c' :: r' =>
                  if Ascii.eqb c' "}" then Some (Windows.AObject ∅, r')
                  else parse f (MMembers ∅) r
              | [] => None
              end
            else if Ascii.eqb c "[" then
              match skipWs r with
              | c' :: r' =>
                  if Ascii.eqb c' "]" then Some (Windows.AArray [], r')
                  else parse f (MElems []) r
              | [] => None
              end
            else if Ascii.eqb c "034" then
              match scanString r [] with
              | Some (str, r') => Some (Windows.AString str, r')
              | None => None
              end
            else if Ascii.eqb c "t" then literal "true" (Windows.ABool true) s
            else if Ascii.eqb c "f" then literal "false" (Windows.ABool false) s
            else if Ascii.eqb c "n" then literal "null" Windows.ANil s
            else
              match scanNumber 0 s [] with
              | Some (num, r') => Some (Windows.ANumber num, r')
              | None => None
              end
        end
    | MElems acc =>
        match parse f MValue s with
        | Some (v, r) =>
            match skipWs r with
            | c :: r' =>
                if Ascii.eqb c "," then parse f (MElems (acc ++ [v])) r'
                else if Ascii.eqb c "]" then Some (Windows.AArray (acc ++ [v]), r')
                else None
            | [] => None
            end
        | None => None
        end
    | MMembers acc =>
        match s with
        | c :: r =>
            if Ascii.eqb c "034" then
              match scanString r [] with
              | Some (k, r1) =>
                  match skipWs r1 with
                  | c1 :: r2 =>
                      if Ascii.eqb c1 ":" then
                        match parse f MValue r2 with
                        | Some (v, r3) =>
                            match skipWs r3 with
                            | c3 :: r4 =>
                                if Ascii.eqb c3 ","
                                then parse f (MMembers (<[k := v]> acc)) r4
                                else if Ascii.eqb c3 "}"
                                then Some (Windows.AObject (<[k := v]> acc), r4)
                                else None
                            | [] => None
                            end
                        | None => None
                        end
                      else None
                  | [] => None
                  end
              | None => None
              end
            else None
        | [] => None
        end
    end
end.

Definition decode (s : gostring) : result Windows.any :=
match parse (S (2 * length s)) MValue s with
| Some (v, _) => Ok v
| None => Err "invalid JSON"
end.

End Json.

(** * Reference instances

    Concrete instances of the library and operating-system boundary,
    used by the examples. *)
Module Ref.

Definition pad (width : nat) (z : Z) : gostring :=
let s := Strconv.Itoa z in
repeat "0"%char (width - length s) ++ s.

(** The civil date of a day count from the Unix epoch. *)
Definition civil (days : Z) : Z * Z * Z :=
let z := days + 719468 in
let era := z / 146097 in
let doe := z - era * 146097 in
let yoe := (doe - doe / 1460 + doe / 36524 - doe / 146096) / 365 in
let doy := doe - (365 * yoe + yoe / 4 - yoe / 100) in
let mp := (5 * doy + 2) / 153 in
let d := doy - (153 * mp + 2) / 5 + 1 in
let m := if mp <? 10 then mp + 3 else mp - 9 in
let y := yoe + era * 400 + (if m <=? 2 then 1 else 0) in
(y, m, d).

(** RFC 3339 in UTC, to the second. *)
Definition formatRFC3339 (t : Time.Time) : gostring :=
let s := Time.unixSec t in
let '(y, m, d) := civil (s / 86400) in
let r := s mod 86400 in
pad 4 y ++ "-" ++ pad 2 m ++ "-" ++ pad 2 d ++ "T"
++ pad 2 (r / 3600) ++ ":" ++ pad 2 (r mod 3600 / 60) ++ ":" ++ pad 2 (r mod 60)
++ "Z".

(** The whole seconds from [start] to [now], truncated. *)
Definition sinceSeconds (now start : Time.Time) : Z :=
Z.quot ((Time.unixSec now - Time.unixSec start) * 1000000000
        + (Time.nsec now - Time.nsec start)) 1000000000.

Definition timeLib : Time.Lib := Time.mkLib formatRFC3339 sinceSeconds.

(** 2025-06-01 00:00:00 UTC. *)
Definition now : Time.Time := Time.mkTime 1748736000 0.

(** A small [/proc]: process 1 has a stat file and nothing else,
    process 2 a stat file without parentheses, process 3 none; the
    identity database knows user 0 as [root] and no group. *)
Definition stat1 : gostring :=
"1 (init) S 0 1 1 0 -1 4194560 12 0 3 0 7 5 0 0 20 0 1 0 42 1000 200 18446744073709551615".

Definition readFile (path : gostring) : result gostring :=
if streq path "/proc/1/stat" then Ok stat1
else if streq path "/proc/2/stat" then Ok ("2 init S 0 1 1" : gostring)
else Err "open: no such file or directory".

Definition entries : list Linux.DirEntry :=
[ Linux.mkDirEntry "1" true; Linux.mkDirEntry "2" true;
  Linux.mkDirEntry "3" true; Linux.mkDirEntry "self" true;
  Linux.mkDirEntry "uptime" false ].

Definition env : Linux.Env :=
{| Linux.ReadDir := fun path =>
     if streq path "/proc" then Ok entries else Err "open: no such file or directory";
   Linux.ReadFile := readFile;
   Linux.Readlink := fun _ => Err "readlink: no such file or directory";
   Linux.LookupId := fun id =>
     if streq id "0" then Ok ("root" : gostring) else Err "user: unknown userid";
   Linux.LookupGroupId := fun _ => Err "group: unknown groupid";
   Linux.SysconfClkTck := Ok 100;
   Linux.SscanfUint := fun _ _ => None |}.



(** Two rows: one without a creation date, one whose creation date
    is too short to parse. *)
Definition rowNoDate : Windows.row :=
<[("ProcessId" : gostring) := Windows.ANumber "4"]>
  (<[("Name" : gostring) := Windows.AString "System"]> ∅).

Definition rowShortDate : Windows.row :=
<[("ProcessId" : gostring) := Windows.ANumber "812"]>
  (<[("CreationDate" : gostring) := Windows.AString "2025"]> ∅).

(** The quote character, and a CIM row as PowerShell prints it on
    one line. *)
Definition q : gostring := ["034"%char].

Definition rowText (pid date : gostring) : gostring :=
"{" ++ q ++ "ProcessId" ++ q ++ ":" ++ pid ++ ","
++ q ++ "Name" ++ q ++ ":" ++ q ++ "svchost.exe" ++ q ++ ","
++ q ++ "CreationDate" ++ q ++ ":" ++ date ++ "}".



(** PowerShell output: a warning, then the rows on one line. *)
Definition warnedOutput : gostring :=
Bufio.unlines [ "WARNING: the CIM server is busy" : gostring;
                "[" ++ rowText "4" "null" ++ "," ++ rowText "812" "null" ++ "]" ].

(** A warning that begins with a bracket, then an empty array. *)
Definition bracketWarning : gostring :=
Bufio.unlines [ "[WARN] the CIM server is busy" : gostring; "[]" : gostring ].

(** An array on a line of more than 64 KiB, and the output of a
    warning followed by it. *)
Definition longArray : gostring :=
"["%char :: replicate (Z.to_nat 65536) " "%char ++ ["]"%char].

Definition longOutput : gostring :=
("WARNING: busy" : gostring) ++ "010"%char :: (longArray ++ ["010"%char]).

(** Words behind gaps of one text. *)
Definition cols (gapText : gostring) (ws : list gostring)
  : list (gostring * gostring) :=
map (pair gapText) ws.

(** A stat file in the layout of proc(5), fields 4 to 24 after the
    state, of a process whose name holds spaces and parentheses. *)
Definition statWords : list gostring :=
[ "1" : gostring; "42" : gostring; "42" : gostring; "34816" : gostring;
  "-1" : gostring; "4194560" : gostring; "100" : gostring; "0" : gostring;
  "0" : gostring; "0" : gostring; "7" : gostring; "3" : gostring;
  "0" : gostring; "0" : gostring; "20" : gostring; "0" : gostring;
  "1" : gostring; "0" : gostring; "12345" : gostring; "1000000" : gostring;
  "200" : gostring ].

Definition statText : gostring :=
"42 (" ++ "tmux: (server) 1" ++ ")"
++ Spec.columns " " "S" (cols " " statWords) ["010"%char].

(** A line of [ps axo] with padded columns and a command of three
    words. *)
Definition psWords : list gostring :=
[ "1" : gostring; "0" : gostring; "0" : gostring; "root" : gostring;
  "wheel" : gostring; "Ss" : gostring; "??" : gostring; "launchd" : gostring;
  "0:01.23" : gostring; "100" : gostring; "200" : gostring; "0" : gostring;
  "31" : gostring; "01:02" : gostring; "/bin/sleep" : gostring;
  "-x" : gostring; "10" : gostring ].

Definition psText : gostring := Spec.columns "  " "7" (cols "   " psWords) [].

(** The small [/proc] with one more file. *)
Definition withFile (path content : gostring) : Linux.Env :=
{| Linux.ReadDir := Linux.ReadDir env;
   Linux.ReadFile := fun p => if streq p path then Ok content else readFile p;
   Linux.Readlink := Linux.Readlink env;
   Linux.LookupId := Linux.LookupId env;
   Linux.LookupGroupId := Linux.LookupGroupId env;
   Linux.SysconfClkTck := Linux.SysconfClkTck env;
   Linux.SscanfUint := Linux.SscanfUint env |}.

(** The command line of a shell started with three arguments, as the
    kernel presents it. *)
Definition cmdlineArgs : list gostring :=
[ "sh" : gostring; "-c" : gostring; "echo hello world" : gostring ].

Definition cmdlineFile : gostring :=
Strings.Join cmdlineArgs ["000"%char] ++ ["000"%char].

(** Lines of a status file; the name is given twice. *)
Definition statusHead : list gostring :=
[ "Name:" ++ "009"%char :: "cat"; "Umask:" ++ "009"%char :: "0022" ].

Definition statusTail : list gostring :=
[ "State:" ++ "009"%char :: "R (running)"; "no colon here" : gostring ].

Definition statusFile : gostring :=
Bufio.unlines (statusHead ++ ("Name:" ++ "009"%char :: "a:b  ") :: statusTail).

(** A stat file with twenty words behind the name. *)
Definition statText20 : gostring :=
"9 (" ++ "sh" ++ ")"
++ Spec.columns " " "S" (cols " " (take 19 statWords)) ["010"%char].

(** The UTF-8 byte order mark. *)
Definition bom : gostring := ["239"%char; "187"%char; "191"%char].

(** The runes of an ASCII text. *)
Definition runes (s : gostring) : list Z := map code s.

End Ref.


(** * Properties *)

(** ** The library models on examples *)

Example ParseInt_decimal : Strconv.ParseInt "12345" = (12345, None).
Proof. reflexivity. Qed.

Example ParseInt_min : Strconv.ParseInt "-9223372036854775808" = (- 2 ^ 63, None).
Proof. vm_compute. reflexivity. Qed.

Example ParseInt_range :
  Strconv.ParseInt "99999999999999999999" = (2 ^ 63 - 1, Some Strconv.ErrRange).
Proof. vm_compute. reflexivity. Qed.

Example ParseInt_syntax : Strconv.ParseInt "12x" = (0, Some Strconv.ErrSyntax).
Proof. vm_compute. reflexivity. Qed.

Example Itoa_examples : Strconv.Itoa 0 = "0" /\ Strconv.Itoa (-42) = "-42".
Proof. split; reflexivity. Qed.

Example TrimSpace_example : Strings.TrimSpace "  12345 kB   " = "12345 kB".
Proof. vm_compute. reflexivity. Qed.

Example Fields_example :
  Strings.Fields " a  bc d " = ["a" : gostring; "bc" : gostring; "d" : gostring].
Proof. vm_compute. reflexivity. Qed.

Example SplitN_example :
  Strings.SplitN "5:cpu,cpuacct:/a:b" ":" 3
  = ["5" : gostring; "cpu,cpuacct" : gostring; "/a:b" : gostring].
Proof. vm_compute. reflexivity. Qed.

Example Date_epoch : Time.Date 1970 1 1 0 0 0 0 0 = Time.mkTime 0 0.
Proof. reflexivity. Qed.

Example Date_normalizes :
  Time.Date 2024 14 0 25 61 61 1000000001 0 = Time.Date 2025 2 1 2 2 2 1 0.
Proof. vm_compute. reflexivity. Qed.

Example formatRFC3339_example :
  Ref.formatRFC3339 (Time.mkTime 1735732800 0) = "2025-01-01T12:00:00Z".
Proof. vm_compute. reflexivity. Qed.

(** ** 64-bit arithmetic *)

Lemma wrap64_small z : - 2 ^ 63 <= z < 2 ^ 63 -> wrap64 z = z.
Proof.
  intros H. unfold wrap64.
  rewrite Z.mod_small by lia. lia.
Qed.

Lemma wrap64_idem z : wrap64 (wrap64 z) = wrap64 z.
Proof.
  apply wrap64_small. unfold wrap64.
  pose proof (Z.mod_pos_bound (z + 2 ^ 63) (2 ^ 64) ltac:(lia)). lia.
Qed.

Lemma wrap64_eqm a b : a mod 2 ^ 64 = b mod 2 ^ 64 -> wrap64 a = wrap64 b.
Proof.
  intros H. unfold wrap64. f_equal.
  rewrite <- (Zplus_mod_idemp_l a), <- (Zplus_mod_idemp_l b). now rewrite H.
Qed.

Lemma wrap64_mod z : wrap64 z mod 2 ^ 64 = z mod 2 ^ 64.
Proof.
  unfold wrap64.
  rewrite Zminus_mod_idemp_l.
  replace (z + 2 ^ 63 - 2 ^ 63) with z by lia. reflexivity.
Qed.

Lemma wrap64_inv a b : wrap64 a = wrap64 b -> a mod 2 ^ 64 = b mod 2 ^ 64.
Proof. intros H. rewrite <- (wrap64_mod a), <- (wrap64_mod b). now rewrite H. Qed.

Lemma wrap64_add a b a' b' :
  wrap64 a = wrap64 a' -> wrap64 b = wrap64 b' -> wrap64 (a + b) = wrap64 (a' + b').
Proof.
  intros Ha Hb. apply wrap64_eqm.
  rewrite (Zplus_mod a), (Zplus_mod a').
  now rewrite (wrap64_inv _ _ Ha), (wrap64_inv _ _ Hb).
Qed.

(** The four-term sum of [parseElapsedToSeconds], wrapped at each
    step, is the wrapped mathematical sum. *)
Lemma elapsed_sum_total d h m s :
  add64 (add64 (add64 (mul64 d 86400) (mul64 h 3600)) (mul64 m 60)) s
  = Spec.total d h m s.
Proof.
  unfold add64, mul64, Spec.total.
  apply wrap64_add; [|reflexivity].
  rewrite wrap64_idem. apply wrap64_add; [|apply wrap64_idem].
  rewrite wrap64_idem. apply wrap64_add; apply wrap64_idem.
Qed.

(** ** The duration parser of the Darwin collector *)

Lemma numberOrZero_fst s :
  snd (Strconv.ParseInt s) <> Some Strconv.ErrRange ->
  fst (Strconv.ParseInt s) = Spec.numberOrZero s.
Proof.
  unfold Spec.numberOrZero, Strconv.ParseInt.
  destruct s as [|c t]; [reflexivity|].
  destruct (Strconv.ParseUint _ 64) as [un [[]|]]; cbn; try reflexivity.
  - repeat case_match; cbn; congruence.
  - repeat case_match; cbn; congruence.
Qed.

Lemma numberOrZero_nil_err s :
  (let '(v, err) := Strconv.ParseInt s in if isNil err then v else 0)
  = Spec.numberOrZero s.
Proof.
  unfold Spec.numberOrZero. destruct (Strconv.ParseInt s) as [v [e|]]; reflexivity.
Qed.

(** On the inputs of the specification. *)
Lemma parseElapsedToSeconds_examples :
  Darwin.parseElapsedToSeconds "01:02" = 62
  /\ Darwin.parseElapsedToSeconds "01:02:03" = 3723
  /\ Darwin.parseElapsedToSeconds "2-01:02:03" = 176523
  /\ Darwin.parseElapsedToSeconds "abc" = 0.
Proof. repeat split; vm_compute; reflexivity. Qed.

(** Where no minute or second component is out of the 64-bit range,
    the parser computes the total of the specification: days, hours,
    minutes and seconds weighted and summed in [int64], a component
    that does not parse counting as zero, and zero for every input
    that has not two or three parts. *)
Lemma parseElapsedToSeconds_spec s :
  Forall (fun p => snd (Strconv.ParseInt p) <> Some Strconv.ErrRange)
         (Spec.minSecParts s) ->
  Darwin.parseElapsedToSeconds s = Spec.elapsedSpec s.
Proof.
  unfold Darwin.parseElapsedToSeconds, Spec.elapsedSpec, Spec.minSecParts,
    Spec.dayPrefix.
  destruct (Strings.TrimSpace s) as [|c t] eqn:Hs.
  - intros _. reflexivity.
  - set (u := c :: t).
    destruct (0 <=? Strings.IndexByte u "-") eqn:Hi.
    + rewrite <- (numberOrZero_nil_err (sliceTo u _)).
      destruct (Strconv.ParseInt (sliceTo u _)) as [d err].
      destruct (Strings.Split _ ":") as [|p0 [|p1 [|p2 [|p3 ps]]]];
        cbn [length Nat.ltb Nat.leb Nat.eqb orb at_ nth]; try reflexivity.
      * intros H. inversion H as [|? ? H1 H']; subst.
        inversion H' as [|? ? H2 _]; subst.
        rewrite elapsed_sum_total, !numberOrZero_fst by assumption.
        reflexivity.
      * intros H. inversion H as [|? ? H1 H']; subst.
        inversion H' as [|? ? H2 _]; subst.
        rewrite <- (numberOrZero_nil_err p0).
        destruct (Strconv.ParseInt p0) as [h eh].
        rewrite elapsed_sum_total, !numberOrZero_fst by assumption.
        reflexivity.
    + destruct (Strings.Split _ ":") as [|p0 [|p1 [|p2 [|p3 ps]]]];
        cbn [length Nat.ltb Nat.leb Nat.eqb orb at_ nth]; try reflexivity.
      * intros H. inversion H as [|? ? H1 H']; subst.
        inversion H' as [|? ? H2 _]; subst.
        rewrite elapsed_sum_total, !numberOrZero_fst by assumption.
        reflexivity.
      * intros H. inversion H as [|? ? H1 H']; subst.
        inversion H' as [|? ? H2 _]; subst.
        rewrite <- (numberOrZero_nil_err p0).
        destruct (Strconv.ParseInt p0) as [h eh].
        rewrite elapsed_sum_total, !numberOrZero_fst by assumption.
        reflexivity.
Qed.

(** C7: the duration parser is to count a numeric component that does
    not parse as zero.  The hour and day components are reset on any
    error of [ParseInt]; the minute and second components keep what
    [ParseInt] returned, which for a number out of range is the
    largest [int64].  On ["99999999999999999999:00"] the minutes do
    not parse, the total of the specification is 0, and the parser
    returns -60. *)
Theorem parseElapsedToSeconds_range_minutes :
  snd (Strconv.ParseInt "99999999999999999999") = Some Strconv.ErrRange
  /\ Spec.elapsedSpec "99999999999999999999:00" = 0
  /\ Darwin.parseElapsedToSeconds "99999999999999999999:00" = -60
  /\ Darwin.parseElapsedToSeconds "99999999999999999999:00:00" = 0.
Proof. repeat split; vm_compute; reflexivity. Qed.

(** ** Kilobytes to bytes *)

(** The status line of the resident set size, as the kernel writes it,
    read through the status map. *)
Example status_line_VmRSS :
  Linux.mapGet (Linux.statusLoop ["VmRSS:     12345 kB" : gostring] ∅) "VmRSS"
  = "12345 kB".
Proof. vm_compute. reflexivity. Qed.

(** C2, as the code computes it: the value ["12345 kB"] of the status
    file parses to 12345 kilobytes, and times 1024 that is 12,641,280
    bytes. *)
Theorem parseKB_12345_kB_bytes :
  Linux.parseKB "12345 kB" = 12345
  /\ mul64 (Linux.parseKB "12345 kB") 1024 = 12641280.
Proof. split; vm_compute; reflexivity. Qed.

(** C2, as the specification words it: the conversion does not yield
    12,645,120, which is no multiple of 1024. *)
Lemma parseKB_12345_kB_not_12645120 :
  mul64 (Linux.parseKB "12345 kB") 1024 <> 12645120
  /\ forall n : Z, n * 1024 <> 12645120.
Proof.
  split.
  - vm_compute. discriminate.
  - intros n. lia.
Qed.

(** ** Names of users and groups *)

Lemma digitsGo_nonempty fuel n acc :
  (0 < fuel)%nat -> Strconv.digitsGo fuel n acc <> [].
Proof.
  revert n acc. induction fuel as [|f IH]; intros n acc Hf; [lia|].
  cbn [Strconv.digitsGo]. destruct (n <? 10); [discriminate|].
  destruct f as [|f']; [discriminate|]. apply IH. lia.
Qed.

Lemma Itoa_nonempty z : Strconv.Itoa z <> [].
Proof.
  unfold Strconv.Itoa. destruct (z <? 0); [discriminate|].
  apply digitsGo_nonempty. lia.
Qed.

Lemma readOneProcess_stat_ok env tl pid hz btime now st :
  Linux.readProcStat env (Linux.pathJoin "/proc" (Strconv.Itoa pid)) = Ok st ->
  exists p, Linux.readOneProcess env tl pid hz btime now = Ok p
    /\ PID p = pid
    /\ User p = Linux.lookupUserName env (UID p)
    /\ Group p = Linux.lookupGroupName env (GID p).
Proof.
  intros Hst. unfold Linux.readOneProcess. rewrite Hst.
  destruct (Linux.readCgroups _ _) as [[cgPrimary cgAll] cid].
  eexists. split; [reflexivity|]. cbn. auto.
Qed.

Lemma readOneProcess_stat_err env tl pid hz btime now e :
  Linux.readProcStat env (Linux.pathJoin "/proc" (Strconv.Itoa pid)) = Err e ->
  Linux.readOneProcess env tl pid hz btime now = Err e.
Proof. intros Hst. unfold Linux.readOneProcess. now rewrite Hst. Qed.

(** C9: when the identity database has no entry for a numeric id, the
    name is the decimal string of the id, which is never empty; and a
    record whose stat file parses carries the names so resolved,
    whatever the lookups returned. *)
Theorem lookup_failure_falls_back_to_decimal (env : Linux.Env) (uid gid : Z) :
  (forall e, Linux.LookupId env (Strconv.Itoa uid) = Err e ->
     Linux.lookupUserName env uid = Strconv.Itoa uid
     /\ Linux.lookupUserName env uid <> [])
  /\ (forall e, Linux.LookupGroupId env (Strconv.Itoa gid) = Err e ->
     Linux.lookupGroupName env gid = Strconv.Itoa gid
     /\ Linux.lookupGroupName env gid <> [])
  /\ (forall tl pid hz btime now st,
     Linux.readProcStat env (Linux.pathJoin "/proc" (Strconv.Itoa pid)) = Ok st ->
     exists p, Linux.readOneProcess env tl pid hz btime now = Ok p
       /\ User p = Linux.lookupUserName env (UID p)
       /\ Group p = Linux.lookupGroupName env (GID p)).
Proof.
  repeat split.
  - unfold Linux.lookupUserName. now rewrite H.
  - unfold Linux.lookupUserName. rewrite H. apply Itoa_nonempty.
  - unfold Linux.lookupGroupName. now rewrite H.
  - unfold Linux.lookupGroupName. rewrite H. apply Itoa_nonempty.
  - intros tl pid hz btime now st Hst.
    destruct (readOneProcess_stat_ok env tl pid hz btime now st Hst)
      as (p & Hp & _ & Hu & Hg).
    eauto.
Qed.

(** In the reference environment user 1000 and group 0 are unknown:
    their names are ["1000"] and ["0"]. *)
Lemma lookup_failure_falls_back_to_decimal_witness :
  Linux.lookupUserName Ref.env 1000 = "1000"
  /\ Linux.lookupGroupName Ref.env 0 = "0".
Proof.
  destruct (lookup_failure_falls_back_to_decimal Ref.env 1000 0) as (Hu & Hg & _).
  split.
  - apply (Hu "user: unknown userid"). reflexivity.
  - apply (Hg "group: unknown groupid"). reflexivity.
Defined.

(** ** The Linux collector: what fails a record, what fails the run *)

Lemma parseFirstUint_empty : Linux.parseFirstUint [] = 0.
Proof. reflexivity. Qed.

Lemma parseKB_empty : Linux.parseKB [] = 0.
Proof. reflexivity. Qed.

Lemma readStatusMap_unreadable env path e :
  Linux.ReadFile env path = Err e -> Linux.readStatusMap env path = (∅, true).
Proof. intros H. unfold Linux.readStatusMap. now rewrite H. Qed.


Lemma readOneProcess_ok_iff env tl pid hz btime now :
  (exists p, Linux.readOneProcess env tl pid hz btime now = Ok p)
  <-> (exists st,
        Linux.readProcStat env (Linux.pathJoin "/proc" (Strconv.Itoa pid)) = Ok st).
Proof.
  split.
  - intros [p Hp].
    destruct (Linux.readProcStat env _) as [st|e] eqn:Hst; [eauto|].
    rewrite (readOneProcess_stat_err _ _ _ _ _ _ _ Hst) in Hp. discriminate.
  - intros [st Hst].
    destruct (readOneProcess_stat_ok env tl pid hz btime now st Hst) as (p & Hp & _).
    eauto.
Qed.




(** C10, as the code has it: a process whose stat file parses and
    whose status file cannot be read still has its record; there
    uid and gid are 0, the user and group are the names the identity
    database has for id 0, the string ["0"] where it has none, and the
    three memory figures are 0. *)
Theorem status_unreadable_record
  (env : Linux.Env) (tl : Time.Lib) (pid hz btime : Z) (now : Time.Time)
  (st : Linux.procStat) (e : error) :
  Linux.readProcStat env (Linux.pathJoin "/proc" (Strconv.Itoa pid)) = Ok st ->
  Linux.ReadFile env
    (Linux.pathJoin (Linux.pathJoin "/proc" (Strconv.Itoa pid)) "status") = Err e ->
  exists p, Linux.readOneProcess env tl pid hz btime now = Ok p
    /\ UID p = 0 /\ GID p = 0
    /\ User p = Linux.lookupUserName env 0
    /\ Group p = Linux.lookupGroupName env 0
    /\ (forall e', Linux.LookupId env "0" = Err e' -> User p = "0")
    /\ (forall e', Linux.LookupGroupId env "0" = Err e' -> Group p = "0")
    /\ MemRSSBytes p = 0 /\ MemVMSBytes p = 0 /\ MemSwapBytes p = 0.
Proof.
  intros Hst Hstatus. unfold Linux.readOneProcess. rewrite Hst.
  rewrite (readStatusMap_unreadable _ _ _ Hstatus).
  destruct (Linux.readCgroups _ _) as [[cgPrimary cgAll] cid].
  eexists. split; [reflexivity|].
  cbn [fst UID GID User Group MemRSSBytes MemVMSBytes MemSwapBytes].
  assert (Hget : forall k, Linux.mapGet ∅ k = []).
  { intros k. unfold Linux.mapGet. now rewrite lookup_empty. }
  rewrite !Hget, parseFirstUint_empty, parseKB_empty.
  repeat split.
  - intros e' H. unfold Linux.lookupUserName.
    change (Strconv.Itoa 0) with ("0" : gostring). now rewrite H.
  - intros e' H. unfold Linux.lookupGroupName.
    change (Strconv.Itoa 0) with ("0" : gostring). now rewrite H.
Qed.

(** Process 1 of the reference [/proc] has no status file. *)
Lemma status_unreadable_record_witness :
  exists p, Linux.readOneProcess Ref.env Ref.timeLib 1 100 0 Ref.now = Ok p
    /\ UID p = 0 /\ GID p = 0 /\ Group p = "0"
    /\ MemRSSBytes p = 0 /\ MemVMSBytes p = 0 /\ MemSwapBytes p = 0.
Proof.
  edestruct (status_unreadable_record Ref.env Ref.timeLib 1 100 0 Ref.now)
    as (p & Hp & Hu & Hg & _ & _ & _ & Hgn & Hr & Hv & Hs).
  - vm_compute. reflexivity.
  - vm_compute. reflexivity.
  - exists p. repeat split; try assumption.
    apply (Hgn "group: unknown groupid"). reflexivity.
Defined.

(** C10, as the claim words it, fails where the identity database
    knows id 0: process 1 of the reference [/proc] has a stat file and
    no status file, and its user is [root], not ["0"]. *)
Lemma status_unreadable_user_is_looked_up :
  exists st e p,
    Linux.readProcStat Ref.env (Linux.pathJoin "/proc" (Strconv.Itoa 1)) = Ok st
    /\ Linux.ReadFile Ref.env
         (Linux.pathJoin (Linux.pathJoin "/proc" (Strconv.Itoa 1)) "status") = Err e
    /\ Linux.readOneProcess Ref.env Ref.timeLib 1 100 0 Ref.now = Ok p
    /\ User p = "root" /\ User p <> "0".
Proof.
  eexists _, _, _. split; [vm_compute; reflexivity|].
  split; [vm_compute; reflexivity|].
  split; [vm_compute; reflexivity|].
  split; [reflexivity | discriminate].
Qed.

(** ** The control-group file *)









Lemma drop_app_cons {A} (l : list A) a k : drop (S (length l)) (l ++ a :: k) = k.
Proof. induction l; cbn; auto. Qed.

Lemma IndexByte_ge s c : -1 <= Strings.IndexByte s c.
Proof.
  induction s as [|a t IH]; cbn; [lia|].
  destruct (Ascii.eqb a c); [lia|].
  destruct (Strings.IndexByte t c <? 0) eqn:H; [lia|]. apply Z.ltb_ge in H. lia.
Qed.

Lemma IndexByte_app pre c post :
  c ∉ pre -> Strings.IndexByte (pre ++ c :: post) c = Z.of_nat (length pre).
Proof.
  induction pre as [|a pre IH]; intros Hn; cbn.
  - now rewrite Ascii.eqb_refl.
  - apply not_elem_of_cons in Hn as [Hac Hn].
    destruct (Ascii.eqb a c) eqn:He; [apply Ascii.eqb_eq in He; congruence|].
    rewrite (IH Hn). destruct (Z.of_nat (length pre) <? 0) eqn:H; lia.
Qed.

Lemma IndexByte_split s c :
  0 <= Strings.IndexByte s c ->
  exists pre post,
    s = pre ++ c :: post /\ (c ∉ pre)
    /\ sliceTo s (Strings.IndexByte s c) = pre
    /\ sliceFrom s (Strings.IndexByte s c + 1) = post.
Proof.
  unfold sliceTo, sliceFrom.
  induction s as [|a t IH]; cbn; [lia|].
  destruct (Ascii.eqb a c) eqn:He.
  - apply Ascii.eqb_eq in He as ->. intros _. exists [], t.
    repeat split; auto. apply not_elem_of_nil.
  - pose proof (IndexByte_ge t c).
    destruct (Strings.IndexByte t c <? 0) eqn:H0; [lia|]. apply Z.ltb_ge in H0.
    intros _. destruct (IH H0) as (pre & post & Hs & Hn & Ht & Hd).
    exists (a :: pre), post. repeat split.
    + cbn. now f_equal.
    + apply not_elem_of_cons. split; [|exact Hn].
      intros ->. now rewrite Ascii.eqb_refl in He.
    + replace (Z.to_nat (Strings.IndexByte t c + 1))
        with (S (Z.to_nat (Strings.IndexByte t c))) by lia.
      cbn. now f_equal.
    + replace (Z.to_nat (Strings.IndexByte t c + 1 + 1))
        with (S (Z.to_nat (Strings.IndexByte t c + 1))) by lia.
      exact Hd.
Qed.

Lemma IndexByte_absent s c : Strings.IndexByte s c < 0 <-> c ∉ s.
Proof.
  split.
  - intros Hlt Hin. apply list_elem_of_split in Hin as (pre & post & ->).
    revert Hlt. induction pre as [|a pre IH]; cbn.
    + rewrite Ascii.eqb_refl. lia.
    + destruct (Ascii.eqb a c); [lia|].
      destruct (Strings.IndexByte (pre ++ c :: post) c <? 0) eqn:H.
      * apply Z.ltb_lt in H. auto.
      * apply Z.ltb_ge in H. lia.
  - intros Hn. pose proof (IndexByte_ge s c).
    destruct (Z.ltb_spec (Strings.IndexByte s c) 0) as [|Hge]; [assumption|].
    destruct (IndexByte_split s c Hge) as (pre & post & -> & _).
    exfalso. apply Hn, elem_of_app. right. apply elem_of_cons. auto.
Qed.





Lemma firstNonEmpty_app_nil (l1 l2 : list gostring) :
  Spec.firstNonEmpty l1 = None ->
  Spec.firstNonEmpty (l1 ++ l2) = Spec.firstNonEmpty l2.
Proof.
  induction l1 as [|[|c p] l1 IH]; cbn; auto. discriminate.
Qed.





(** ** The line scanner *)

(** A line of [maxTok] bytes or more stops the scan. *)
Lemma scanGo_too_long maxTok cur n l rest :
  Forall (fun c => c <> "010"%char) l ->
  maxTok <= n + len l ->
  Bufio.scanGo maxTok cur n (l ++ "010"%char :: rest) = ([], true).
Proof.
  unfold len. revert cur n.
  induction l as [|a l IH]; intros cur n Hl Hn; cbn [app Bufio.scanGo].
  - rewrite Ascii.eqb_refl. cbn in Hn.
    destruct (Z.ltb_spec n maxTok); [lia | reflexivity].
  - inversion Hl as [|? ? Ha Hl']; subst.
    destruct (Ascii.eqb a "010") eqn:He; [apply Ascii.eqb_eq in He; congruence|].
    apply IH; [assumption|]. cbn [length] in Hn. lia.
Qed.

(** A line that fits is delivered, and the scan goes on behind it. *)
Lemma scanGo_line maxTok cur n l rest :
  Forall (fun c => c <> "010"%char) l ->
  n + len l < maxTok ->
  Bufio.scanGo maxTok cur n (l ++ "010"%char :: rest)
  = (Bufio.dropCR (rev l ++ cur) :: fst (Bufio.scanGo maxTok [] 0 rest),
     snd (Bufio.scanGo maxTok [] 0 rest)).
Proof.
  unfold len. revert cur n.
  induction l as [|a l IH]; intros cur n Hl Hn; cbn [app Bufio.scanGo].
  - rewrite Ascii.eqb_refl. cbn in Hn.
    destruct (Z.ltb_spec n maxTok); [|lia].
    now destruct (Bufio.scanGo maxTok [] 0 rest).
  - inversion Hl as [|? ? Ha Hl']; subst.
    destruct (Ascii.eqb a "010") eqn:He; [apply Ascii.eqb_eq in He; congruence|].
    rewrite IH; [|assumption|cbn [length] in Hn; lia].
    cbn [rev]. now rewrite <- app_assoc.
Qed.






(** ** White space *)

Lemma code_eqb_high c k : code c < 128 -> 128 <= k -> (code c =? k) = false.
Proof. intros. apply Z.eqb_neq. lia. Qed.

Lemma code_leb_high c k : code c < 128 -> 128 <= k -> (k <=? code c) = false.
Proof. intros. apply Z.leb_gt. lia. Qed.

(** A byte below 128 that is no ASCII space starts no white-space rune
    and ends none. *)
Lemma spaceRuneLen_plain bwd c t :
  code c < 128 -> Strings.isSpace1 c = false ->
  Strings.spaceRuneLen bwd (c :: t) = 0%nat.
Proof.
  intros Hc Hs. unfold Strings.spaceRuneLen. rewrite Hs.
  destruct t as [|b u]; [reflexivity|].
  unfold Strings.isSpace2, Strings.isSpace3.
  rewrite !(code_eqb_high c), !(code_leb_high c) by lia.
  rewrite ?andb_false_r, ?orb_false_r. cbn [andb orb].
  destruct bwd, u; rewrite ?andb_false_r; reflexivity.
Qed.

Lemma TrimSpace_plain a t i z :
  a :: t = i ++ [z] ->
  code a < 128 -> Strings.isSpace1 a = false ->
  code z < 128 -> Strings.isSpace1 z = false ->
  Strings.TrimSpace (a :: t) = a :: t.
Proof.
  intros Heq Ha Has Hz Hzs. unfold Strings.TrimSpace.
  cbn [Strings.trimHead]. rewrite (spaceRuneLen_plain false a t Ha Has).
  rewrite Heq, rev_app_distr. cbn [rev app Strings.trimHead].
  rewrite (spaceRuneLen_plain true z (rev i) Hz Hzs).
  cbn [rev]. now rewrite rev_involutive.
Qed.

(** ** The Windows collector: rows without a usable creation date *)

Lemma getString_absent (m : Windows.row) k : m !! k = None -> Windows.getString m k = [].
Proof. intros H. unfold Windows.getString. now rewrite H. Qed.

Lemma parseCIMDateTime_rejected s :
  snd (Windows.parseCIMDateTime s) = false ->
  fst (Windows.parseCIMDateTime s) = Time.zero.
Proof.
  unfold Windows.parseCIMDateTime.
  destruct (Strings.TrimSpace s) as [|c t]; [reflexivity|].
  destruct (len _ <? 14); [reflexivity|].
  destruct (if Strings.HasPrefix _ "." then _ else _) as [usec rem].
  cbn. discriminate.
Qed.

(** C3, as the code has it: a row with a positive process id whose
    [CreationDate] is absent, empty or rejected by the parser gives a
    record with the empty start time, and with the elapsed time
    present and zero. *)
Theorem creation_date_unusable_record
  (tl : Time.Lib) (now : Time.Time) (m : Windows.row) :
  0 < Windows.getInt64 m "ProcessId" ->
  m !! ("CreationDate" : gostring) = None
  \/ Windows.getString m "CreationDate" = []
  \/ snd (Windows.parseCIMDateTime (Windows.getString m "CreationDate")) = false ->
  exists p, Windows.rowProcess tl now m = Some p
    /\ PID p = Windows.getInt64 m "ProcessId"
    /\ StartTime p = []
    /\ ElapsedSeconds p = Some 0
    /\ StartTimeUnixNs p = -6795364578871345152.
Proof.
  intros Hpid Hcd.
  assert (Hstart :
    match Windows.getString m "CreationDate" with
    | [] => Time.zero
    | cd => let '(t, ok) := Windows.parseCIMDateTime cd in
            if ok then t else Time.zero
    end = Time.zero).
  { destruct Hcd as [Habs|[Hemp|Hrej]].
    - now rewrite (getString_absent _ _ Habs).
    - now rewrite Hemp.
    - destruct (Windows.getString m "CreationDate") as [|c cd]; [reflexivity|].
      destruct (Windows.parseCIMDateTime (c :: cd)) as [t ok].
      cbn in Hrej. now rewrite Hrej. }
  unfold Windows.rowProcess.
  destruct (Z.leb_spec (Windows.getInt64 m "ProcessId") 0); [lia|].
  rewrite Hstart. eexists. split; [reflexivity|].
  repeat split.
Qed.

(** The reference row with the creation date ["2025"]. *)
Lemma creation_date_unusable_record_witness :
  exists p, Windows.rowProcess Ref.timeLib Ref.now Ref.rowShortDate = Some p
    /\ PID p = 812 /\ StartTime p = [] /\ ElapsedSeconds p = Some 0.
Proof.
  destruct (creation_date_unusable_record Ref.timeLib Ref.now Ref.rowShortDate)
    as (p & Hp & Hpid & Hs & He & _).
  - vm_compute. reflexivity.
  - right. right. vm_compute. reflexivity.
  - exists p. split; [exact Hp|]. split; [|split; assumption].
    rewrite Hpid. vm_compute. reflexivity.
Defined.

(** C3, as the claim words it, fails: for the reference row without
    a creation date the elapsed time of the record is populated. *)
Lemma creation_date_absent_elapsed_populated :
  Ref.rowNoDate !! ("CreationDate" : gostring) = None
  /\ exists p, Windows.rowProcess Ref.timeLib Ref.now Ref.rowNoDate = Some p
       /\ StartTime p = []
       /\ ElapsedSeconds p = Some 0
       /\ ElapsedSeconds p <> None.
Proof.
  split; [vm_compute; reflexivity|].
  eexists. split; [vm_compute; reflexivity|].
  repeat split. discriminate.
Qed.

(** ** The Windows collector: decoding the output *)

(** A final line without a newline is delivered when it fits. *)
Lemma scanGo_last maxTok cur n l :
  Forall (fun c => c <> "010"%char) l ->
  0 < n + len l < maxTok ->
  0 <= n ->
  Bufio.scanGo maxTok cur n l = ([Bufio.dropCR (rev l ++ cur)], false).
Proof.
  unfold len. revert cur n.
  induction l as [|a l IH]; intros cur n Hl Hn Hn0; cbn [Bufio.scanGo].
  - cbn in Hn. destruct (Z.eqb_spec n 0); [lia|].
    destruct (Z.ltb_spec n maxTok); [reflexivity | lia].
  - inversion Hl as [|? ? Ha Hl']; subst.
    destruct (Ascii.eqb a "010") eqn:He; [apply Ascii.eqb_eq in He; congruence|].
    rewrite IH; [|assumption|cbn [length] in Hn; lia|lia].
    cbn [rev]. now rewrite <- app_assoc.
Qed.

(** The lines the sanitizer keeps: trimmed, and beginning with a
    brace or a bracket. *)
Lemma usefulLine_Some text line :
  Windows.usefulLine text = Some line
  <-> line = Strings.TrimSpace text
      /\ (Strings.HasPrefix line "{" = true \/ Strings.HasPrefix line "[" = true).
Proof.
  unfold Windows.usefulLine.
  destruct (Strings.TrimSpace text) as [|c t] eqn:Ht.
  - split; [discriminate|]. intros [-> [H|H]]; discriminate.
  - destruct (Strings.HasPrefix (c :: t) "{") eqn:H1; cbn [orb].
    + split; [intros [= <-]; auto | intros [-> _]; reflexivity].
    + destruct (Strings.HasPrefix (c :: t) "[") eqn:H2.
      * split; [intros [= <-]; auto | intros [-> _]; reflexivity].
      * split; [discriminate|]. intros [-> [H|H]]; congruence.
Qed.

Lemma sanitizeJSON_lines out lines e :
  Bufio.scanLines Bufio.MaxScanTokenSize out = (lines, e) ->
  Windows.sanitizeJSON out = Strings.Join (omap Windows.usefulLine lines) ["010"%char].
Proof. intros H. unfold Windows.sanitizeJSON. now rewrite H. Qed.

(** C5, amended: a failed decode is followed by exactly one more, of
    the sanitized copy; the sanitized copy is made of the lines the
    scanner delivers (it stops before a line of 64 KiB or more) that,
    trimmed, begin with a brace or a bracket; when the second decode
    fails too, the error of the first is returned.  An output of two
    lines, both within the limit of the scanner, a warning that does
    not begin with a brace or a bracket and a line holding a JSON
    value that begins with a bracket, decodes to that value. *)
Theorem decode_retries_once_on_sanitized_copy
  (decode : gostring -> result Windows.any) :
  (forall out raw, decode out = Ok raw ->
     Windows.decodeOutput decode out = (Ok raw, [out]))
  /\ (forall out err, decode out = Err err ->
     snd (Windows.decodeOutput decode out) = [out; Windows.sanitizeJSON out]
     /\ (forall raw, decode (Windows.sanitizeJSON out) = Ok raw ->
           fst (Windows.decodeOutput decode out) = Ok raw)
     /\ (forall err2, decode (Windows.sanitizeJSON out) = Err err2 ->
           fst (Windows.decodeOutput decode out) = Err err))
  /\ (forall out lines, Bufio.scanLines Bufio.MaxScanTokenSize out = (lines, false) ->
     Windows.sanitizeJSON out
     = Strings.Join (omap Windows.usefulLine lines) ["010"%char])
  /\ (forall text line,
     Windows.usefulLine text = Some line
     <-> line = Strings.TrimSpace text
         /\ (Strings.HasPrefix line "{" = true \/ Strings.HasPrefix line "[" = true))
  /\ (forall out warning arr err raw tl now,
     Bufio.scanLines Bufio.MaxScanTokenSize out = ([warning; arr], false) ->
     Strings.HasPrefix (Strings.TrimSpace warning) "{" = false ->
     Strings.HasPrefix (Strings.TrimSpace warning) "[" = false ->
     Strings.HasPrefix (Strings.TrimSpace arr) "[" = true ->
     decode out = Err err ->
     decode (Strings.TrimSpace arr) = Ok raw ->
     fst (Windows.decodeOutput decode out) = Ok raw
     /\ Windows.collectProcesses decode tl now (Ok out)
        = Ok (omap (Windows.rowProcess tl now) (Windows.toSliceOfMaps raw))).
Proof.
  split; [|split; [|split; [|split]]].
  - intros out raw H. unfold Windows.decodeOutput. now rewrite H.
  - intros out err H. unfold Windows.decodeOutput. rewrite H.
    split; [|split].
    + now destruct (decode (Windows.sanitizeJSON out)).
    + intros raw H2. now rewrite H2.
    + intros err2 H2. now rewrite H2.
  - intros out lines H. now apply sanitizeJSON_lines with (e := false).
  - apply usefulLine_Some.
  - intros out warning arr err raw tl now Hscan Hw1 Hw2 Ha Hd Hd2.
    assert (Hsan : Windows.sanitizeJSON out = Strings.TrimSpace arr).
    { rewrite (sanitizeJSON_lines _ _ _ Hscan). cbn [omap list_omap].
      assert (Hw : Windows.usefulLine warning = None).
      { unfold Windows.usefulLine.
        destruct (Strings.TrimSpace warning); [reflexivity|].
        now rewrite Hw1, Hw2. }
      assert (Harr : Windows.usefulLine arr = Some (Strings.TrimSpace arr)).
      { apply usefulLine_Some. auto. }
      now rewrite Hw, Harr. }
    assert (Hfst : fst (Windows.decodeOutput decode out) = Ok raw).
    { unfold Windows.decodeOutput. now rewrite Hd, Hsan, Hd2. }
    split; [exact Hfst|].
    unfold Windows.collectProcesses. now rewrite Hfst.
Qed.

(** The reference output, a warning and two rows on one line,
    decodes to its two rows. *)
Lemma decode_retries_once_on_sanitized_copy_witness :
  exists raw, fst (Windows.decodeOutput Json.decode Ref.warnedOutput) = Ok raw
    /\ length (Windows.toSliceOfMaps raw) = 2%nat.
Proof.
  destruct (decode_retries_once_on_sanitized_copy Json.decode)
    as (_ & _ & _ & _ & H).
  edestruct (fun w a e r => H Ref.warnedOutput w a e r Ref.timeLib Ref.now)
    as [Hraw _]; [vm_compute; reflexivity .. | ].
  eexists. split; [exact Hraw|]. vm_compute. reflexivity.
Defined.

Lemma skipWs_spaces n rest :
  Json.skipWs (replicate n " "%char ++ rest) = Json.skipWs rest.
Proof. induction n as [|n IH]; [reflexivity | exact IH]. Qed.

Lemma skipWs_plain c t : Json.isWs c = false -> Json.skipWs (c :: t) = c :: t.
Proof. intros H. cbn. now rewrite H. Qed.

Lemma parse_spaced_array f n :
  Json.parse (S f) Json.MValue ("["%char :: replicate n " "%char ++ ["]"%char])
  = Some (Windows.AArray [], []).
Proof.
  cbn [Json.parse].
  rewrite (skipWs_plain "["%char) by reflexivity.
  cbn [Ascii.eqb Bool.eqb andb]. cbv iota.
  rewrite skipWs_spaces. reflexivity.
Qed.

Lemma parse_no_value f t :
  Json.parse (S f) Json.MValue ("W"%char :: t) = None.
Proof. reflexivity. Qed.

Lemma longArray_len : len Ref.longArray = 65538.
Proof.
  unfold len, Ref.longArray. cbn [length].
  rewrite length_app, length_replicate. cbn [length]. lia.
Qed.

Lemma longArray_no_newline : Forall (fun c => c <> "010"%char) Ref.longArray.
Proof.
  unfold Ref.longArray. constructor; [discriminate|].
  apply Forall_app. split.
  - apply Forall_replicate. discriminate.
  - constructor; [discriminate | constructor].
Qed.

Lemma sanitizeJSON_longOutput : Windows.sanitizeJSON Ref.longOutput = [].
Proof.
  unfold Windows.sanitizeJSON, Bufio.scanLines, Ref.longOutput.
  rewrite scanGo_line.
  - rewrite scanGo_too_long.
    + reflexivity.
    + apply longArray_no_newline.
    + rewrite longArray_len. unfold Bufio.MaxScanTokenSize. lia.
  - repeat constructor; discriminate.
  - vm_compute. reflexivity.
Qed.

(** C5, as the claim words it, fails in two ways.  A warning that
    begins with a bracket is kept by the sanitizer, and the retry
    fails on it although the second line is a JSON array.  And an
    array on a line of 64 KiB or more is never delivered by the
    scanner: the sanitized copy is empty and the retry fails. *)
Lemma sanitized_retry_fails_on_bracket_warning_and_long_line :
  (Bufio.scanLines Bufio.MaxScanTokenSize Ref.bracketWarning
   = (["[WARN] the CIM server is busy" : gostring; "[]" : gostring], false)
   /\ (exists e, Json.decode "[WARN] the CIM server is busy" = Err e)
   /\ Json.decode "[]" = Ok (Windows.AArray [])
   /\ exists e, Json.decode Ref.bracketWarning = Err e
        /\ fst (Windows.decodeOutput Json.decode Ref.bracketWarning) = Err e)
  /\ (Ref.longOutput
      = ("WARNING: busy" : gostring) ++ "010"%char :: (Ref.longArray ++ ["010"%char])
      /\ Json.decode Ref.longArray = Ok (Windows.AArray [])
      /\ exists e, Json.decode Ref.longOutput = Err e
           /\ fst (Windows.decodeOutput Json.decode Ref.longOutput) = Err e).
Proof.
  split.
  - split; [vm_compute; reflexivity|].
    split; [eexists; vm_compute; reflexivity|].
    split; [vm_compute; reflexivity|].
    eexists. split; vm_compute; reflexivity.
  - split; [reflexivity|]. split.
    + unfold Json.decode, Ref.longArray. now rewrite parse_spaced_array.
    + assert (Hd : Json.decode Ref.longOutput = Err "invalid JSON").
      { unfold Json.decode, Ref.longOutput.
        change (("WARNING: busy" : gostring) ++ "010"%char :: (Ref.longArray ++ ["010"%char]))
          with ("W"%char :: ("ARNING: busy" : gostring)
                  ++ "010"%char :: (Ref.longArray ++ ["010"%char])).
        now rewrite parse_no_value. }
      eexists. split; [exact Hd|].
      unfold Windows.decodeOutput. rewrite Hd, sanitizeJSON_longOutput.
      reflexivity.
Qed.

(** ** The pids of a snapshot *)



Lemma rowProcess_pid tl now m :
  match Windows.rowProcess tl now m with
  | Some p => Spec.rowPid m = Some (PID p) /\ 0 < PID p
  | None => Spec.rowPid m = None
  end.
Proof.
  unfold Windows.rowProcess, Spec.rowPid.
  destruct (Z.leb_spec (Windows.getInt64 m "ProcessId") 0),
           (Z.ltb_spec 0 (Windows.getInt64 m "ProcessId")); try lia; cbn; auto.
Qed.







(** ** Decimal digits *)

Ltac lia_div := Z.div_mod_to_equations; lia.

Lemma isDigit_val c : isDigit c = true -> 0 <= digitVal c <= 9.
Proof.
  unfold isDigit, digitVal. intros H. apply andb_true_iff in H as [H1 H2].
  apply Z.leb_le in H1, H2. lia.
Qed.

Lemma isDigit_not c x : isDigit x = false -> isDigit c = true -> Ascii.eqb c x = false.
Proof.
  intros Hx Hc. destruct (Ascii.eqb c x) eqn:He; [|reflexivity].
  apply Ascii.eqb_eq in He. congruence.
Qed.

(** The digit loop of [ParseUint] on at most eighteen digits: no
    overflow, and the value is that of the digits. *)
Lemma parseUintLoop_digits maxVal s : forall n (m : nat),
  Spec.allDigits s ->
  0 <= n < 10 ^ Z.of_nat m ->
  (m + length s <= 18)%nat ->
  10 ^ 18 <= maxVal ->
  Strconv.parseUintLoop maxVal n s = (Spec.decimalFrom n s, None)
  /\ 0 <= Spec.decimalFrom n s < 10 ^ Z.of_nat (m + length s).
Proof.
  induction s as [|c t IH]; intros n m Hd Hn Hm Hmax.
  - cbn. rewrite Nat.add_0_r. auto.
  - inversion Hd as [|? ? Hc Ht]; subst.
    pose proof (isDigit_val c Hc) as Hv.
    cbn [length] in Hm.
    assert (Hp : 10 ^ Z.of_nat m <= 10 ^ 17).
    { apply Z.pow_le_mono_r; lia. }
    assert (Hs : 10 ^ Z.of_nat (S m) = 10 * 10 ^ Z.of_nat m).
    { rewrite Nat2Z.inj_succ, Z.pow_succ_r; lia. }
    cbn [Strconv.parseUintLoop]. rewrite Hc.
    change ((2 ^ 64 - 1) / 10 + 1) with 1844674407370955162.
    change (10 ^ 17) with 100000000000000000 in Hp.
    change (10 ^ 18) with 1000000000000000000 in Hmax.
    destruct (Z.leb_spec 1844674407370955162 n); [lia|].
    destruct (Z.ltb_spec maxVal (n * 10 + digitVal c)); [lia|].
    destruct (IH (n * 10 + digitVal c) (S m) Ht) as [He Hb]; [lia|lia|lia|].
    cbn [length].
    replace (m + S (length t))%nat with (S m + length t)%nat by lia.
    split; [exact He|exact Hb].
Qed.

(** [Atoi] on one to eighteen digits. *)
Lemma Atoi_digits s :
  Spec.allDigits s -> s <> [] -> (length s <= 18)%nat ->
  Strconv.Atoi s = (Spec.decimal s, None).
Proof.
  intros Hd Hne Hlen. destruct s as [|c t]; [congruence|].
  inversion Hd as [|? ? Hc Ht]; subst.
  unfold Strconv.Atoi, Strconv.ParseInt.
  rewrite (isDigit_not c "-"), (isDigit_not c "+") by (assumption || reflexivity).
  cbn [orb negb andb]. unfold Strconv.ParseUint.
  destruct (parseUintLoop_digits (2 ^ 64 - 1) (c :: t) 0 0 Hd) as [He Hb];
    [cbn; lia | cbn [length] in *; lia | cbn; lia |].
  rewrite He. fold (Spec.decimal (c :: t)) in Hb |- *.
  assert (Hp : 10 ^ Z.of_nat (0 + length (c :: t)) <= 10 ^ 18).
  { apply Z.pow_le_mono_r; lia. }
  change (10 ^ 18) with 1000000000000000000 in Hp.
  change (2 ^ 63) with 9223372036854775808.
  destruct (Z.leb_spec 9223372036854775808 (Spec.decimal (c :: t))); [lia|].
  reflexivity.
Qed.

(** The decimal rendering of a number of six digits has six bytes. *)
Lemma Itoa_six_digits v :
  100000 <= v < 1000000 -> length (Strconv.Itoa v) = 6%nat.
Proof.
  intros Hv. unfold Strconv.Itoa.
  destruct (Z.ltb_spec v 0); [lia|].
  cbn [Strconv.digitsGo].
  destruct (Z.ltb_spec v 10); [lia|].
  destruct (Z.ltb_spec (v / 10) 10); [lia_div|].
  destruct (Z.ltb_spec (v / 10 / 10) 10); [lia_div|].
  destruct (Z.ltb_spec (v / 10 / 10 / 10) 10); [lia_div|].
  destruct (Z.ltb_spec (v / 10 / 10 / 10 / 10) 10); [lia_div|].
  destruct (Z.ltb_spec (v / 10 / 10 / 10 / 10 / 10) 10); [reflexivity|lia_div].
Qed.

(** ** The compact date-time parser *)

Lemma RemoveByte_id s old :
  Forall (fun c => c <> old) s -> Strings.RemoveByte s old = s.
Proof.
  unfold Strings.RemoveByte.
  induction 1 as [|c t Hc Ht IH]; [reflexivity|].
  rewrite filter_cons_True by assumption. now f_equal.
Qed.

Lemma isDigit_plain c :
  isDigit c = true -> code c < 128 /\ Strings.isSpace1 c = false.
Proof.
  unfold isDigit, Strings.isSpace1. intros H.
  apply andb_true_iff in H as [H1 H2]. apply Z.leb_le in H1, H2.
  split; [lia|].
  destruct (Z.leb_spec 9 (code c)), (Z.leb_spec (code c) 13),
           (Z.eqb_spec (code c) 32); cbn; lia || reflexivity.
Qed.

Lemma usecLoop_digits l : forall rest acc,
  Spec.allDigits l ->
  Windows.usecLoop (length l) (l ++ rest) acc = Spec.decimalFrom acc l.
Proof.
  induction l as [|c t IH]; intros rest acc Hd.
  - now destruct rest.
  - inversion Hd as [|? ? Hc Ht]; subst. cbn. rewrite Hc. now apply IH.
Qed.

Lemma dropDigits_digits l c rest :
  Spec.allDigits l -> isDigit c = false ->
  Windows.dropDigits (l ++ c :: rest) = c :: rest.
Proof.
  intros Hd Hc. induction Hd as [|d t Hdig Ht IH]; cbn.
  - now rewrite Hc.
  - now rewrite Hdig.
Qed.

(** Six fraction digits that do not begin with a zero, or are all
    zero, come through the padding loop unchanged. *)
Lemma padLoop_six frac :
  length frac = 6%nat -> Spec.allDigits frac ->
  head frac <> Some "0"%char \/ frac = ("000000" : gostring) ->
  Windows.padLoop (Spec.decimal frac) = Spec.decimal frac.
Proof.
  intros Hlen Hd [Hnz| ->]; [|reflexivity].
  destruct (parseUintLoop_digits (10 ^ 18) frac 0 0 Hd) as [_ Hb];
    [cbn; lia | lia | lia |].
  rewrite Hlen in Hb. change (10 ^ Z.of_nat (0 + 6)) with 1000000 in Hb.
  fold (Spec.decimal frac) in Hb.
  assert (Hlo : 100000 <= Spec.decimal frac).
  { destruct frac as [|f1 [|f2 [|f3 [|f4 [|f5 [|f6 [|]]]]]]]; try discriminate.
    unfold Spec.allDigits in Hd.
    repeat match goal with
           | H : Forall _ (_ :: _) |- _ => inversion H; subst; clear H
           end.
    assert (Hf1 : digitVal f1 <> 0).
    { intros Hz0. apply Hnz. cbn. f_equal.
      unfold digitVal, code in Hz0.
      rewrite <- (ascii_N_embedding f1).
      replace (N_of_ascii f1) with 48%N by lia. reflexivity. }
    repeat match goal with
           | H : isDigit _ = true |- _ => apply isDigit_val in H
           end.
    unfold Spec.decimal, Spec.decimalFrom. cbn [fold_left]. lia. }
  unfold Windows.padLoop. rewrite Itoa_six_digits by lia. reflexivity.
Qed.

(** [time.Date] in a fixed zone is [time.Date] in UTC moved by the
    offset of the zone. *)
Lemma Date_east y mo d h mi s ns east :
  Time.Date y mo d h mi s ns east
  = Time.mkTime (Time.unixSec (Time.Date y mo d h mi s ns 0) - east)
                (Time.nsec (Time.Date y mo d h mi s ns 0)).
Proof. unfold Time.Date. cbn [Time.unixSec Time.nsec]. f_equal. lia. Qed.

(** The parser rejects exactly the inputs that, trimmed and with
    every [T] removed, are shorter than 14 bytes. *)
Lemma parseCIMDateTime_rejects_iff s :
  snd (Windows.parseCIMDateTime s) = false
  <-> len (Strings.RemoveByte (Strings.TrimSpace s) "T") < 14.
Proof.
  unfold Windows.parseCIMDateTime.
  destruct (Strings.TrimSpace s) as [|c t].
  - split; [intros _; reflexivity | reflexivity].
  - destruct (Z.ltb_spec (len (Strings.RemoveByte (c :: t) "T")) 14).
    + split; [auto | reflexivity].
    + destruct (if Strings.HasPrefix _ "." then _ else _) as [usec rem].
      cbn [snd]. split; [discriminate | lia].
Qed.

Lemma slice_app_l s rest lo hi :
  0 <= lo <= hi -> hi <= len s -> slice (s ++ rest) lo hi = slice s lo hi.
Proof.
  unfold slice, len. intros Hlo Hhi.
  rewrite drop_app_le by lia.
  rewrite take_app_le; [reflexivity|]. rewrite length_drop. lia.
Qed.

Lemma slice_digits s lo hi :
  Spec.allDigits s -> 0 <= lo < hi -> hi <= len s -> hi - lo <= 18 ->
  Strconv.Atoi (slice s lo hi) = (Spec.decimal (slice s lo hi), None).
Proof.
  unfold len. intros Hd Hlo Hhi Hw.
  assert (Hl : length (slice s lo hi) = Z.to_nat (hi - lo)).
  { unfold slice. rewrite length_take, length_drop. lia. }
  apply Atoi_digits.
  - unfold slice, Spec.allDigits. now apply Forall_take, Forall_drop.
  - intros E. rewrite E in Hl. cbn in Hl. lia.
  - lia.
Qed.

Lemma digit_not_T c : isDigit c = true -> c <> "T"%char.
Proof. intros H ->. discriminate. Qed.

(** C1, amended.  A compact date-time of 14 date and time digits, a
    point, six fraction digits that do not begin with a zero (or are
    all zero), a sign and three offset digits is accepted, and parses
    to the instant of [Spec.cimInstant]: the date and time of day in
    UTC plus the signed offset in minutes, the fraction as
    microseconds.  An input is rejected exactly when, trimmed and with
    every [T] removed, it is shorter than 14 bytes, and then the zero
    time comes with it. *)
Theorem parseCIMDateTime_full_form_and_rejection :
  (forall (date frac : gostring) (sgn : ascii) (off : gostring),
     length date = 14%nat -> Spec.allDigits date ->
     length frac = 6%nat -> Spec.allDigits frac ->
     head frac <> Some "0"%char \/ frac = ("000000" : gostring) ->
     sgn = "+"%char \/ sgn = "-"%char ->
     length off = 3%nat -> Spec.allDigits off ->
     Windows.parseCIMDateTime (date ++ "."%char :: frac ++ sgn :: off)
     = (Spec.cimInstant date frac sgn off, true))
  /\ (forall s,
     snd (Windows.parseCIMDateTime s) = false
     <-> len (Strings.RemoveByte (Strings.TrimSpace s) "T") < 14)
  /\ (forall s,
     snd (Windows.parseCIMDateTime s) = false ->
     fst (Windows.parseCIMDateTime s) = Time.zero).
Proof.
  split; [|split; [apply parseCIMDateTime_rejects_iff
                  | apply parseCIMDateTime_rejected]].
  intros date frac sgn off Hdl Hdd Hfl Hfd Hfz Hsgn Hol Hod.
  set (s := date ++ "."%char :: frac ++ sgn :: off).
  assert (Hsd : isDigit sgn = false) by (destruct Hsgn; subst; reflexivity).
  assert (HsT : sgn <> "T"%char) by (destruct Hsgn; subst; discriminate).
  (* trimming and the removal of T leave the input as it is *)
  assert (Htrim : Strings.TrimSpace s = s).
  { destruct date as [|a date']; [discriminate|].
    destruct off as [|o1 [|o2 [|o3 [|]]]]; try discriminate.
    inversion Hdd as [|? ? Ha _]; subst.
    assert (Hz : isDigit o3 = true).
    { inversion Hod as [|? ? _ H1]; subst. inversion H1 as [|? ? _ H2]; subst.
      now inversion H2. }
    destruct (isDigit_plain a Ha) as [Ha1 Ha2].
    destruct (isDigit_plain o3 Hz) as [Hz1 Hz2].
    unfold s. cbn [app].
    apply (TrimSpace_plain a _ (a :: date' ++ "."%char :: frac ++ [sgn; o1; o2]) o3);
      try assumption.
    cbn [app]. f_equal. rewrite <- app_assoc. cbn [app]. f_equal.
    rewrite <- app_assoc. reflexivity. }
  assert (HnoT : Strings.RemoveByte s "T" = s).
  { apply RemoveByte_id. unfold s.
    apply Forall_app. split.
    - eapply Forall_impl; [exact Hdd|]. intros c Hc. now apply digit_not_T.
    - constructor; [discriminate|]. apply Forall_app. split.
      + eapply Forall_impl; [exact Hfd|]. intros c Hc. now apply digit_not_T.
      + constructor; [exact HsT|].
        eapply Forall_impl; [exact Hod|]. intros c Hc. now apply digit_not_T. }
  assert (Hlen : len date = 14) by (unfold len; lia).
  unfold Windows.parseCIMDateTime. fold s. rewrite Htrim.
  destruct s as [|c0 t0] eqn:Hs0; [destruct date; discriminate|].
  rewrite <- Hs0 in *. rewrite HnoT.
  assert (Hls : len s = 25).
  { unfold s, len. rewrite length_app. cbn [length]. rewrite length_app.
    cbn [length]. lia. }
  destruct (Z.ltb_spec (len s) 14); [lia|].
  (* the six fields of the date and the time of day *)
  subst s.
  rewrite !slice_app_l by lia.
  rewrite !slice_digits by (assumption || lia).
  cbn [fst].
  (* the fraction *)
  assert (Hrem : sliceFrom (date ++ "."%char :: frac ++ sgn :: off) 14
                 = "."%char :: frac ++ sgn :: off).
  { unfold sliceFrom. change (Z.to_nat 14) with 14%nat.
    rewrite <- Hdl. apply drop_app_length. }
  rewrite Hrem.
  assert (Hpt : Strings.HasPrefix ("."%char :: frac ++ sgn :: off) "." = true).
  { cbn. now destruct (frac ++ sgn :: off). }
  rewrite Hpt.
  change (sliceFrom ("."%char :: frac ++ sgn :: off) 1) with (frac ++ sgn :: off).
  change 6%nat with (length ("000000" : gostring)) at 1.
  replace (length ("000000" : gostring)) with (length frac) by (rewrite Hfl; reflexivity).
  rewrite (usecLoop_digits frac (sgn :: off) 0 Hfd).
  fold (Spec.decimal frac).
  rewrite (padLoop_six frac Hfl Hfd Hfz).
  rewrite (dropDigits_digits frac sgn off Hfd Hsd).
  (* the offset *)
  assert (Hl4 : len (sgn :: off) = 4) by (unfold len; cbn [length]; lia).
  rewrite Hl4. change (4 <=? 4) with true. cbn [nth andb].
  assert (Hsign : Ascii.eqb sgn "+" || Ascii.eqb sgn "-" = true)
    by (destruct Hsgn; subst; reflexivity).
  rewrite Hsign.
  assert (Hoff : slice (sgn :: off) 1 4 = off).
  { unfold slice. change (Z.to_nat (4 - 1)) with 3%nat.
    change (Z.to_nat 1) with 1%nat. cbn [drop].
    rewrite <- Hol. apply firstn_all. }
  rewrite Hoff, (Atoi_digits off Hod) by (try lia; intros ->; discriminate).
  cbn [isNil].
  unfold Spec.cimInstant. rewrite Date_east. f_equal. f_equal. lia.
Qed.

(** The example of the source: 2025-01-01 12:00:00.123456 with the
    offset +060. *)
Lemma parseCIMDateTime_full_form_and_rejection_witness :
  Windows.parseCIMDateTime "20250101120000.123456+060"
  = (Time.mkTime 1735736400 123456000, true).
Proof.
  destruct parseCIMDateTime_full_form_and_rejection as (H & _ & _).
  etransitivity.
  - apply (H "20250101120000" "123456" "+"%char "060").
    + reflexivity.
    + repeat constructor.
    + reflexivity.
    + repeat constructor.
    + left. discriminate.
    + left. reflexivity.
    + reflexivity.
    + repeat constructor.
  - vm_compute. reflexivity.
Defined.

(** C1, as the claim words it, fails.  An input of 14 bytes or more
    is accepted whatever its digits: ["2025-01-01 12:00"] has a digit
    prefix of 4 bytes and is accepted.  And six fraction digits that
    begin with a zero are not taken at microsecond precision:
    [.012345] comes out as 123450 microseconds. *)
Lemma parseCIMDateTime_accepts_short_digit_prefix :
  (len (Spec.digitPrefix "2025-01-01 12:00") = 4
   /\ snd (Windows.parseCIMDateTime "2025-01-01 12:00") = true)
  /\ (Windows.parseCIMDateTime "20250101120000.012345+000"
      = (Time.mkTime 1735732800 123450000, true)
      /\ Spec.cimInstant "20250101120000" "012345" "+" "000"
         = Time.mkTime 1735732800 12345000).
Proof. repeat split; vm_compute; reflexivity. Qed.

(** ** Further properties of the Windows collector *)

(** The parser looks at its input only through the trimmed input with
    every [T] removed: white space around the value and a [T]
    anywhere in it make no difference. *)
Theorem parseCIMDateTime_ignores_space_and_T (s s' : gostring) :
  Strings.RemoveByte (Strings.TrimSpace s) "T"
  = Strings.RemoveByte (Strings.TrimSpace s') "T" ->
  Windows.parseCIMDateTime s = Windows.parseCIMDateTime s'.
Proof.
  unfold Windows.parseCIMDateTime.
  destruct (Strings.TrimSpace s) as [|a u], (Strings.TrimSpace s') as [|a' u'];
    intros H.
  - reflexivity.
  - rewrite <- H. reflexivity.
  - rewrite H. reflexivity.
  - rewrite H. reflexivity.
Qed.

(** The form with a [T] between date and time, as in the comment of
    the source, parses as the form without. *)
Lemma parseCIMDateTime_ignores_space_and_T_witness :
  Windows.parseCIMDateTime "  20250101T120000.123456+060 "
  = Windows.parseCIMDateTime "20250101120000.123456+060".
Proof.
  apply parseCIMDateTime_ignores_space_and_T. vm_compute. reflexivity.
Defined.


(** The I/O block of a record is there exactly when one of the two
    transfer counts of the row is positive; a count that is missing,
    not a number or not positive stands as zero in it. *)
Theorem rowProcess_io_block (tl : Time.Lib) (now : Time.Time)
  (m : Windows.row) (p : Process) :
  Windows.rowProcess tl now m = Some p ->
  (IO p = None
   <-> Windows.getInt64 m "ReadTransferCount" <= 0
       /\ Windows.getInt64 m "WriteTransferCount" <= 0)
  /\ (forall io, IO p = Some io ->
        ReadBytes io = Z.max 0 (Windows.getInt64 m "ReadTransferCount")
        /\ WriteBytes io = Z.max 0 (Windows.getInt64 m "WriteTransferCount")
        /\ (0 < ReadBytes io \/ 0 < WriteBytes io)).
Proof.
  intros H.
  assert (Hio :
    IO p = if negb (Windows.getUint64 m "ReadTransferCount" =? 0)
              || negb (Windows.getUint64 m "WriteTransferCount" =? 0)
           then Some (mkProcIO (Windows.getUint64 m "ReadTransferCount")
                               (Windows.getUint64 m "WriteTransferCount"))
           else None).
  { unfold Windows.rowProcess in H.
    destruct (Windows.getInt64 m "ProcessId" <=? 0); [discriminate|].
    injection H as <-. reflexivity. }
  rewrite Hio. unfold Windows.getUint64.
  set (r := Windows.getInt64 m "ReadTransferCount").
  set (w := Windows.getInt64 m "WriteTransferCount").
  destruct (Z.ltb_spec 0 r), (Z.ltb_spec 0 w);
    repeat match goal with
           | |- context [ ?a =? 0 ] => destruct (Z.eqb_spec a 0); try lia
           end;
    cbn [negb orb]; (split; [split; [try discriminate; lia | try lia; reflexivity] |]);
    try discriminate; intros io [= <-]; cbn [ReadBytes WriteBytes]; lia.
Qed.

(** The reference row without transfer counts has no I/O block. *)
Lemma rowProcess_io_block_witness :
  exists p, Windows.rowProcess Ref.timeLib Ref.now Ref.rowNoDate = Some p
    /\ IO p = None.
Proof.
  destruct (Windows.rowProcess Ref.timeLib Ref.now Ref.rowNoDate) as [p|] eqn:Hp.
  - exists p. split; [reflexivity|].
    apply (rowProcess_io_block Ref.timeLib Ref.now Ref.rowNoDate p Hp).
    split; vm_compute; discriminate.
  - vm_compute in Hp. discriminate.
Defined.

Lemma toSliceOfMaps_length raw :
  length (Windows.toSliceOfMaps raw) = Spec.rowCount raw.
Proof.
  destruct raw as [| | | |l|m]; try reflexivity. cbn.
  induction l as [|e l IH]; [reflexivity|].
  cbn [omap list_omap List.filter].
  destruct e; cbn [Windows.asRow Spec.isObject length]; congruence.
Qed.

(** A decoded object gives one row, a decoded array one row for each
    of its elements that is an object, anything else none.  The
    collector returns at most one record per row, in the order of the
    rows, and exactly one per row where every row has a positive
    [ProcessId]; an empty array gives the empty snapshot, not an
    error. *)
Theorem windows_records_per_row (decode : gostring -> result Windows.any)
  (tl : Time.Lib) (now : Time.Time) (out : gostring) (raw : Windows.any) :
  fst (Windows.decodeOutput decode out) = Ok raw ->
  length (Windows.toSliceOfMaps raw) = Spec.rowCount raw
  /\ exists procs,
       Windows.collectProcesses decode tl now (Ok out) = Ok procs
       /\ (length procs <= Spec.rowCount raw)%nat
       /\ (Forall (fun m => 0 < Windows.getInt64 m "ProcessId")
                  (Windows.toSliceOfMaps raw) ->
           length procs = Spec.rowCount raw)
       /\ (Spec.rowCount raw = 0%nat -> procs = []).
Proof.
  intros Hd. pose proof (toSliceOfMaps_length raw) as Hlen.
  split; [exact Hlen|].
  unfold Windows.collectProcesses. rewrite Hd. eexists. split; [reflexivity|].
  rewrite <- Hlen. generalize (Windows.toSliceOfMaps raw) as rows.
  intros rows. split; [|split].
  - induction rows as [|m rows IH]; cbn [omap list_omap length]; [lia|].
    destruct (Windows.rowProcess tl now m); cbn [length]; lia.
  - induction 1 as [|m rows Hm Hrows IH]; cbn [omap list_omap length];
      [reflexivity|].
    pose proof (rowProcess_pid tl now m) as Hp. unfold Spec.rowPid in Hp.
    destruct (Windows.rowProcess tl now m) as [p|].
    + cbn [length]. now rewrite IH.
    + destruct (Z.ltb_spec 0 (Windows.getInt64 m "ProcessId"));
        [discriminate | lia].
  - intros H0. now destruct rows.
Qed.

(** The reference output of a warning and two rows gives two
    records. *)
Lemma windows_records_per_row_witness :
  exists procs,
    Windows.collectProcesses Json.decode Ref.timeLib Ref.now (Ok Ref.warnedOutput)
    = Ok procs
    /\ length procs = 2%nat.
Proof.
  destruct (fst (Windows.decodeOutput Json.decode Ref.warnedOutput))
    as [raw|e] eqn:Hd; [|vm_compute in Hd; discriminate].
  destruct (windows_records_per_row Json.decode Ref.timeLib Ref.now
              Ref.warnedOutput raw Hd) as (_ & procs & Hc & _ & Hall & _).
  exists procs. split; [exact Hc|].
  vm_compute in Hd. injection Hd as <-.
  rewrite Hall; [vm_compute; reflexivity|].
  apply (bool_decide_unpack _). vm_compute. exact I.
Defined.

(** ** Further properties of the Darwin collector *)

Lemma splitGo_no_sep sep a : forall cur,
  sep ∉ a -> Strings.splitGo sep cur a = [rev cur ++ a].
Proof.
  induction a as [|c a IH]; intros cur Hn; cbn.
  - now rewrite app_nil_r.
  - apply not_elem_of_cons in Hn as [Hc Ha].
    destruct (Ascii.eqb c sep) eqn:He; [apply Ascii.eqb_eq in He; congruence|].
    rewrite IH by assumption. cbn. now rewrite <- app_assoc.
Qed.

Lemma splitGo_sep sep a rest : forall cur,
  sep ∉ a ->
  Strings.splitGo sep cur (a ++ sep :: rest)
  = (rev cur ++ a) :: Strings.splitGo sep [] rest.
Proof.
  induction a as [|c a IH]; intros cur Hn; cbn.
  - now rewrite Ascii.eqb_refl, app_nil_r.
  - apply not_elem_of_cons in Hn as [Hc Ha].
    destruct (Ascii.eqb c sep) eqn:He; [apply Ascii.eqb_eq in He; congruence|].
    rewrite IH by assumption. cbn. now rewrite <- app_assoc.
Qed.

(** White space is trimmed from the two ends only: what is left is a
    part of the input. *)
Lemma trimHead_suffix bwd s : forall skip,
  exists pre, s = pre ++ Strings.trimHead bwd skip s.
Proof.
  induction s as [|a t IH]; intros skip; [exists []; reflexivity|].
  cbn [Strings.trimHead].
  destruct skip as [|k].
  - destruct (Strings.spaceRuneLen bwd (a :: t)) as [|k].
    + exists []. reflexivity.
    + destruct (IH k) as [pre Hp]. exists (a :: pre). cbn. now f_equal.
  - destruct (IH k) as [pre Hp]. exists (a :: pre). cbn. now f_equal.
Qed.

Lemma TrimSpace_part s :
  exists pre post, s = pre ++ Strings.TrimSpace s ++ post.
Proof.
  unfold Strings.TrimSpace.
  destruct (trimHead_suffix false s 0%nat) as [pre Hpre].
  destruct (trimHead_suffix true (rev (Strings.trimHead false 0 s)) 0%nat)
    as [post Hpost].
  exists pre, (rev post).
  rewrite <- rev_app_distr, <- Hpost, rev_involutive. exact Hpre.
Qed.

Lemma TrimSpace_elem c s : c ∈ Strings.TrimSpace s -> c ∈ s.
Proof.
  destruct (TrimSpace_part s) as (pre & post & Hs). intros Hc.
  rewrite Hs. rewrite !elem_of_app. auto.
Qed.

(** An input without a colon is no duration: the parser returns 0. *)
Theorem parseElapsedToSeconds_no_colon (s : gostring) :
  ":"%char ∉ s -> Darwin.parseElapsedToSeconds s = 0.
Proof.
  intros Hn. unfold Darwin.parseElapsedToSeconds.
  destruct (Strings.TrimSpace s) as [|c t] eqn:Ht; [reflexivity|].
  assert (Hu : ":"%char ∉ c :: t).
  { rewrite <- Ht. intros H. apply Hn. now apply TrimSpace_elem. }
  set (u := c :: t) in *.
  assert (Hparts : forall d r,
    (if 0 <=? Strings.IndexByte u "-"
     then (let '(d0, err) := Strconv.ParseInt (sliceTo u (Strings.IndexByte u "-")) in
           (if isNil err then d0 else 0,
            sliceFrom u (Strings.IndexByte u "-" + 1)))
     else (0, u)) = (d, r) ->
    ":"%char ∉ r).
  { intros d r. destruct (0 <=? Strings.IndexByte u "-").
    - destruct (Strconv.ParseInt _) as [d0 err]. intros [= _ <-].
      unfold sliceFrom. intros H. apply Hu.
      rewrite <- (take_drop (Z.to_nat (Strings.IndexByte u "-" + 1)) u).
      apply elem_of_app. now right.
    - now intros [= _ <-]. }
  destruct (if 0 <=? Strings.IndexByte u "-" then _ else _) as [d r] eqn:He.
  specialize (Hparts d r eq_refl).
  unfold Strings.Split. rewrite (splitGo_no_sep ":" r [] Hparts).
  reflexivity.
Qed.

(** The malformed input of the specification, and the empty one. *)
Lemma parseElapsedToSeconds_no_colon_witness :
  Darwin.parseElapsedToSeconds "abc" = 0 /\ Darwin.parseElapsedToSeconds "" = 0.
Proof.
  split; apply parseElapsedToSeconds_no_colon.
  - apply (bool_decide_unpack _). vm_compute. exact I.
  - apply not_elem_of_nil.
Defined.

Lemma digits_without c s : Spec.allDigits s -> isDigit c = false -> c ∉ s.
Proof.
  intros Hd Hc Hin. unfold Spec.allDigits in Hd. rewrite Forall_forall in Hd.
  specialize (Hd c Hin). congruence.
Qed.

(** A text that begins and ends with a digit has no white space to
    trim. *)
Lemma TrimSpace_digit_ends first mid last :
  Spec.allDigits first -> first <> [] -> Spec.allDigits last -> last <> [] ->
  Strings.TrimSpace (first ++ mid ++ last) = first ++ mid ++ last.
Proof.
  intros Hf Hfn Hl Hln.
  destruct first as [|a f']; [congruence|].
  destruct (exists_last Hln) as (l' & z & ->).
  inversion Hf as [|? ? Ha _]; subst.
  assert (Hz : isDigit z = true).
  { unfold Spec.allDigits in Hl. rewrite Forall_app in Hl.
    destruct Hl as [_ Hl]. now inversion Hl. }
  destruct (isDigit_plain a Ha) as [Ha1 Ha2].
  destruct (isDigit_plain z Hz) as [Hz1 Hz2].
  cbn [app].
  apply (TrimSpace_plain a _ (a :: f' ++ mid ++ l') z); try assumption.
  cbn [app]. f_equal. now rewrite !app_assoc.
Qed.

Lemma numberOrZero_digits s :
  Spec.digitField s ->
  Strconv.ParseInt s = (Spec.decimal s, None)
  /\ Spec.numberOrZero s = Spec.decimal s
  /\ 0 <= Spec.decimal s < 10 ^ 12.
Proof.
  intros (Hd & Hne & Hlen).
  pose proof (Atoi_digits s Hd Hne ltac:(lia)) as Ha. unfold Strconv.Atoi in Ha.
  split; [exact Ha|]. split; [unfold Spec.numberOrZero; now rewrite Ha|].
  destruct (parseUintLoop_digits (10 ^ 18) s 0 0 Hd) as [_ Hb];
    [cbn; lia | lia | lia |].
  fold (Spec.decimal s) in Hb.
  assert (10 ^ Z.of_nat (0 + length s) <= 10 ^ 12) by (apply Z.pow_le_mono_r; lia).
  lia.
Qed.

Lemma dayPrefix_none u : "-"%char ∉ u -> Spec.dayPrefix u = ([], u).
Proof.
  intros Hn. unfold Spec.dayPrefix. apply IndexByte_absent in Hn.
  destruct (Z.leb_spec 0 (Strings.IndexByte u "-")); [lia | reflexivity].
Qed.

Lemma dayPrefix_some dd rest :
  "-"%char ∉ dd -> Spec.dayPrefix (dd ++ "-"%char :: rest) = (dd, rest).
Proof.
  intros Hn. unfold Spec.dayPrefix, sliceTo, sliceFrom.
  rewrite (IndexByte_app dd "-" rest Hn).
  destruct (Z.leb_spec 0 (Z.of_nat (length dd))); [|lia].
  rewrite Nat2Z.id.
  replace (Z.to_nat (Z.of_nat (length dd) + 1)) with (S (length dd)) by lia.
  now rewrite take_app_length, drop_app_cons.
Qed.

(** The duration grammar on well-formed input: minutes and seconds,
    hours before them, days before those, each field of one to twelve
    digits, give the seconds they add up to.  No field is checked
    against a range. *)
Theorem parseElapsedToSeconds_grammar (dd hh mm ss : gostring) :
  Spec.digitField dd -> Spec.digitField hh ->
  Spec.digitField mm -> Spec.digitField ss ->
  Darwin.parseElapsedToSeconds (mm ++ ":" ++ ss)
  = Spec.decimal mm * 60 + Spec.decimal ss
  /\ Darwin.parseElapsedToSeconds (hh ++ ":" ++ mm ++ ":" ++ ss)
     = Spec.decimal hh * 3600 + Spec.decimal mm * 60 + Spec.decimal ss
  /\ Darwin.parseElapsedToSeconds (dd ++ "-" ++ hh ++ ":" ++ mm ++ ":" ++ ss)
     = Spec.decimal dd * 86400 + Spec.decimal hh * 3600
       + Spec.decimal mm * 60 + Spec.decimal ss.
Proof.
  intros Hdd Hhh Hmm Hss.
  destruct (numberOrZero_digits dd Hdd) as (Pd & Nd & Bd).
  destruct (numberOrZero_digits hh Hhh) as (Ph & Nh & Bh).
  destruct (numberOrZero_digits mm Hmm) as (Pm & Nm & Bm).
  destruct (numberOrZero_digits ss Hss) as (Ps & Ns & Bs).
  destruct Hdd as (Dd & Ed & _), Hhh as (Dh & Eh & _),
           Hmm as (Dm & Em & _), Hss as (Ds & Es & _).
  assert (Hcol : forall s, Spec.allDigits s -> ":"%char ∉ s)
    by (intros s Hs; now apply digits_without).
  assert (Hdash : forall s, Spec.allDigits s -> "-"%char ∉ s)
    by (intros s Hs; now apply digits_without).
  assert (Hrange : Forall (fun p => snd (Strconv.ParseInt p) <> Some Strconv.ErrRange)
                          [mm; ss]).
  { repeat constructor; [rewrite Pm | rewrite Ps]; discriminate. }
  change (10 ^ 12) with 1000000000000 in *.
  assert (Hsplit2 : Strings.Split (mm ++ ":" ++ ss) ":" = [mm; ss]).
  { unfold Strings.Split. cbn [app].
    change (list_ascii_of_string ":") with [":"%char]. cbn [app].
    rewrite splitGo_sep, splitGo_no_sep by auto. reflexivity. }
  assert (Hsplit3 : Strings.Split (hh ++ ":" ++ mm ++ ":" ++ ss) ":" = [hh; mm; ss]).
  { unfold Strings.Split.
    change (list_ascii_of_string ":") with [":"%char]. cbn [app].
    rewrite splitGo_sep, splitGo_sep, splitGo_no_sep by auto. reflexivity. }
  assert (Hnd2 : "-"%char ∉ mm ++ ":" ++ ss).
  { rewrite !elem_of_app. intros [H|[H|H]]; [now apply (Hdash mm)| |now apply (Hdash ss)].
    apply list_elem_of_singleton in H. discriminate. }
  assert (Hnd3 : "-"%char ∉ hh ++ ":" ++ mm ++ ":" ++ ss).
  { rewrite !elem_of_app.
    intros [H|[H|[H|[H|H]]]];
      try (apply list_elem_of_singleton in H; discriminate);
      [now apply (Hdash hh) | now apply (Hdash mm) | now apply (Hdash ss)]. }
  assert (T2 : Strings.TrimSpace (mm ++ ":" ++ ss) = mm ++ ":" ++ ss)
    by (apply TrimSpace_digit_ends; assumption).
  assert (T3 : Strings.TrimSpace (hh ++ ":" ++ mm ++ ":" ++ ss)
               = hh ++ ":" ++ mm ++ ":" ++ ss).
  { replace (hh ++ ":" ++ mm ++ ":" ++ ss) with (hh ++ (":" ++ mm ++ ":") ++ ss)
      by now rewrite <- !app_assoc.
    apply TrimSpace_digit_ends; assumption. }
  assert (T4 : Strings.TrimSpace (dd ++ "-" ++ hh ++ ":" ++ mm ++ ":" ++ ss)
               = dd ++ "-" ++ hh ++ ":" ++ mm ++ ":" ++ ss).
  { replace (dd ++ "-" ++ hh ++ ":" ++ mm ++ ":" ++ ss)
      with (dd ++ ("-" ++ hh ++ ":" ++ mm ++ ":") ++ ss)
      by now rewrite <- !app_assoc.
    apply TrimSpace_digit_ends; assumption. }
  assert (P4 : Spec.dayPrefix (dd ++ "-" ++ hh ++ ":" ++ mm ++ ":" ++ ss)
               = (dd, hh ++ ":" ++ mm ++ ":" ++ ss)).
  { apply (dayPrefix_some dd (hh ++ ":" ++ mm ++ ":" ++ ss) (Hdash dd Dd)). }
  split; [|split].
  - rewrite parseElapsedToSeconds_spec.
    + unfold Spec.elapsedSpec.
      rewrite T2, (dayPrefix_none _ Hnd2), Hsplit2, Nm, Ns.
      unfold Spec.total. cbn. rewrite wrap64_small; lia.
    + unfold Spec.minSecParts.
      now rewrite T2, (dayPrefix_none _ Hnd2), Hsplit2.
  - rewrite parseElapsedToSeconds_spec.
    + unfold Spec.elapsedSpec.
      rewrite T3, (dayPrefix_none _ Hnd3), Hsplit3, Nh, Nm, Ns.
      unfold Spec.total. cbn. rewrite wrap64_small; lia.
    + unfold Spec.minSecParts.
      now rewrite T3, (dayPrefix_none _ Hnd3), Hsplit3.
  - rewrite parseElapsedToSeconds_spec.
    + unfold Spec.elapsedSpec.
      rewrite T4, P4, Hsplit3, Nd, Nh, Nm, Ns.
      unfold Spec.total. rewrite wrap64_small; lia.
    + unfold Spec.minSecParts.
      now rewrite T4, P4, Hsplit3.
Qed.

(** The elapsed time of two days, one hour, two minutes and three
    seconds. *)
Lemma parseElapsedToSeconds_grammar_witness :
  Darwin.parseElapsedToSeconds "2-01:02:03" = 176523.
Proof.
  assert (F : forall s : gostring,
             bool_decide (Forall (fun c => isDigit c = true) s
                          /\ s <> [] /\ (length s <= 12)%nat) = true ->
             Spec.digitField s).
  { intros s H. apply bool_decide_eq_true in H. exact H. }
  destruct (parseElapsedToSeconds_grammar "2" "01" "02" "03") as (_ & _ & H);
    try (apply F; vm_compute; reflexivity).
  exact H.
Defined.

Lemma parseUintLoop_app maxVal s1 : forall n (m : nat) t,
  Spec.allDigits s1 ->
  0 <= n < 10 ^ Z.of_nat m ->
  (m + length s1 <= 18)%nat ->
  10 ^ 18 <= maxVal ->
  Strconv.parseUintLoop maxVal n (s1 ++ t)
  = Strconv.parseUintLoop maxVal (Spec.decimalFrom n s1) t.
Proof.
  induction s1 as [|c s1 IH]; intros n m t Hd Hn Hm Hmax; [reflexivity|].
  inversion Hd as [|? ? Hc Ht]; subst.
  pose proof (isDigit_val c Hc) as Hv.
  cbn [length] in Hm.
  assert (Hp : 10 ^ Z.of_nat m <= 10 ^ 17) by (apply Z.pow_le_mono_r; lia).
  assert (Hs : 10 ^ Z.of_nat (S m) = 10 * 10 ^ Z.of_nat m)
    by (rewrite Nat2Z.inj_succ, Z.pow_succ_r; lia).
  cbn [app Strconv.parseUintLoop]. rewrite Hc.
  change ((2 ^ 64 - 1) / 10 + 1) with 1844674407370955162.
  change (10 ^ 17) with 100000000000000000 in Hp.
  change (10 ^ 18) with 1000000000000000000 in Hmax.
  destruct (Z.leb_spec 1844674407370955162 n); [lia|].
  destruct (Z.ltb_spec maxVal (n * 10 + digitVal c)); [lia|].
  apply (IH (n * 10 + digitVal c) (S m)); try assumption; lia.
Qed.

(** Digits followed by a byte that is no digit are no number. *)
Lemma ParseInt_not_a_number s1 c rest :
  Spec.allDigits s1 -> (length s1 <= 18)%nat ->
  isDigit c = false -> c <> "+"%char -> c <> "-"%char ->
  Strconv.ParseInt (s1 ++ c :: rest) = (0, Some Strconv.ErrSyntax).
Proof.
  intros Hd Hlen Hc Hp Hm.
  assert (Hu : Strconv.ParseUint (s1 ++ c :: rest) 64 = (0, Some Strconv.ErrSyntax)).
  { unfold Strconv.ParseUint.
    destruct (s1 ++ c :: rest) eqn:E; [destruct s1; discriminate|]. rewrite <- E.
    rewrite (parseUintLoop_app _ s1 0 0); [|assumption|cbn; lia|lia|cbn; lia].
    cbn. now rewrite Hc. }
  unfold Strconv.ParseInt.
  destruct s1 as [|d s1']; cbn [app] in *.
  - assert (Ascii.eqb c "-" = false) by now apply Ascii.eqb_neq.
    assert (Ascii.eqb c "+" = false) by now apply Ascii.eqb_neq.
    rewrite H, H0. cbn [orb]. now rewrite Hu.
  - inversion Hd as [|? ? Hdd _]; subst.
    rewrite (isDigit_not d "-"), (isDigit_not d "+") by (assumption || reflexivity).
    cbn [orb]. now rewrite Hu.
Qed.

(** A seconds field with a decimal point, as the [time] column of
    [ps] prints it, is no number for the parser and counts as zero:
    only the minutes remain. *)
Theorem parseElapsedToSeconds_fraction_dropped (mm s1 s2 : gostring) :
  Spec.digitField mm ->
  Spec.allDigits s1 -> (length s1 <= 18)%nat ->
  Spec.allDigits s2 -> s2 <> [] ->
  Darwin.parseElapsedToSeconds (mm ++ ":" ++ s1 ++ "." ++ s2)
  = Spec.decimal mm * 60.
Proof.
  intros Hmm Hs1 Hl1 Hs2 Hn2.
  destruct (numberOrZero_digits mm Hmm) as (Pm & Nm & Bm).
  destruct Hmm as (Dm & Em & _).
  change (10 ^ 12) with 1000000000000 in *.
  set (sec := s1 ++ "." ++ s2).
  assert (Psec : Strconv.ParseInt sec = (0, Some Strconv.ErrSyntax)).
  { apply ParseInt_not_a_number; (assumption || reflexivity || discriminate). }
  assert (Hnc : ":"%char ∉ sec).
  { unfold sec. rewrite !elem_of_app. intros [H|[H|H]].
    - revert H. now apply digits_without.
    - apply list_elem_of_singleton in H. discriminate.
    - revert H. now apply digits_without. }
  assert (Hnd : "-"%char ∉ mm ++ ":" ++ sec).
  { unfold sec. rewrite !elem_of_app. intros [H|[H|[H|[H|H]]]];
      try (apply list_elem_of_singleton in H; discriminate);
      revert H; now apply digits_without. }
  assert (T : Strings.TrimSpace (mm ++ ":" ++ sec) = mm ++ ":" ++ sec).
  { unfold sec.
    replace (mm ++ ":" ++ s1 ++ "." ++ s2) with (mm ++ (":" ++ s1 ++ ".") ++ s2)
      by now rewrite <- !app_assoc.
    apply TrimSpace_digit_ends; assumption. }
  assert (Hsplit : Strings.Split (mm ++ ":" ++ sec) ":" = [mm; sec]).
  { unfold Strings.Split.
    change (list_ascii_of_string ":") with [":"%char]. cbn [app].
    rewrite splitGo_sep, splitGo_no_sep; auto. now apply digits_without. }
  rewrite parseElapsedToSeconds_spec.
  - unfold Spec.elapsedSpec.
    rewrite T, (dayPrefix_none _ Hnd), Hsplit, Nm.
    unfold Spec.numberOrZero at 2. rewrite Psec.
    unfold Spec.total. cbn. rewrite wrap64_small; lia.
  - unfold Spec.minSecParts. rewrite T, (dayPrefix_none _ Hnd), Hsplit.
    repeat constructor; [rewrite Pm | rewrite Psec]; discriminate.
Qed.

(** One minute, 23.45 seconds of CPU time count as 60 seconds. *)
Lemma parseElapsedToSeconds_fraction_dropped_witness :
  Darwin.parseElapsedToSeconds "1:23.45" = 60.
Proof.
  assert (D : forall s : gostring,
             bool_decide (Forall (fun c => isDigit c = true) s) = true ->
             Spec.allDigits s).
  { intros s H. apply bool_decide_eq_true in H. exact H. }
  apply (parseElapsedToSeconds_fraction_dropped "1" "23" "45").
  - split; [apply D; vm_compute; reflexivity|]. split; [discriminate | cbn; lia].
  - apply D. vm_compute. reflexivity.
  - cbn. lia.
  - apply D. vm_compute. reflexivity.
  - discriminate.
Defined.

(** The start time of a Darwin record is the collection time moved
    back by the elapsed seconds, to the nanosecond, for every elapsed
    time that fits a [time.Duration]. *)
Theorem startOf_subtracts_elapsed (now : Time.Time) (elapsed : Z) :
  0 <= Time.nsec now < 1000000000 ->
  - 9223372036 <= elapsed <= 9223372036 ->
  Darwin.startOf now elapsed
  = Time.mkTime (Time.unixSec now - elapsed) (Time.nsec now).
Proof.
  intros Hn He. unfold Darwin.startOf, neg64, mul64.
  rewrite (wrap64_small (- elapsed)) by lia.
  rewrite wrap64_small by lia.
  f_equal; Z.div_mod_to_equations; lia.
Qed.

Lemma startOf_subtracts_elapsed_witness :
  Darwin.startOf Ref.now 62 = Time.mkTime 1748735938 0.
Proof.
  rewrite startOf_subtracts_elapsed; [reflexivity | cbn; lia | lia].
Defined.

Lemma decimalFrom_cons n c t :
  Spec.decimalFrom n (c :: t) = Spec.decimalFrom (n * 10 + digitVal c) t.
Proof. reflexivity. Qed.

Lemma decimalFrom_ge s : forall n,
  Spec.allDigits s -> 0 <= n -> n <= Spec.decimalFrom n s.
Proof.
  induction s as [|c t IH]; intros n Hd Hn; [cbn; lia|].
  inversion Hd as [|? ? Hc Ht]; subst.
  pose proof (isDigit_val c Hc).
  rewrite decimalFrom_cons.
  specialize (IH (n * 10 + digitVal c) Ht ltac:(lia)). lia.
Qed.

(** The digit loop on digits only: the number they denote, or the
    largest value of the size once that is exceeded. *)
Lemma parseUintLoop_sat maxVal s : forall n,
  Spec.allDigits s -> 0 <= n <= maxVal -> maxVal <= 2 ^ 64 - 1 ->
  Strconv.parseUintLoop maxVal n s
  = if Spec.decimalFrom n s <=? maxVal then (Spec.decimalFrom n s, None)
    else (maxVal, Some Strconv.ErrRange).
Proof.
  induction s as [|c t IH]; intros n Hd Hn Hmax.
  - cbn. destruct (Z.leb_spec n maxVal); [reflexivity | lia].
  - inversion Hd as [|? ? Hc Ht]; subst.
    pose proof (isDigit_val c Hc) as Hv.
    rewrite decimalFrom_cons. cbn [Strconv.parseUintLoop]. rewrite Hc.
    change ((2 ^ 64 - 1) / 10 + 1) with 1844674407370955162.
    change (2 ^ 64 - 1) with 18446744073709551615 in Hmax.
    pose proof (decimalFrom_ge t (n * 10 + digitVal c) Ht ltac:(lia)) as Hge.
    destruct (Z.leb_spec 1844674407370955162 n).
    + destruct (Z.leb_spec (Spec.decimalFrom (n * 10 + digitVal c) t) maxVal);
        [lia | reflexivity].
    + destruct (Z.ltb_spec maxVal (n * 10 + digitVal c)).
      * destruct (Z.leb_spec (Spec.decimalFrom (n * 10 + digitVal c) t) maxVal);
          [lia | reflexivity].
      * apply IH; [assumption | lia | assumption].
Qed.

Lemma ParseUint32_digits s :
  Spec.allDigits s -> s <> [] ->
  fst (Strconv.ParseUint s 32) = Z.min (Spec.decimal s) 4294967295.
Proof.
  intros Hd Hne. unfold Strconv.ParseUint.
  destruct s as [|c t]; [congruence|].
  rewrite parseUintLoop_sat; [|assumption|cbn; lia|cbn; lia].
  fold (Spec.decimal (c :: t)). change (2 ^ 32 - 1) with 4294967295.
  destruct (Z.leb_spec (Spec.decimal (c :: t)) 4294967295); cbn [fst]; lia.
Qed.

Lemma ParseInt_digits_sat s :
  Spec.allDigits s -> s <> [] ->
  fst (Strconv.ParseInt s) = Z.min (Spec.decimal s) (2 ^ 63 - 1).
Proof.
  intros Hd Hne. unfold Strconv.ParseInt.
  destruct s as [|c t]; [congruence|].
  inversion Hd as [|? ? Hc Ht]; subst.
  rewrite (isDigit_not c "-"), (isDigit_not c "+") by (assumption || reflexivity).
  cbn [orb negb andb]. unfold Strconv.ParseUint.
  rewrite parseUintLoop_sat; [|assumption|cbn; lia|cbn; lia].
  fold (Spec.decimal (c :: t)).
  change (2 ^ 64 - 1) with 18446744073709551615.
  change (2 ^ 63 - 1) with 9223372036854775807.
  change (2 ^ 63) with 9223372036854775808.
  destruct (Z.leb_spec (Spec.decimal (c :: t)) 18446744073709551615);
    cbv beta iota.
  - destruct (Z.leb_spec 9223372036854775808 (Spec.decimal (c :: t)));
      cbn [fst]; lia.
  - change (9223372036854775808 <=? 18446744073709551615) with true.
    cbn [fst]. lia.
Qed.

Lemma TrimSpace_digits d : Spec.allDigits d -> Strings.TrimSpace d = d.
Proof.
  intros Hd. destruct d as [|a t]; [reflexivity|].
  assert (Hne : a :: t <> []) by discriminate.
  destruct (exists_last Hne) as (i & z & Heq).
  assert (Hz : isDigit z = true).
  { unfold Spec.allDigits in Hd. rewrite Heq, Forall_app in Hd.
    destruct Hd as [_ Hd]. now inversion Hd. }
  inversion Hd as [|? ? Ha _]; subst.
  destruct (isDigit_plain a Ha), (isDigit_plain z Hz).
  now apply (TrimSpace_plain a t i z).
Qed.

Lemma IndexAny_digits d sep rest :
  Spec.allDigits d -> sep = "009"%char \/ sep = " "%char ->
  Strings.IndexAny (d ++ sep :: rest) ["009"; " "]%char = Z.of_nat (length d).
Proof.
  intros Hd Hsep. induction Hd as [|c t Hc Ht IH].
  - destruct Hsep as [-> | ->]; reflexivity.
  - cbn [app Strings.IndexAny existsb length].
    rewrite (isDigit_not c "009"), (isDigit_not c " ") by (assumption || reflexivity).
    cbn [orb]. rewrite IH.
    destruct (Z.ltb_spec (Z.of_nat (length t)) 0); lia.
Qed.

Lemma IndexAny_digits_none d :
  Spec.allDigits d -> Strings.IndexAny d ["009"; " "]%char = -1.
Proof.
  induction 1 as [|c t Hc Ht IH]; [reflexivity|].
  cbn [Strings.IndexAny existsb].
  rewrite (isDigit_not c "009"), (isDigit_not c " ") by (assumption || reflexivity).
  cbn [orb]. now rewrite IH.
Qed.

(** The identity read from a status value is its first number: the
    digits up to the first tab or space of the trimmed value, whatever
    follows them, and the largest 32-bit value when the number is
    larger than that. *)
Theorem parseFirstUint_first_number (v d rest : gostring) (sep : ascii) :
  Spec.allDigits d -> d <> [] ->
  sep = "009"%char \/ sep = " "%char ->
  Strings.TrimSpace v = d \/ Strings.TrimSpace v = d ++ sep :: rest ->
  Linux.parseFirstUint v = Z.min (Spec.decimal d) 4294967295.
Proof.
  intros Hd Hne Hsep Hv. unfold Linux.parseFirstUint.
  destruct Hv as [-> | ->].
  - destruct d as [|a t] eqn:E; [congruence|]. rewrite <- E in *.
    rewrite IndexAny_digits_none by assumption. cbn [Z.leb Z.compare].
    now apply ParseUint32_digits.
  - destruct (d ++ sep :: rest) eqn:E; [destruct d; discriminate|]. rewrite <- E.
    rewrite IndexAny_digits by assumption.
    destruct (Z.leb_spec 0 (Z.of_nat (length d))); [|lia].
    unfold sliceTo. rewrite Nat2Z.id, take_app_length.
    now apply ParseUint32_digits.
Qed.

(** The real uid of a status line, and a number beyond 32 bits. *)
Lemma parseFirstUint_first_number_witness :
  Linux.parseFirstUint ("1000" ++ "009"%char :: "1001 1002") = 1000
  /\ Linux.parseFirstUint " 4294967296 " = 4294967295.
Proof.
  assert (D : forall s : gostring,
             bool_decide (Forall (fun c => isDigit c = true) s) = true ->
             Spec.allDigits s).
  { intros s H. apply bool_decide_eq_true in H. exact H. }
  split.
  - apply (parseFirstUint_first_number _ "1000" "1001 1002" "009"%char).
    + apply D. vm_compute. reflexivity.
    + discriminate.
    + now left.
    + right. vm_compute. reflexivity.
  - apply (parseFirstUint_first_number _ "4294967296" [] " "%char).
    + apply D. vm_compute. reflexivity.
    + discriminate.
    + now right.
    + left. vm_compute. reflexivity.
Defined.

(** A memory value is the number before the first space of the
    trimmed text; what follows is not read, so the unit makes no
    difference.  A number beyond 63 bits gives the largest one. *)
Theorem parseKB_number_before_space (v d rest : gostring) :
  Spec.allDigits d -> d <> [] ->
  Strings.TrimSpace v = d \/ Strings.TrimSpace v = d ++ " " ++ rest ->
  Linux.parseKB v = Z.min (Spec.decimal d) (2 ^ 63 - 1).
Proof.
  intros Hd Hne Hv. unfold Linux.parseKB.
  destruct Hv as [-> | ->].
  - destruct d as [|a t] eqn:E; [congruence|]. rewrite <- E in *.
    assert (Hi : Strings.IndexByte d " " < 0)
      by (apply IndexByte_absent; now apply digits_without).
    destruct (Z.leb_spec 0 (Strings.IndexByte d " ")); [lia|].
    now apply ParseInt_digits_sat.
  - change (list_ascii_of_string " ") with [" "%char]. cbn [app].
    destruct (d ++ " "%char :: rest) eqn:E; [destruct d; discriminate|]. rewrite <- E.
    rewrite IndexByte_app by now apply digits_without.
    destruct (Z.leb_spec 0 (Z.of_nat (length d))); [|lia].
    unfold sliceTo. rewrite Nat2Z.id, take_app_length, TrimSpace_digits by assumption.
    now apply ParseInt_digits_sat.
Qed.

(** A resident set size in the form of the status file, and the same
    number with another unit. *)
Lemma parseKB_number_before_space_witness :
  Linux.parseKB "    2048 kB" = 2048 /\ Linux.parseKB "2048 MB" = 2048.
Proof.
  assert (D : forall s : gostring,
             bool_decide (Forall (fun c => isDigit c = true) s) = true ->
             Spec.allDigits s).
  { intros s H. apply bool_decide_eq_true in H. exact H. }
  split.
  - apply (parseKB_number_before_space _ "2048" "kB").
    + apply D. vm_compute. reflexivity.
    + discriminate.
    + right. vm_compute. reflexivity.
  - apply (parseKB_number_before_space _ "2048" "MB").
    + apply D. vm_compute. reflexivity.
    + discriminate.
    + right. vm_compute. reflexivity.
Defined.

Lemma plainByte_plain c :
  Spec.plainByte c = true -> code c < 128 /\ Strings.isSpace1 c = false.
Proof.
  unfold Spec.plainByte. intros H. apply andb_true_iff in H as [H1 H2].
  apply Z.ltb_lt in H1. apply negb_true_iff in H2. auto.
Qed.

Lemma spaceRuneLen_blank bwd c t :
  Strings.isSpace1 c = true -> Strings.spaceRuneLen bwd (c :: t) = 1%nat.
Proof. intros H. unfold Strings.spaceRuneLen. now rewrite H. Qed.

Lemma trimHead_blanks bwd b s :
  Spec.blanks b -> Strings.trimHead bwd 0 (b ++ s) = Strings.trimHead bwd 0 s.
Proof.
  induction 1 as [|c t Hc Ht IH]; [reflexivity|].
  cbn [app Strings.trimHead]. now rewrite (spaceRuneLen_blank bwd c _ Hc).
Qed.

Lemma trimHead_plain bwd c s :
  Spec.plainByte c = true -> Strings.trimHead bwd 0 (c :: s) = c :: s.
Proof.
  intros H. destruct (plainByte_plain c H) as [H1 H2].
  cbn [Strings.trimHead]. now rewrite (spaceRuneLen_plain bwd c s H1 H2).
Qed.

(** White space around a text that begins and ends with a plain byte
    is what [TrimSpace] removes. *)
Lemma TrimSpace_around lead trail a t i z :
  Spec.blanks lead -> Spec.blanks trail ->
  a :: t = i ++ [z] -> Spec.plainByte a = true -> Spec.plainByte z = true ->
  Strings.TrimSpace (lead ++ (a :: t) ++ trail) = a :: t.
Proof.
  intros Hl Ht Heq Ha Hz. unfold Strings.TrimSpace.
  rewrite (trimHead_blanks false lead _ Hl). cbn [app].
  rewrite (trimHead_plain false a _ Ha).
  change (a :: t ++ trail) with ((a :: t) ++ trail).
  rewrite rev_app_distr.
  assert (Hrt : Spec.blanks (rev trail)).
  { unfold Spec.blanks in *. now apply Forall_rev. }
  rewrite (trimHead_blanks true (rev trail) _ Hrt).
  rewrite Heq, rev_app_distr. cbn [rev app].
  rewrite (trimHead_plain true z _ Hz).
  change (z :: rev i) with ([z] ++ rev i).
  now rewrite rev_app_distr, rev_involutive.
Qed.

Lemma columnBody_ends rest : forall w,
  Spec.word w -> Forall Spec.gap rest ->
  exists a t i z,
    Spec.columnBody w rest = a :: t /\ a :: t = i ++ [z]
    /\ Spec.plainByte a = true /\ Spec.plainByte z = true.
Proof.
  unfold Spec.columnBody.
  induction rest as [|[b w'] rest IH]; intros w [Hne Hw] Hg.
  - cbn [flat_map]. rewrite app_nil_r.
    destruct w as [|a t]; [congruence|].
    destruct (exists_last Hne) as (i & z & Heq).
    exists a, t, i, z. repeat split; auto.
    + now inversion Hw.
    + rewrite Heq, Forall_app in Hw. destruct Hw as [_ Hw]. now inversion Hw.
  - inversion Hg as [|? ? (Hb & Hbn & Hw') Hg']; subst. cbn [fst snd] in *.
    destruct (IH w' Hw' Hg') as (a' & t' & i' & z & E1 & E2 & _ & Hz).
    destruct w as [|a t]; [congruence|].
    cbn [flat_map fst snd]. rewrite <- app_assoc, E1, E2.
    exists a, (t ++ b ++ i' ++ [z]), (a :: t ++ b ++ i'), z.
    repeat split; auto.
    + cbn [app]. f_equal. now rewrite <- !app_assoc.
    + now inversion Hw.
Qed.

Lemma fieldsGo_plain cur w : forall s,
  Forall (fun c => Spec.plainByte c = true) w ->
  Strings.fieldsGo 0 cur (w ++ s) = Strings.fieldsGo 0 (rev w ++ cur) s.
Proof.
  revert cur. induction w as [|c w IH]; intros cur s Hw; [reflexivity|].
  inversion Hw as [|? ? Hc Hw']; subst.
  destruct (plainByte_plain c Hc) as [H1 H2].
  cbn [app Strings.fieldsGo]. rewrite (spaceRuneLen_plain false c _ H1 H2).
  rewrite (IH (c :: cur) s Hw'). cbn [rev]. now rewrite <- app_assoc.
Qed.

Lemma fieldsGo_blanks b : forall s,
  Spec.blanks b -> Strings.fieldsGo 0 [] (b ++ s) = Strings.fieldsGo 0 [] s.
Proof.
  induction b as [|c b IH]; intros s Hb; [reflexivity|].
  inversion Hb as [|? ? Hc Hb']; subst.
  cbn [app Strings.fieldsGo]. rewrite (spaceRuneLen_blank false c _ Hc).
  cbn [Strings.flush app]. now apply IH.
Qed.

Lemma fieldsGo_gap cur b s :
  Spec.blanks b -> b <> [] ->
  Strings.fieldsGo 0 cur (b ++ s) = Strings.flush cur ++ Strings.fieldsGo 0 [] s.
Proof.
  intros Hb Hne. destruct b as [|c b]; [congruence|].
  inversion Hb as [|? ? Hc Hb']; subst.
  cbn [app Strings.fieldsGo]. rewrite (spaceRuneLen_blank false c _ Hc).
  f_equal. now apply fieldsGo_blanks.
Qed.

(** The fields of a line of columns are its words. *)
Lemma Fields_columnBody rest : forall w,
  Spec.word w -> Forall Spec.gap rest ->
  Strings.Fields (Spec.columnBody w rest) = w :: map snd rest.
Proof.
  unfold Strings.Fields, Spec.columnBody.
  induction rest as [|[b w'] rest IH]; intros w [Hne Hw] Hg.
  - cbn [flat_map map]. rewrite fieldsGo_plain by assumption.
    cbn [Strings.fieldsGo]. rewrite app_nil_r.
    unfold Strings.flush. destruct (rev w) eqn:E.
    + apply (f_equal (@rev ascii)) in E. rewrite rev_involutive in E.
      cbn in E. congruence.
    + rewrite <- E. now rewrite rev_involutive.
  - inversion Hg as [|? ? (Hb & Hbn & Hw') Hg']; subst. cbn [fst snd] in *.
    cbn [flat_map map fst snd]. rewrite fieldsGo_plain by assumption.
    rewrite <- app_assoc, fieldsGo_gap by assumption.
    rewrite app_nil_r. rewrite (IH w' Hw' Hg').
    unfold Strings.flush. destruct (rev w) eqn:E.
    + apply (f_equal (@rev ascii)) in E. rewrite rev_involutive in E.
      cbn in E. congruence.
    + rewrite <- E. now rewrite rev_involutive.
Qed.

Lemma TrimSpace_columns lead w rest trail :
  Spec.blanks lead -> Spec.blanks trail ->
  Spec.word w -> Forall Spec.gap rest ->
  Strings.TrimSpace (Spec.columns lead w rest trail) = Spec.columnBody w rest.
Proof.
  intros Hl Ht Hw Hg. unfold Spec.columns.
  destruct (columnBody_ends rest w Hw Hg) as (a & t & i & z & E1 & E2 & Ha & Hz).
  rewrite E1. now apply (TrimSpace_around lead trail a t i z).
Qed.

(** A line of [ps] is cut into its white-space separated words and
    nothing else: with fewer than fifteen words there is no record;
    otherwise the user, group and command name are the fifth, sixth
    and ninth word, the two durations the tenth and fifteenth, and the
    command is the words from the sixteenth on joined by single
    spaces. *)
Theorem parseLine_columns (tl : Time.Lib) (now : Time.Time)
  (lead w trail : gostring) (rest : list (gostring * gostring)) :
  Spec.blanks lead -> Spec.blanks trail ->
  Spec.word w -> Forall Spec.gap rest ->
  let ws := w :: map snd rest in
  let text := Spec.columns lead w rest trail in
  ((length ws < 15)%nat -> Darwin.parseLine tl now text = None)
  /\ ((15 <= length ws)%nat ->
      exists p, Darwin.parseLine tl now text = Some p
        /\ User p = at_ ws 4 /\ Group p = at_ ws 5 /\ Comm p = at_ ws 8
        /\ Command p = Strings.Join (drop 15 ws) " "
        /\ CPUUserSeconds p = F64ofInt (Darwin.parseElapsedToSeconds (at_ ws 9))
        /\ ElapsedSeconds p = Some (Darwin.parseElapsedToSeconds (at_ ws 14))).
Proof.
  intros Hl Ht Hw Hg ws text.
  pose proof (TrimSpace_columns lead w rest trail Hl Ht Hw Hg) as HT.
  pose proof (Fields_columnBody rest w Hw Hg) as HF. fold ws in HF.
  destruct (columnBody_ends rest w Hw Hg) as (a & t & _ & _ & E & _).
  rewrite E in HT, HF. fold text in HT.
  unfold Darwin.parseLine. rewrite HT. cbv beta iota zeta. rewrite HF.
  split; intros Hlen.
  - destruct (Nat.ltb_spec (length ws) 15); [reflexivity | lia].
  - destruct (Nat.ltb_spec (length ws) 15); [lia|].
    eexists. split; [reflexivity|]. cbn [User Group Comm Command CPUUserSeconds ElapsedSeconds].
    repeat split; reflexivity.
Qed.

Lemma LastIndexByte_absent s c : c ∉ s -> Strings.LastIndexByte s c = -1.
Proof.
  induction s as [|a t IH]; intros Hn; [reflexivity|].
  apply not_elem_of_cons in Hn as [Hac Hn].
  cbn [Strings.LastIndexByte]. rewrite (IH Hn). cbn.
  destruct (Ascii.eqb a c) eqn:E; [apply Ascii.eqb_eq in E; congruence | reflexivity].
Qed.

Lemma LastIndexByte_app pre c post :
  c ∉ post -> Strings.LastIndexByte (pre ++ c :: post) c = Z.of_nat (length pre).
Proof.
  intros Hn. induction pre as [|a pre IH].
  - cbn [app Strings.LastIndexByte length]. rewrite (LastIndexByte_absent _ _ Hn).
    cbn. now rewrite Ascii.eqb_refl.
  - cbn [app Strings.LastIndexByte length]. rewrite IH.
    destruct (Z.leb_spec 0 (Z.of_nat (length pre))); lia.
Qed.

(** The parts of a stat file: where the parentheses are found, the
    name between them and the words behind them. *)
Lemma stat_text_parts (pre c lead w trail : gostring)
  (rest : list (gostring * gostring)) :
  "("%char ∉ pre ->
  ")"%char ∉ Spec.columns lead w rest trail ->
  Spec.blanks lead -> Spec.blanks trail ->
  Spec.word w -> Forall Spec.gap rest ->
  let text := pre ++ "(" ++ c ++ ")" ++ Spec.columns lead w rest trail in
  let l := Z.of_nat (length pre) in
  let r := Z.of_nat (length pre + 1 + length c) in
  Strings.IndexByte text "(" = l
  /\ Strings.LastIndexByte text ")" = r
  /\ ((l <? 0) || (r <? 0) || (r <=? l)) = false
  /\ slice text (l + 1) r = c
  /\ Strings.Fields (Strings.TrimSpace (sliceFrom text (r + 1)))
     = w :: map snd rest.
Proof.
  intros Hpre Hpost Hl Ht Hw Hg text l r.
  set (tail := Spec.columns lead w rest trail) in *.
  pose proof (TrimSpace_columns lead w rest trail Hl Ht Hw Hg) as HT.
  pose proof (Fields_columnBody rest w Hw Hg) as HF. fold tail in HT.
  change (list_ascii_of_string "(") with ["("%char] in text.
  change (list_ascii_of_string ")") with [")"%char] in text.
  assert (Hl1 : Strings.IndexByte text "(" = l).
  { subst text. cbn [app]. now apply IndexByte_app. }
  assert (Hr1 : Strings.LastIndexByte text ")" = r).
  { subst text r. cbn [app].
    replace (pre ++ "("%char :: c ++ ")"%char :: tail)
      with ((pre ++ "("%char :: c) ++ ")"%char :: tail)
      by (rewrite <- app_assoc; reflexivity).
    rewrite LastIndexByte_app by assumption.
    rewrite length_app. cbn [length]. f_equal. lia. }
  assert (Hc : slice text (l + 1) r = c).
  { unfold slice. subst text l r. cbn [app].
    replace (Z.to_nat (Z.of_nat (length pre) + 1)) with (S (length pre)) by lia.
    replace (Z.to_nat (Z.of_nat (length pre + 1 + length c) - (Z.of_nat (length pre) + 1)))
      with (length c) by lia.
    now rewrite drop_app_cons, take_app_length. }
  assert (Hrest : sliceFrom text (r + 1) = tail).
  { unfold sliceFrom. subst text r. cbn [app].
    replace (Z.to_nat (Z.of_nat (length pre + 1 + length c) + 1))
      with (S (length (pre ++ "("%char :: c)))
      by (rewrite length_app; cbn [length]; lia).
    replace (pre ++ "("%char :: c ++ ")"%char :: tail)
      with ((pre ++ "("%char :: c) ++ ")"%char :: tail)
      by (rewrite <- app_assoc; reflexivity).
    now rewrite drop_app_cons. }
  repeat split; try assumption.
  - subst l r.
    destruct (Z.ltb_spec (Z.of_nat (length pre)) 0); [lia|].
    destruct (Z.ltb_spec (Z.of_nat (length pre + 1 + length c)) 0); [lia|].
    destruct (Z.leb_spec (Z.of_nat (length pre + 1 + length c)) (Z.of_nat (length pre)));
      [lia | reflexivity].
  - now rewrite Hrest, HT.
Qed.

(** The stat file: the command name is the text between the first
    opening and the last closing parenthesis, whatever it contains;
    the other values are the white-space separated words behind it,
    taken by position. *)
Theorem parseProcStat_name_and_positions
  (pre c lead w trail : gostring) (rest : list (gostring * gostring)) :
  "("%char ∉ pre ->
  ")"%char ∉ Spec.columns lead w rest trail ->
  Spec.blanks lead -> Spec.blanks trail ->
  Spec.word w -> Forall Spec.gap rest ->
  let ws := w :: map snd rest in
  let text := pre ++ "(" ++ c ++ ")" ++ Spec.columns lead w rest trail in
  ((length ws < 20)%nat ->
     Linux.parseProcStat (Ok text) = Err "short /proc/[pid]/stat")
  /\ ((21 <= length ws)%nat ->
     Linux.parseProcStat (Ok text)
     = Ok {| Linux.ppid := fst (Strconv.Atoi (at_ ws 1));
             Linux.state := at_ ws 0;
             Linux.comm := c;
             Linux.utime := fst (Strconv.ParseUint (at_ ws 12) 64);
             Linux.stime := fst (Strconv.ParseUint (at_ ws 13) 64);
             Linux.starttime := fst (Strconv.ParseUint (at_ ws 20) 64);
             Linux.priority := fst (Strconv.ParseInt (at_ ws 16));
             Linux.nice := fst (Strconv.ParseInt (at_ ws 17));
             Linux.numThreads := fst (Strconv.ParseInt (at_ ws 18));
             Linux.ttyNr := fst (Strconv.ParseInt (at_ ws 5)) |}).
Proof.
  intros Hpre Hpost Hl Ht Hw Hg ws text.
  destruct (stat_text_parts pre c lead w trail rest Hpre Hpost Hl Ht Hw Hg)
    as (Hl1 & Hr1 & Hok & Hc & HF).
  fold text in Hl1, Hr1, Hc, HF. fold ws in HF.
  unfold Linux.parseProcStat. cbv zeta. rewrite Hl1, Hr1, Hok, Hc, HF.
  split; intros Hlen.
  - destruct (Nat.ltb_spec (length ws) 20); [reflexivity | lia].
  - destruct (Nat.ltb_spec (length ws) 20); [lia | reflexivity].
Qed.

Ltac columns_ok :=
  cbv [Ref.cols Ref.psWords Ref.statWords map];
  repeat match goal with
  | |- Forall _ _ => constructor
  | |- Spec.gap _ => split
  | |- Spec.word _ => split
  | |- Spec.blanks _ => unfold Spec.blanks
  | |- _ /\ _ => split
  | |- _ <> _ => discriminate
  | |- _ = _ => reflexivity
  end.

(** A line with padded columns: the command keeps its words and loses
    the padding between them. *)
Lemma parseLine_columns_witness :
  exists p, Darwin.parseLine Ref.timeLib Ref.now Ref.psText = Some p
    /\ Comm p = "launchd" /\ Command p = "/bin/sleep -x 10".
Proof.
  destruct (parseLine_columns Ref.timeLib Ref.now "  " "7" []
              (Ref.cols "   " Ref.psWords)) as [_ H]; [columns_ok ..|].
  destruct (H ltac:(cbn; lia)) as (p & Hp & _ & _ & Hc & Hcmd & _).
  exists p. split; [exact Hp|]. split; [rewrite Hc | rewrite Hcmd]; reflexivity.
Defined.

(** The stat file of a process named [tmux: (server) 1]: the name is
    kept whole, and the values are the words at the positions the
    code reads. *)
Lemma parseProcStat_name_and_positions_witness :
  exists st, Linux.parseProcStat (Ok Ref.statText) = Ok st
    /\ Linux.comm st = "tmux: (server) 1" /\ Linux.state st = "S"
    /\ Linux.ppid st = 1 /\ Linux.ttyNr st = -1
    /\ Linux.utime st = 3 /\ Linux.stime st = 0
    /\ Linux.priority st = 0 /\ Linux.nice st = 1
    /\ Linux.numThreads st = 0 /\ Linux.starttime st = 1000000.
Proof.
  destruct (parseProcStat_name_and_positions "42 " "tmux: (server) 1" " " "S"
              ["010"%char] (Ref.cols " " Ref.statWords)) as [_ H];
    [apply (bool_decide_unpack _); vm_compute; exact I
    |apply (bool_decide_unpack _); vm_compute; exact I
    |columns_ok ..|].
  specialize (H ltac:(cbn; lia)).
  eexists. split; [exact H|]. vm_compute. repeat split; reflexivity.
Defined.

Lemma dropLeading_repeat c k z r :
  z <> c ->
  Strings.dropLeading c (repeat c k ++ z :: r) = z :: r.
Proof.
  intros Hz. induction k as [|k IH]; cbn [repeat app Strings.dropLeading].
  - destruct (Ascii.eqb z c) eqn:E; [apply Ascii.eqb_eq in E; congruence | reflexivity].
  - now rewrite Ascii.eqb_refl.
Qed.

Lemma rev_repeat {A} (x : A) k : rev (repeat x k) = repeat x k.
Proof.
  induction k as [|k IH]; [reflexivity|].
  cbn [repeat rev]. rewrite IH. clear IH.
  induction k as [|k IH]; [reflexivity|]. cbn [repeat app]. now rewrite IH.
Qed.

Lemma TrimRightByte_repeat c k i z :
  z <> c ->
  Strings.TrimRightByte ((i ++ [z]) ++ repeat c k) c = i ++ [z].
Proof.
  intros Hz. unfold Strings.TrimRightByte.
  rewrite rev_app_distr, rev_repeat, rev_app_distr. cbn [rev app].
  rewrite dropLeading_repeat by assumption.
  change (z :: rev i) with ([z] ++ rev i).
  now rewrite rev_app_distr, rev_involutive.
Qed.

Lemma Join_cons2 p q rest sep :
  Strings.Join (p :: q :: rest) sep = p ++ sep ++ Strings.Join (q :: rest) sep.
Proof. reflexivity. Qed.

(** Joining with a byte and splitting at it gives the parts back. *)
Lemma Split_Join parts sep :
  parts <> [] -> Forall (fun p => sep ∉ p) parts ->
  Strings.Split (Strings.Join parts [sep]) sep = parts.
Proof.
  unfold Strings.Split. intros Hne Hp.
  induction parts as [|p rest IH]; [congruence|].
  inversion Hp as [|? ? Hsep Hrest]; subst.
  destruct rest as [|q rest].
  - cbn [Strings.Join]. now rewrite splitGo_no_sep.
  - rewrite Join_cons2. cbn [app].
    rewrite splitGo_sep by assumption. cbn [rev app].
    f_equal. apply IH; [discriminate | assumption].
Qed.

Lemma Join_last parts sep l z :
  last parts = Some (l ++ [z]) ->
  exists i, Strings.Join parts sep = i ++ [z].
Proof.
  induction parts as [|p rest IH]; [discriminate|].
  destruct rest as [|q rest].
  - cbn. intros [= ->]. eauto.
  - intros Hl. rewrite Join_cons2.
    destruct IH as [i Hi]; [exact Hl|].
    exists (p ++ sep ++ i). rewrite Hi. now rewrite !app_assoc.
Qed.

(** The command line: the arguments of the file, which a NUL byte
    separates, joined by single spaces, however many NUL bytes end the
    file. *)
Theorem readCmdline_joins_arguments (env : Linux.Env) (path : gostring)
  (args : list gostring) (a : gostring) (k : nat) :
  Linux.ReadFile env path
  = Ok (Strings.Join args ["000"%char] ++ repeat "000"%char k) ->
  Forall (fun a => "000"%char ∉ a) args ->
  last args = Some a -> a <> [] ->
  Linux.readCmdline env path = Strings.Join args " ".
Proof.
  intros Hfile Hargs Hlast Ha.
  destruct (exists_last Ha) as (l & z & ->).
  unfold Linux.readCmdline. rewrite Hfile.
  destruct (Join_last args ["000"%char] l z Hlast) as [i Hi].
  assert (Hz : z <> "000"%char).
  { intros ->. rewrite Forall_forall in Hargs.
    apply (Hargs (l ++ ["000"%char])).
    - apply last_Some_elem_of. exact Hlast.
    - apply elem_of_app. right. apply elem_of_cons. auto. }
  assert (Hne : args <> []) by (intros ->; discriminate).
  destruct (Strings.Join args ["000"%char] ++ repeat "000"%char k) eqn:E.
  - rewrite Hi in E. destruct i; discriminate.
  - rewrite <- E. rewrite Hi, TrimRightByte_repeat by assumption.
    rewrite <- Hi. now rewrite Split_Join.
Qed.

(** Three arguments, the last of them with spaces of its own. *)
Lemma readCmdline_joins_arguments_witness :
  Linux.readCmdline (Ref.withFile "/proc/7/cmdline" Ref.cmdlineFile) "/proc/7/cmdline"
  = "sh -c echo hello world".
Proof.
  apply (readCmdline_joins_arguments _ _ Ref.cmdlineArgs "echo hello world" 1).
  - reflexivity.
  - repeat constructor; apply (bool_decide_unpack _); vm_compute; exact I.
  - reflexivity.
  - discriminate.
Defined.

Lemma dropCR_plain l : "013"%char ∉ l -> Bufio.dropCR (rev l) = l.
Proof.
  intros Hn. unfold Bufio.dropCR. destruct (rev l) as [|c r] eqn:E.
  - apply (f_equal (@rev ascii)) in E. now rewrite rev_involutive in E.
  - assert (Hc : c ∈ l).
    { apply list_elem_of_In, in_rev. rewrite E. apply in_eq. }
    destruct (Ascii.eqb c "013") eqn:Ec.
    + apply Ascii.eqb_eq in Ec. subst c. contradiction.
    + rewrite <- E. apply rev_involutive.
Qed.

(** A text of lines that fit is scanned into those lines. *)
Lemma scanLines_unlines maxTok lines :
  Forall (Spec.plainLine maxTok) lines ->
  Bufio.scanLines maxTok (Bufio.unlines lines) = (lines, false).
Proof.
  unfold Bufio.scanLines, Bufio.unlines.
  induction 1 as [|l ls (Hnl & Hcr & Hlen) Hls IH]; [reflexivity|].
  cbn [map concat]. rewrite <- app_assoc. cbn [app].
  rewrite scanGo_line.
  - rewrite IH. cbn [fst snd]. rewrite app_nil_r. now rewrite dropCR_plain.
  - apply List.Forall_forall. intros c Hc ->. apply Hnl.
    now apply list_elem_of_In.
  - lia.
Qed.

Lemma statusLoop_app l1 : forall l2 m,
  Linux.statusLoop (l1 ++ l2) m = Linux.statusLoop l2 (Linux.statusLoop l1 m).
Proof.
  induction l1 as [|line l1 IH]; intros l2 m; [reflexivity|].
  cbn [app Linux.statusLoop].
  destruct (0 <=? Strings.IndexByte line ":"); apply IH.
Qed.

Lemma statusLoop_skip lines k : forall m,
  Forall (fun line => ~ Spec.setsKey line k) lines ->
  Linux.statusLoop lines m !! k = m !! k.
Proof.
  induction lines as [|line lines IH]; intros m Hl; [reflexivity|].
  inversion Hl as [|? ? Hline Hrest]; subst.
  cbn [Linux.statusLoop].
  destruct (Z.leb_spec 0 (Strings.IndexByte line ":")) as [Hi|Hi]; [|now apply IH].
  destruct (IndexByte_split line ":" Hi) as (pre & post & Hs & Hn & Hpre & Hpost).
  rewrite IH by assumption. rewrite Hpre.
  apply lookup_insert_ne. intros Hk. apply Hline.
  exists pre, post. split; [exact Hs|]. split; assumption.
Qed.

Lemma statusLoop_line key val m :
  ":"%char ∉ key ->
  Linux.statusLoop [key ++ ":" ++ val] m
  = <[Strings.TrimSpace key := Strings.TrimSpace val]> m.
Proof.
  intros Hn. change (list_ascii_of_string ":") with [":"%char]. cbn [app].
  cbn [Linux.statusLoop]. rewrite IndexByte_app by assumption.
  destruct (Z.leb_spec 0 (Z.of_nat (length key))); [|lia].
  unfold sliceTo, sliceFrom. rewrite Nat2Z.id, take_app_length.
  replace (Z.to_nat (Z.of_nat (length key) + 1)) with (S (length key)) by lia.
  now rewrite drop_app_cons.
Qed.

(** The status map: a line is cut at its first colon into a key and a
    value, both trimmed of white space, and the last line that sets a
    key gives its value; the lines before it and the lines that set
    other keys or have no colon make no difference. *)
Theorem readStatusMap_last_line_wins (env : Linux.Env) (path : gostring)
  (before after : list gostring) (key val : gostring) :
  Linux.ReadFile env path
  = Ok (Bufio.unlines (before ++ (key ++ ":" ++ val) :: after)) ->
  Forall (Spec.plainLine Bufio.MaxScanTokenSize)
         (before ++ (key ++ ":" ++ val) :: after) ->
  ":"%char ∉ key ->
  Forall (fun line => ~ Spec.setsKey line (Strings.TrimSpace key)) after ->
  fst (Linux.readStatusMap env path) !! Strings.TrimSpace key
  = Some (Strings.TrimSpace val)
  /\ snd (Linux.readStatusMap env path) = false.
Proof.
  intros Hfile Hfit Hkey Hafter. unfold Linux.readStatusMap.
  rewrite Hfile, (scanLines_unlines _ _ Hfit). cbn [fst snd].
  split; [|reflexivity].
  change (before ++ (key ++ ":" ++ val) :: after)
    with (before ++ [key ++ ":" ++ val] ++ after).
  rewrite !statusLoop_app, statusLoop_skip by assumption.
  rewrite statusLoop_line by assumption.
  apply lookup_insert_eq.
Qed.

Lemma setsKey_inv line k :
  Spec.setsKey line k ->
  (0 <=? Strings.IndexByte line ":") = true
  /\ Strings.TrimSpace (sliceTo line (Strings.IndexByte line ":")) = k.
Proof.
  intros (key & val & -> & Hn & Hk).
  change (list_ascii_of_string ":") with [":"%char]. cbn [app].
  rewrite IndexByte_app by assumption. split; [apply Z.leb_le; lia|].
  unfold sliceTo. now rewrite Nat2Z.id, take_app_length.
Qed.

(** A status file that names the process twice: the second line
    gives the name, cut at its first colon and trimmed. *)
Lemma readStatusMap_last_line_wins_witness :
  fst (Linux.readStatusMap (Ref.withFile "/proc/7/status" Ref.statusFile)
         "/proc/7/status") !! ("Name" : gostring)
  = Some ("a:b" : gostring)
  /\ snd (Linux.readStatusMap (Ref.withFile "/proc/7/status" Ref.statusFile)
            "/proc/7/status") = false.
Proof.
  apply (readStatusMap_last_line_wins _ _ Ref.statusHead Ref.statusTail
           "Name" ("009"%char :: "a:b  ")).
  - reflexivity.
  - repeat constructor;
      try (apply (bool_decide_unpack _); vm_compute; exact I).
  - apply (bool_decide_unpack _). vm_compute. exact I.
  - repeat constructor; intros H; apply setsKey_inv in H;
      vm_compute in H; destruct H; discriminate.
Defined.



Lemma ParseInt_digits_pair s :
  Spec.allDigits s -> s <> [] ->
  Strconv.ParseInt s
  = if Spec.decimal s <? 2 ^ 63 then (Spec.decimal s, None)
    else (2 ^ 63 - 1, Some Strconv.ErrRange).
Proof.
  intros Hd Hne. unfold Strconv.ParseInt.
  destruct s as [|c t]; [congruence|].
  inversion Hd as [|? ? Hc Ht]; subst.
  rewrite (isDigit_not c "-"), (isDigit_not c "+") by (assumption || reflexivity).
  cbn [orb negb andb]. unfold Strconv.ParseUint.
  rewrite parseUintLoop_sat; [|assumption|cbn; lia|cbn; lia].
  fold (Spec.decimal (c :: t)).
  change (2 ^ 64 - 1) with 18446744073709551615.
  change (2 ^ 63 - 1) with 9223372036854775807.
  change (2 ^ 63) with 9223372036854775808.
  destruct (Z.leb_spec (Spec.decimal (c :: t)) 18446744073709551615);
    cbv beta iota.
  - destruct (Z.leb_spec 9223372036854775808 (Spec.decimal (c :: t)));
      destruct (Z.ltb_spec (Spec.decimal (c :: t)) 9223372036854775808);
      (reflexivity || lia).
  - change (9223372036854775808 <=? 18446744073709551615) with true.
    destruct (Z.ltb_spec (Spec.decimal (c :: t)) 9223372036854775808);
      (reflexivity || lia).
Qed.

(** A count of a row: a JSON number of digits, or a string that is
    digits once trimmed, gives the number it denotes when that fits in
    63 bits, and 0 (not the largest value) when it does not. *)
Theorem getInt64_digits (m : Windows.row) (k d : gostring) :
  Spec.allDigits d -> d <> [] ->
  m !! k = Some (Windows.ANumber d)
  \/ (exists v, m !! k = Some (Windows.AString v) /\ Strings.TrimSpace v = d) ->
  Windows.getInt64 m k = if Spec.decimal d <? 2 ^ 63 then Spec.decimal d else 0.
Proof.
  intros Hd Hne Hm. unfold Windows.getInt64.
  destruct Hm as [-> | (v & -> & ->)];
    rewrite (ParseInt_digits_pair d Hd Hne);
    destruct (Spec.decimal d <? 2 ^ 63); reflexivity.
Qed.

(** A working set given as a number, and one beyond 63 bits given as
    a padded string. *)
Lemma getInt64_digits_witness :
  Windows.getInt64 (<[("WorkingSetSize" : gostring) := Windows.ANumber "4096"]> ∅)
    "WorkingSetSize" = 4096
  /\ Windows.getInt64
       (<[("VirtualSize" : gostring) := Windows.AString " 9223372036854775808 "]> ∅)
       "VirtualSize" = 0.
Proof.
  assert (D : forall s : gostring,
             bool_decide (Forall (fun c => isDigit c = true) s) = true ->
             Spec.allDigits s).
  { intros s H. apply bool_decide_eq_true in H. exact H. }
  split.
  - apply (getInt64_digits _ _ "4096").
    + apply D. vm_compute. reflexivity.
    + discriminate.
    + left. apply lookup_insert_eq.
  - apply (getInt64_digits _ _ "9223372036854775808").
    + apply D. vm_compute. reflexivity.
    + discriminate.
    + right. eexists. split; [apply lookup_insert_eq | vm_compute; reflexivity].
Defined.

Lemma plainLine_no_newline maxTok l :
  Spec.plainLine maxTok l -> Forall (fun c => c <> "010"%char) l.
Proof.
  intros (Hnl & _ & _). apply List.Forall_forall. intros c Hc ->.
  apply Hnl. now apply list_elem_of_In.
Qed.

(** Lines that fit are delivered, and the scan goes on behind them. *)
Lemma scanGo_unlines_app maxTok lines rest :
  Forall (Spec.plainLine maxTok) lines ->
  Bufio.scanGo maxTok [] 0 (Bufio.unlines lines ++ rest)
  = (lines ++ fst (Bufio.scanGo maxTok [] 0 rest),
     snd (Bufio.scanGo maxTok [] 0 rest)).
Proof.
  unfold Bufio.unlines.
  induction 1 as [|l ls Hl Hls IH].
  - cbn [map concat app]. now destruct (Bufio.scanGo maxTok [] 0 rest).
  - cbn [map concat]. rewrite <- !app_assoc. cbn [app].
    rewrite scanGo_line.
    + rewrite IH. cbn [fst snd]. rewrite app_nil_r.
      destruct Hl as (_ & Hcr & _). now rewrite dropCR_plain.
    + eapply plainLine_no_newline; eassumption.
    + destruct Hl as (_ & _ & Hlen). lia.
Qed.

(** The Darwin snapshot is made line by line: output whose lines are
    shorter than 1 MiB gives the records of its lines in order, a
    line without a record being passed over; one line of 1 MiB or
    more, wherever it stands, makes the whole collection fail. *)
Theorem darwin_snapshot_line_by_line (tl : Time.Lib) (now : Time.Time) :
  (forall lines,
     Forall (Spec.plainLine (1024 * 1024)) lines ->
     Darwin.collectProcesses tl now (Ok (Bufio.unlines lines))
     = Ok (omap (Darwin.parseLine tl now) lines))
  /\ (forall before long after,
     Forall (Spec.plainLine (1024 * 1024)) before ->
     "010"%char ∉ long -> 1024 * 1024 <= len long ->
     Darwin.collectProcesses tl now
       (Ok (Bufio.unlines before ++ long ++ "010"%char :: after))
     = Err "bufio.Scanner: token too long").
Proof.
  split.
  - intros lines Hl. unfold Darwin.collectProcesses.
    now rewrite (scanLines_unlines _ _ Hl).
  - intros before long after Hb Hnl Hlen. unfold Darwin.collectProcesses.
    unfold Bufio.scanLines. rewrite (scanGo_unlines_app _ _ _ Hb).
    rewrite scanGo_too_long; [reflexivity| |lia].
    apply List.Forall_forall. intros c Hc ->. apply Hnl.
    now apply list_elem_of_In.
Qed.

(** An empty line and a line of two words give no record and no
    error. *)
Lemma darwin_snapshot_line_by_line_witness :
  Darwin.collectProcesses Ref.timeLib Ref.now
    (Ok (Bufio.unlines [ [] ; ("PID COMMAND" : gostring) ]))
  = Ok [].
Proof.
  destruct (darwin_snapshot_line_by_line Ref.timeLib Ref.now) as [H _].
  rewrite H; [reflexivity|].
  repeat constructor; try (apply (bool_decide_unpack _); vm_compute; exact I).
Defined.

Lemma isDigit_plainByte c : isDigit c = true -> Spec.plainByte c = true.
Proof.
  intros H. destruct (isDigit_plain c H) as [H1 H2].
  unfold Spec.plainByte. rewrite H2.
  destruct (Z.ltb_spec (code c) 128); [reflexivity | lia].
Qed.

Lemma btimeLoop_skip before : forall rest,
  Forall (fun l => Strings.HasPrefix l "btime " = false) before ->
  Linux.btimeLoop (before ++ rest) = Linux.btimeLoop rest.
Proof.
  induction before as [|l before IH]; intros rest Hb; [reflexivity|].
  inversion Hb as [|? ? Hl Hrest]; subst.
  cbn [app Linux.btimeLoop]. rewrite Hl. now apply IH.
Qed.

(** The boot time is the number on the first line of [/proc/stat]
    that begins with [btime] and a space. *)
Theorem bootTime_first_btime_line (env : Linux.Env)
  (before after : list gostring) (d : gostring) :
  Linux.ReadFile env "/proc/stat"
  = Ok (Bufio.unlines (before ++ ("btime " ++ d) :: after)) ->
  Forall (Spec.plainLine Bufio.MaxScanTokenSize)
         (before ++ ("btime " ++ d) :: after) ->
  Forall (fun l => Strings.HasPrefix l "btime " = false) before ->
  Spec.allDigits d -> d <> [] ->
  Linux.bootTime env = (Z.min (Spec.decimal d) (2 ^ 63 - 1), true).
Proof.
  intros Hfile Hfit Hb Hd Hne. unfold Linux.bootTime.
  rewrite Hfile, (scanLines_unlines _ _ Hfit). cbn [fst].
  rewrite btimeLoop_skip by assumption.
  cbn [Linux.btimeLoop].
  assert (Hp : Strings.HasPrefix ("btime " ++ d) "btime " = true)
    by (destruct d; reflexivity).
  rewrite Hp.
  assert (Hf : Strings.Fields ("btime " ++ d) = ["btime" : gostring; d]).
  { replace (("btime " : gostring) ++ d)
      with (Spec.columnBody "btime" [((" " : gostring), d)])
      by (unfold Spec.columnBody; cbn; now rewrite app_nil_r).
    apply (Fields_columnBody [((" " : gostring), d)] "btime").
    - split; [discriminate|]. repeat constructor.
    - constructor; [|constructor]. split; [|split]; cbn [fst snd].
      + repeat constructor.
      + discriminate.
      + split; [assumption|]. unfold Spec.allDigits in Hd.
        eapply Forall_impl; [exact Hd|]. intros c Hc. now apply isDigit_plainByte. }
  rewrite Hf. cbn [length Nat.leb at_ nth].
  now rewrite ParseInt_digits_sat.
Qed.

(** A stat file of three lines. *)
Lemma bootTime_first_btime_line_witness :
  Linux.bootTime
    (Ref.withFile "/proc/stat"
       (Bufio.unlines [ ("cpu  10 0 20 300" : gostring);
                        ("btime 1748700000" : gostring);
                        ("processes 5" : gostring) ]))
  = (1748700000, true).
Proof.
  apply (bootTime_first_btime_line _ [ ("cpu  10 0 20 300" : gostring) ]
           [ ("processes 5" : gostring) ] "1748700000").
  - reflexivity.
  - repeat constructor; try (apply (bool_decide_unpack _); vm_compute; exact I).
  - repeat constructor.
  - apply (bool_decide_unpack _). vm_compute. exact I.
  - discriminate.
Defined.

(** The field list of the stat file is indexed up to position 20
    behind a check that admits a list of 20.  The checked run agrees
    with [Linux.parseProcStat] wherever it returns; it panics only
    where that gives a record, and it does panic when exactly twenty
    words follow the name. *)
Theorem readProcStat_panics_on_twenty_fields :
  (forall file,
     match Checked.parseProcStat file with
     | Checked.Returns r => Linux.parseProcStat file = r
     | Checked.Panics msg =>
         msg = "runtime error: index out of range [20] with length 20"
         /\ exists st, Linux.parseProcStat file = Ok st
     end)
  /\ (forall (pre c lead w trail : gostring) (rest : list (gostring * gostring)),
     "("%char ∉ pre ->
     ")"%char ∉ Spec.columns lead w rest trail ->
     Spec.blanks lead -> Spec.blanks trail ->
     Spec.word w -> Forall Spec.gap rest ->
     length (w :: map snd rest) = 20%nat ->
     Checked.parseProcStat
       (Ok (pre ++ "(" ++ c ++ ")" ++ Spec.columns lead w rest trail))
     = Checked.Panics "runtime error: index out of range [20] with length 20").
Proof.
  split.
  - intros [s|e]; [|reflexivity].
    unfold Checked.parseProcStat, Linux.parseProcStat. cbv zeta.
    destruct ((Strings.IndexByte s "(" <? 0) || (Strings.LastIndexByte s ")" <? 0)
              || (Strings.LastIndexByte s ")" <=? Strings.IndexByte s "("));
      [reflexivity|].
    set (fields := Strings.Fields _).
    destruct (Nat.ltb_spec (length fields) 20) as [|Hlen]; [reflexivity|].
    clearbody fields.
    do 20 (destruct fields as [|? fields]; [cbn [length] in Hlen; lia|]).
    destruct fields as [|f20 fields].
    + split; [vm_compute; reflexivity | eexists; reflexivity].
    + reflexivity.
  - intros pre c lead w trail rest Hpre Hpost Hl Ht Hw Hg Hlen.
    destruct (stat_text_parts pre c lead w trail rest Hpre Hpost Hl Ht Hw Hg)
      as (Hl1 & Hr1 & Hok & _ & HF).
    unfold Checked.parseProcStat. cbv zeta. rewrite Hl1, Hr1, Hok, HF.
    set (fields := w :: map snd rest) in *. clearbody fields.
    do 20 (destruct fields as [|? fields]; [discriminate Hlen|]).
    destruct fields; [|discriminate Hlen].
    vm_compute. reflexivity.
Qed.

(** A stat file with twenty words behind the name. *)
Lemma readProcStat_panics_on_twenty_fields_witness :
  Checked.parseProcStat (Ok Ref.statText20)
  = Checked.Panics "runtime error: index out of range [20] with length 20"
  /\ exists st, Linux.parseProcStat (Ok Ref.statText20) = Ok st.
Proof.
  destruct readProcStat_panics_on_twenty_fields as [A B].
  assert (P : Checked.parseProcStat (Ok Ref.statText20)
              = Checked.Panics "runtime error: index out of range [20] with length 20").
  { apply (B "9 " "sh" " " "S" ["010"%char] (Ref.cols " " (take 19 Ref.statWords))).
    - apply (bool_decide_unpack _). vm_compute. exact I.
    - apply (bool_decide_unpack _). vm_compute. exact I.
    - columns_ok.
    - columns_ok.
    - columns_ok.
    - cbv [Ref.cols Ref.statWords take map]. columns_ok.
    - reflexivity. }
  split; [exact P|].
  specialize (A (Ok Ref.statText20)). rewrite P in A. exact (proj2 A).
Defined.

(** A text whose first byte starts no white-space rune keeps that
    byte at its head when trimmed, unless nothing is left. *)
Lemma TrimSpace_head a t :
  Strings.spaceRuneLen false (a :: t) = 0%nat ->
  Strings.TrimSpace (a :: t) = []
  \/ exists t', Strings.TrimSpace (a :: t) = a :: t'.
Proof.
  intros H0. unfold Strings.TrimSpace. cbn [Strings.trimHead]. rewrite H0.
  destruct (trimHead_suffix true (rev (a :: t)) 0%nat) as [pre Hpre].
  destruct (Strings.trimHead true 0 (rev (a :: t))) as [|c u] eqn:E; [now left|].
  right. assert (Hne : c :: u <> []) by discriminate.
  destruct (exists_last Hne) as (u' & z & Hu). rewrite Hu in *.
  cbn [rev] in Hpre. rewrite app_assoc in Hpre.
  apply app_inj_tail in Hpre as [_ <-].
  exists (rev u'). now rewrite rev_app_distr.
Qed.

Lemma usefulLine_bom l : Windows.usefulLine (Ref.bom ++ l) = None.
Proof.
  unfold Windows.usefulLine, Ref.bom. cbn [app].
  destruct (TrimSpace_head "239"%char ("187"%char :: "191"%char :: l) eq_refl)
    as [-> | [t' ->]]; reflexivity.
Qed.

Lemma omap_cons_match {A B} (f : A -> option B) x r :
  omap f (x :: r)
  = match f x with Some y => y :: omap f r | None => omap f r end.
Proof. reflexivity. Qed.

Lemma dropCR_keeps_head p z l :
  z <> "013"%char ->
  exists l', Bufio.dropCR (rev ((p ++ [z]) ++ l)) = (p ++ [z]) ++ l'.
Proof.
  intros Hz. destruct l as [|x l0 _] using rev_ind.
  - exists []. rewrite !app_nil_r, rev_app_distr. cbn [rev app Bufio.dropCR].
    destruct (Ascii.eqb z "013") eqn:E; [apply Ascii.eqb_eq in E; congruence|].
    now rewrite rev_involutive.
  - rewrite app_assoc, rev_app_distr. cbn [rev app Bufio.dropCR].
    destruct (Ascii.eqb x "013").
    + exists l0. now rewrite rev_involutive.
    + exists (l0 ++ [x]).
      now rewrite rev_involutive, <- app_assoc.
Qed.

(** The sanitizer does not take a byte order mark off a line: it
    drops the whole line that begins with one, so the JSON value on
    that line is lost; output that is a byte order mark and one line
    of JSON fails to be collected when the decoder rejects the mark. *)
Theorem sanitizeJSON_drops_line_with_byte_order_mark (l : gostring) :
  "010"%char ∉ l -> len l + 3 < Bufio.MaxScanTokenSize ->
  (forall rest,
     Windows.sanitizeJSON (Ref.bom ++ l ++ "010"%char :: rest)
     = Windows.sanitizeJSON rest)
  /\ (forall (decode : gostring -> result Windows.any) tl now e e2,
     decode (Ref.bom ++ l ++ ["010"%char]) = Err e ->
     decode [] = Err e2 ->
     Windows.collectProcesses decode tl now (Ok (Ref.bom ++ l ++ ["010"%char]))
     = Err e).
Proof.
  intros Hnl Hlen.
  assert (S : forall rest,
     Windows.sanitizeJSON (Ref.bom ++ l ++ "010"%char :: rest)
     = Windows.sanitizeJSON rest).
  { intros rest. unfold Windows.sanitizeJSON, Bufio.scanLines.
    rewrite app_assoc. rewrite scanGo_line.
    - cbn [fst]. rewrite app_nil_r, omap_cons_match.
      destruct (dropCR_keeps_head ["239"%char; "187"%char] "191"%char l)
        as [l' Hl']; [discriminate|].
      change (["239"%char; "187"%char] ++ ["191"%char]) with Ref.bom in Hl'.
      now rewrite Hl', usefulLine_bom.
    - apply List.Forall_forall. intros c Hc ->.
      apply list_elem_of_In, elem_of_app in Hc as [Hc|Hc]; [|contradiction].
      unfold Ref.bom in Hc.
      repeat (apply elem_of_cons in Hc as [Hc|Hc]; [discriminate|]).
      inversion Hc.
    - unfold len in *. rewrite length_app. cbn [Ref.bom length]. lia. }
  split; [exact S|].
  intros decode tl now e e2 He He2.
  unfold Windows.collectProcesses, Windows.decodeOutput.
  rewrite He, (S []).
  assert (Hs : Windows.sanitizeJSON [] = []) by reflexivity.
  now rewrite Hs, He2.
Qed.

(** An empty array behind a byte order mark. *)
Lemma sanitizeJSON_drops_line_with_byte_order_mark_witness :
  Windows.sanitizeJSON (Ref.bom ++ "[]" ++ ["010"%char]) = []
  /\ exists e,
       Windows.collectProcesses Json.decode Ref.timeLib Ref.now
         (Ok (Ref.bom ++ "[]" ++ ["010"%char])) = Err e.
Proof.
  destruct (sanitizeJSON_drops_line_with_byte_order_mark "[]") as [S C].
  - apply (bool_decide_unpack _). vm_compute. exact I.
  - vm_compute. reflexivity.
  - split; [exact (S []) | eexists; eapply C; vm_compute; reflexivity].
Defined.

Lemma flush_nonempty res buf :
  Forall (fun tok : list Z => tok <> []) res ->
  Forall (fun tok : list Z => tok <> []) (Shell.flush res buf).
Proof.
  intros H. destruct buf; [exact H|]. cbn [Shell.flush].
  apply Forall_app. split; [exact H|]. now repeat constructor.
Qed.

Lemma splitLoop_nonempty s : forall res buf quote,
  Forall (fun tok : list Z => tok <> []) res ->
  Forall (fun tok : list Z => tok <> []) (Shell.splitLoop s res buf quote).
Proof.
  induction s as [|r t IH]; intros res buf quote H; cbn [Shell.splitLoop].
  - now apply flush_nonempty.
  - repeat match goal with |- context [if ?b then _ else _] => destruct b end;
      apply IH; auto using flush_nonempty.
Qed.

Lemma bareRune_inv r :
  Spec.bareRune r = true -> r <> 9 /\ r <> 32 /\ r <> 39 /\ r <> 34.
Proof.
  unfold Spec.bareRune. intros H. apply negb_true_iff in H.
  repeat (apply orb_false_iff in H as [H ?]).
  repeat split; apply Z.eqb_neq; assumption.
Qed.

Lemma splitLoop_bare w : forall t res buf,
  Spec.bare w ->
  Shell.splitLoop (w ++ t) res buf 0 = Shell.splitLoop t res (buf ++ w) 0.
Proof.
  induction w as [|r w IH]; intros t res buf Hw.
  - now rewrite app_nil_r.
  - inversion Hw as [|? ? Hr Hw']; subst.
    destruct (bareRune_inv r Hr) as (H9 & H32 & H39 & H34).
    cbn [app Shell.splitLoop].
    apply Z.eqb_neq in H9, H32, H39, H34. rewrite H9, H32, H39, H34.
    cbn. rewrite IH by assumption. now rewrite <- app_assoc.
Qed.

Lemma splitLoop_quoted inner : forall q t res buf,
  q = 39 \/ q = 34 -> q ∉ inner ->
  Shell.splitLoop (inner ++ t) res buf q = Shell.splitLoop t res (buf ++ inner) q.
Proof.
  induction inner as [|r inner IH]; intros q t res buf Hq Hn.
  - now rewrite app_nil_r.
  - apply not_elem_of_cons in Hn as [Hr Hn].
    cbn [app Shell.splitLoop].
    assert (Hq0 : (q =? 0) = false) by (apply Z.eqb_neq; lia).
    assert (Hrq : (r =? q) = false) by (apply Z.eqb_neq; congruence).
    rewrite Hq0, Hrq. cbn. rewrite IH by assumption. now rewrite <- app_assoc.
Qed.

Lemma flush_flush res buf : Shell.flush (Shell.flush res buf) [] = Shell.flush res buf.
Proof. reflexivity. Qed.

Lemma splitLoop_blanks b : forall t res buf,
  Spec.blankRunes b -> b <> [] ->
  Shell.splitLoop (b ++ t) res buf 0 = Shell.splitLoop t (Shell.flush res buf) [] 0.
Proof.
  induction b as [|r b IH]; intros t res buf Hb Hne; [congruence|].
  inversion Hb as [|? ? Hr Hb']; subst.
  cbn [app Shell.splitLoop].
  assert (E : ((r =? 9) || (r =? 32)) = true) by (destruct Hr as [-> | ->]; reflexivity).
  rewrite E. cbn [Z.eqb andb].
  destruct b as [|r' b]; [reflexivity|].
  rewrite IH by (assumption || discriminate). reflexivity.
Qed.

(** Splitting a command line: no token is empty; a quoted segment
    loses its quotes, keeps its tabs and spaces and is one token with
    the text that touches it, and an empty token is not delivered; a
    quote that is not closed takes the rest of the text. *)
Theorem naiveShellSplit_tokens :
  (forall s, Forall (fun tok => tok <> []) (Shell.naiveShellSplit s))
  /\ (forall w1 q inner w2 b w3,
      Spec.bare w1 -> Spec.bare w2 -> Spec.bare w3 -> w3 <> [] ->
      q = 39 \/ q = 34 -> q ∉ inner ->
      Spec.blankRunes b -> b <> [] ->
      Shell.naiveShellSplit (w1 ++ [q] ++ inner ++ [q] ++ w2 ++ b ++ w3)
      = match w1 ++ inner ++ w2 with
        | [] => [w3]
        | tok => [tok; w3]
        end)
  /\ (forall w1 q rest,
      Spec.bare w1 -> q = 39 \/ q = 34 -> q ∉ rest -> w1 ++ rest <> [] ->
      Shell.naiveShellSplit (w1 ++ [q] ++ rest) = [w1 ++ rest]).
Proof.
  split; [|split].
  - intros s. apply splitLoop_nonempty. constructor.
  - intros w1 q inner w2 b w3 H1 H2 H3 Hne Hq Hn Hb Hbn.
    unfold Shell.naiveShellSplit. cbn [app].
    rewrite splitLoop_bare by assumption.
    destruct Hq as [-> | ->]; cbn [app Shell.splitLoop Z.eqb Pos.eqb andb orb negb];
      (rewrite splitLoop_quoted by (auto || assumption));
      cbn [Shell.splitLoop Z.eqb Pos.eqb andb orb negb];
      rewrite splitLoop_bare by assumption;
      rewrite splitLoop_blanks by assumption;
      rewrite <- (app_nil_r w3) at 1; rewrite splitLoop_bare by assumption;
      cbn [app Shell.splitLoop]; rewrite <- app_assoc;
      destruct (w1 ++ inner ++ w2) as [|x tok]; destruct w3;
      (congruence || reflexivity).
  - intros w1 q rest H1 Hq Hn Hne.
    unfold Shell.naiveShellSplit. cbn [app].
    rewrite splitLoop_bare by assumption.
    destruct Hq as [-> | ->]; cbn [app Shell.splitLoop Z.eqb Pos.eqb andb orb negb];
      rewrite <- (app_nil_r rest) at 1;
      (rewrite splitLoop_quoted by (auto || assumption));
      cbn [app Shell.splitLoop];
      destruct (w1 ++ rest) eqn:E2; (congruence || reflexivity).
Qed.

(** A word with a quoted part of two spaces, and a second word. *)
Lemma naiveShellSplit_tokens_witness :
  Shell.naiveShellSplit (Ref.runes "ec'ho  hi'x   y")
  = [Ref.runes "echo  hix"; Ref.runes "y"].
Proof.
  destruct naiveShellSplit_tokens as (_ & H & _).
  apply (H (Ref.runes "ec") 39 (Ref.runes "ho  hi") (Ref.runes "x")
           (Ref.runes "   ") (Ref.runes "y")).
  - repeat constructor.
  - repeat constructor.
  - repeat constructor.
  - discriminate.
  - now left.
  - apply (bool_decide_unpack _). vm_compute. exact I.
  - repeat constructor; now right.
  - discriminate.
Defined.
